(** * nb_hdr_plotter: histogram manipulation and curve derivation

    A shallow embedding of [hdr_manipulation.py] and of the analysis part of
    [hdr_tool.py] (the three branches of [main] that fill [plotDataMap]).

    Conventions of the embedding:
    - Python [int] is [Z]; Python [float] is idealised as an exact rational
      [Q] (rounding is not modelled).  Where the code computes a number, the
      embedding computes the same expression, operation by operation; what
      is stated of such numbers is what rounding keeps: values computed by
      the same operations, signs, orders and divisions by zero.
    - A Python exception is the [Raise] constructor of [result]; the code
      that may raise threads [result] through its calls.
    - The [hdrh] package ([HdrHistogram], its log reader and its iterators)
      is an external dependency of the repository ([install_requires] in
      [setup.py]); the repository treats a histogram as an opaque object
      with attributes and methods.  It is embedded as the interface [Hdrh],
      its documented behaviour as [HdrhLaws], and [RefHdrh] is a small
      executable implementation of the interface. *)

From Stdlib Require Import ZArith QArith Qround.
From stdpp Require Import base option list strings gmap.

Local Open Scope Z_scope.

(** ** Python values, exceptions and builtins *)

Inductive PyError : Type :=
  | ValueError
  | IndexError
  | ZeroDivisionError
  | OverflowError
  | OSError.

Inductive result (A : Type) : Type :=
  | Ok (a : A)
  | Raise (e : PyError).
Arguments Ok {A} a.
Arguments Raise {A} e.

#[global] Instance result_ret : MRet result := fun A a => Ok a.
#[global] Instance result_bind : MBind result := fun A B f m =>
  match m with
  | Ok a => f a
  | Raise e => Raise e
  end.
#[global] Instance result_fmap : FMap result := fun A B f m =>
  match m with
  | Ok a => Ok (f a)
  | Raise e => Raise e
  end.

(** [raises m]: evaluating [m] ends in an exception. *)
Definition raises {A} (m : result A) : Prop := ∃ e, m = Raise e.

(** [a < b] on floats, as a boolean. *)
Definition Qlt_bool (a b : Q) : bool := negb (Qle_bool b a).

(** [max(iterable)]: [ValueError] on an empty iterable, otherwise the first
    maximal item (an item replaces the running best only when strictly
    greater).  [lt] is the order of the items, or of their keys for
    [max(iterable, key=...)]. *)
Definition py_max_by {A} (lt : A → A → bool) (l : list A) : result A :=
  match l with
  | [] => Raise ValueError
  | x :: l' => Ok (fold_left (λ best y, if lt best y then y else best) l' x)
  end.

(** [min(iterable)]: as [py_max_by], with the comparison reversed. *)
Definition py_min_by {A} (lt : A → A → bool) (l : list A) : result A :=
  match l with
  | [] => Raise ValueError
  | x :: l' => Ok (fold_left (λ best y, if lt y best then y else best) l' x)
  end.

Definition py_max : list Q → result Q := py_max_by Qlt_bool.
Definition py_min : list Q → result Q := py_min_by Qlt_bool.
Definition py_maxZ : list Z → result Z := py_max_by Z.ltb.
Definition py_minZ : list Z → result Z := py_min_by Z.ltb.

(** [max(lists, key=len)] *)
Definition py_max_key_len {A} : list (list A) → result (list A) :=
  py_max_by (λ a b, (length a <? length b)%nat).

(** [sum(iterable)] over integers, starting from [0]. *)
Definition py_sum (l : list Z) : Z := fold_left Z.add l 0.

(** [int(x)] on a float: truncation towards zero. *)
Definition py_int (x : Q) : Z := Z.quot (Qnum x) (Z.pos (Qden x)).

(** [a / b] on floats: [ZeroDivisionError] when [b] is zero. *)
Definition py_div (a b : Q) : result Q :=
  if Qeq_bool b 0 then Raise ZeroDivisionError else Ok (a / b)%Q.

(** [xs, ys = zip] of the unpacked rows: the assignment needs exactly two
    columns; [zip] of no rows yields no column at all, and the assignment
    raises [ValueError]. *)
Definition py_unzip2 {A B} (pairs : list (A * B)) : result (list A * list B) :=
  match pairs with
  | [] => Raise ValueError
  | _ :: _ => Ok (pairs.*1, pairs.*2)
  end.

(** ** The [hdrh] interface *)

(** One step of a histogram iterator ([HdrIterationValue]), with the
    attributes the repository reads. *)
Record HdrIterationValue : Type := {
  value_iterated_from : Q;
  value_iterated_to : Q;
  count_added_in_this_iter_step : Z;
  percentile : Q
}.

Class Hdrh : Type := {
  (** the opaque histogram object *)
  hist : Type;
  (** attributes *)
  tag : hist → option string;
  start_time_stamp_msec : hist → Z;
  end_time_stamp_msec : hist → Z;
  total_count : hist → Z;
  min_value : hist → Z;
  max_value : hist → Z;
  lowest_trackable_value : hist → Z;
  highest_trackable_value : hist → Z;
  significant_figures : hist → Z;
  counts : hist → list Z;
  (** [HdrHistogram(lowest, highest, significant_figures)] *)
  HdrHistogram : Z → Z → Z → result hist;
  (** [self.add(other)]: the object [self] after the in-place merge *)
  hist_add : hist → hist → result hist;
  (** [self.get_value_at_percentile(percentile)] *)
  get_value_at_percentile : hist → Q → Z;
  (** [self.get_linear_iterator(value_units_per_bucket)], all its steps *)
  get_linear_iterator : hist → Q → list HdrIterationValue
}.

(** Counts added by the steps of an iteration, in order. *)
Definition step_counts (steps : list HdrIterationValue) : list Z :=
  count_added_in_this_iter_step <$> steps.

(** What the repository relies on from [hdrh]. *)
Class HdrhLaws (L : Hdrh) : Prop := {
  (** a histogram can be created for every precision between 1 and 5
      significant figures; a fresh histogram is empty and has the requested
      range and precision *)
  HdrHistogram_ok lo hi sf :
    1 ≤ lo → 1 ≤ sf ≤ 5 → ∃ h, HdrHistogram lo hi sf = Ok h;
  HdrHistogram_fresh lo hi sf h :
    HdrHistogram lo hi sf = Ok h →
    lowest_trackable_value h = lo ∧ highest_trackable_value h = hi ∧
    significant_figures h = sf ∧
    total_count h = 0 ∧ Forall (λ c, c = 0) (counts h);
  (** merging succeeds when the other histogram's values fit the range *)
  hist_add_ok h o :
    max_value o ≤ highest_trackable_value h → ∃ h', hist_add h o = Ok h';
  (** merging adds the sample counts and keeps the bucket layout *)
  hist_add_total h o h' :
    hist_add h o = Ok h' → total_count h' = total_count h + total_count o;
  hist_add_layout h o h' :
    hist_add h o = Ok h' →
    lowest_trackable_value h' = lowest_trackable_value h ∧
    highest_trackable_value h' = highest_trackable_value h ∧
    significant_figures h' = significant_figures h;
  (** merge is commutative *)
  hist_add_comm h a b :
    (hist_add h a ≫= λ h', hist_add h' b) = (hist_add h b ≫= λ h', hist_add h' a);
  (** linear iteration: every step adds a non-negative count, reports the
      cumulative percentile reached, and the iteration ends when all recorded
      samples are exhausted *)
  linear_count_nonneg h w s :
    s ∈ get_linear_iterator h w → 0 ≤ count_added_in_this_iter_step s;
  linear_percentile h w i s :
    0 < total_count h →
    get_linear_iterator h w !! i = Some s →
    (percentile s ==
       100 * inject_Z (py_sum (take (S i) (step_counts (get_linear_iterator h w))))
       / inject_Z (total_count h))%Q;
  linear_exhausts h w :
    0 < total_count h → (0 < w)%Q →
    py_sum (step_counts (get_linear_iterator h w)) = total_count h
}.

(** ** hdr_manipulation.py *)

(** A curve: the x values and the y values. *)
Abbreviation Curve := (list Q * list Q)%type.

Section hdr_manipulation.
Context {L : Hdrh}.

(** 'values' stored in histograms are in ns, we need ms *)
Definition VALUE_FACTOR : Q := 1000000.

(** *** Single-slice functions *)

Definition sliceStartTimestamp (slice : hist) : Z := start_time_stamp_msec slice.

Definition sliceEndTimestamp (slice : hist) : Z := end_time_stamp_msec slice.

Definition sliceMaxValue (slice : hist) (rawFlag : bool) : Q :=
  if rawFlag then inject_Z (max_value slice)
  else (inject_Z (max_value slice) / VALUE_FACTOR)%Q.

Definition sliceMinValue (slice : hist) (rawFlag : bool) : Q :=
  if rawFlag then inject_Z (min_value slice)
  else (inject_Z (min_value slice) / VALUE_FACTOR)%Q.

Definition sliceValueCount (slice : hist) : Z := total_count slice.

(** *** Slice-list functions *)

Definition slicesStartTimestamp (slices : list hist) : result Z :=
  py_minZ (sliceStartTimestamp <$> slices).

Definition slicesEndTimestamp (slices : list hist) : result Z :=
  py_maxZ (sliceEndTimestamp <$> slices).

Definition slicesMinValue (slices : list hist) (rawFlag : bool) : result Q :=
  py_min ((λ sl, sliceMinValue sl rawFlag) <$> slices).

Definition slicesMaxValue (slices : list hist) (rawFlag : bool) : result Q :=
  py_max ((λ sl, sliceMaxValue sl rawFlag) <$> slices).

Definition slicesCountNonempty (slices : list hist) : Z :=
  py_sum ((λ sl, if 0 <? sliceValueCount sl then 1 else 0) <$> slices).

Definition slicesValueCount (slices : list hist) : Z :=
  py_sum (sliceValueCount <$> slices).

(** *** Utilities *)

Definition valueUnitName (rawFlag : bool) : string :=
  if rawFlag then "RU" else "ms".

(** [reduce(lambda _, b: fullHistogram.add(b), slices, None)]: the slices
    are merged, in order, into the one object [fullHistogram]; the first
    merge that raises ends the reduction. *)
Fixpoint reduce_add (fullHistogram : hist) (slices : list hist) : result hist :=
  match slices with
  | [] => Ok fullHistogram
  | b :: slices' => fullHistogram' ← hist_add fullHistogram b; reduce_add fullHistogram' slices'
  end.

Definition aggregateSlices (slices : list hist) (sigFigures : Z) : result hist :=
  metricMax ← slicesMaxValue slices true;
  fullHistogram ← HdrHistogram 1 (py_int (1 + metricMax)) sigFigures;
  reduce_add fullHistogram slices.

(** *** Histogram functions *)

Definition histogramGetValueAtPercentile (histogram : hist) (pct : Q) (rawFlag : bool) : Q :=
  if rawFlag then inject_Z (get_value_at_percentile histogram pct)
  else (inject_Z (get_value_at_percentile histogram pct) / VALUE_FACTOR)%Q.

(** *** Extraction for plots *)

(** The scale between display and raw units. *)
Definition scale_factor (rawFlag : bool) : Q := if rawFlag then 1 else VALUE_FACTOR.

(** The steps the generator expression keeps. *)
Definition kept_steps (cursor : list HdrIterationValue) (max_percentile : Q)
    : list HdrIterationValue :=
  filter (λ step, Qle_bool (percentile step) max_percentile = true) cursor.

(** The pair the generator expression builds from one step. *)
Definition step_point (step : HdrIterationValue) : Q * Z :=
  (((1 # 2) * (value_iterated_from step + value_iterated_to step))%Q,
   count_added_in_this_iter_step step).

Definition normalizedDistribution (histogram : hist) (x_incr max_percentile : Q)
    (rawFlag : bool) : result Curve :=
  let vf := scale_factor rawFlag in
  let x_incr_rw := (x_incr * vf)%Q in
  if 0 <? sliceValueCount histogram then
    let cursor := get_linear_iterator histogram x_incr_rw in
    columns ← py_unzip2 (step_point <$> kept_steps cursor max_percentile);
    let xs0 : list Q := columns.1 in
    let ys0 : list Z := columns.2 in
    let xs := (λ x, x / vf)%Q <$> xs0 in
    ys ← mapM (λ y, py_div (inject_Z y) (inject_Z (total_count histogram) * x_incr)%Q) ys0;
    Ok (xs, ys)
  else Ok ([], []).

End hdr_manipulation.

(** ** hdr_tool.py: the analysis part of [main] *)

Section hdr_tool.
Context {L : Hdrh}.

Definition SIGNIFICANT_FIGURES : Z := 3.
Definition DEFAULT_MAX_PERCENTILE_REACHED : Q := 97.5.
Definition DEFAULT_PLOT_POINTS_COUNT : Z := 500.

(** The parsed command line, as far as the analysis reads it. *)
Record Args : Type := {
  max_percentile : Q;
  plot_points_count : Z;
  baseplot : bool;
  percentiles : bool;
  stability : bool;
  raw : bool
}.

(** The state [main] threads through the analysis: the dict [plotDataMap]
    and what has been printed so far (one entry per [print] call). *)
Record MainState : Type := {
  plotDataMap : gmap string (list Curve);
  stdout : list string
}.

Definition print (text : string) (st : MainState) : MainState :=
  {| plotDataMap := plotDataMap st; stdout := stdout st ++ [text] |}.

(** [plotDataMap[key] = plots] *)
Definition set_plot (key : string) (plots : list Curve) (st : MainState) : MainState :=
  {| plotDataMap := <[key := plots]> (plotDataMap st); stdout := stdout st |}.

(** *** ordinary distribution of the target metric ("baseplot") *)

Definition baseplot_branch (fullHistogram : hist) (xStep : Q) (args : Args)
    (st : MainState) : result MainState :=
  if baseplot args then
    let st := print "  * Calculating base plot ... " st in
    curve ← normalizedDistribution fullHistogram xStep (max_percentile args) (raw args);
    Ok (print "done." (set_plot "baseplot" [curve] st))
  else Ok st.

(** *** per-slice plots *)

(** The padding of the per-slice curves (the two assignments after the
    comment "we need to pad this with additional trailing zeroes and have
    the same xs for all curves").  A list repeated a negative number of
    times is empty, which is what the truncated subtraction on [nat]
    gives. *)
Definition pad_curves (perSlicePlots0 : list Curve) : result (list Curve) :=
  fullXs ← py_max_key_len (fst <$> perSlicePlots0);
  Ok ((λ pl : Curve, (fullXs, pl.2 ++ replicate (length fullXs - length pl.2) 0%Q))
        <$> perSlicePlots0).

Definition stability_warning : string :=
  "*WARNING*: Nothing to plot for stability analysis.".

Definition stability_branch (slices : list hist) (xStep : Q) (args : Args)
    (st : MainState) : result MainState :=
  if stability args then
    if (1 <? length slices)%nat then
      let st := print "  * Calculating stability plot ... " st in
      perSlicePlots0 ←
        mapM (λ sl, normalizedDistribution sl xStep (max_percentile args) (raw args)) slices;
      perSlicePlots ← pad_curves perSlicePlots0;
      Ok (print "done." (set_plot "stability" perSlicePlots st))
    else Ok (print stability_warning st)
  else Ok st.

(** *** percentile diagram (a.k.a. integral of the base plot) *)

(** The [reduce] that collects the running totals: the state goes from
    [(tot, [tot0, ..., tot_i])] to [(tot + h_i, [tot0, ..., tot_i, tot_i + h_i])],
    and the list is kept. *)
Definition running_totals (bys : list Q) : list Q :=
  (fold_left (λ (ac : Q * list Q) newval, ((ac.1 + newval)%Q, ac.2 ++ [(ac.1 + newval)%Q]))
     bys (0%Q, [])).2.

(** From the base plot [(bxs, bys)] to the percentile plot [(pxs, pys)]. *)
Definition percentile_curve (base : Curve) (xStep : Q) : Curve :=
  let bxs := base.1 in
  let bys := base.2 in
  let pys := bxs in
  let pxs0 := running_totals bys in
  let pxs := (λ x, x * xStep * 100)%Q <$> pxs0 in
  (pxs, pys).

Definition percentiles_branch (fullHistogram : hist) (xStep : Q) (args : Args)
    (st : MainState) : result MainState :=
  if percentiles args then
    let st := print "  * Calculating percentile plot ... " st in
    base ←
      match plotDataMap st !! "baseplot" with
      | Some plots =>
          match plots with
          | curve :: _ => Ok curve
          | [] => Raise IndexError
          end
      | None =>
          (* we need the base plot if not calculated yet *)
          normalizedDistribution fullHistogram xStep (max_percentile args) (raw args)
      end;
    Ok (print "done." (set_plot "percentiles" [percentile_curve base xStep] st))
  else Ok st.

(** *** from the chosen metric's slices to the plot data *)

Definition main_analysis (slices : list hist) (args : Args) : result MainState :=
  fullHistogram ← aggregateSlices slices SIGNIFICANT_FIGURES;
  let maxX := histogramGetValueAtPercentile fullHistogram (max_percentile args) (raw args) in
  xStep ← py_div maxX (inject_Z (plot_points_count args));
  st ← baseplot_branch fullHistogram xStep args {| plotDataMap := ∅; stdout := [] |};
  st ← stability_branch slices xStep args st;
  percentiles_branch fullHistogram xStep args st.

End hdr_tool.

(** ** A reference implementation of the [hdrh] interface

    A histogram with one bucket per integer value: [ref_counts h] holds at
    index [v] the number of recorded samples of value [v].  (This is the
    resolution [hdrh] has for values below 2048 at three significant
    figures.)  The attributes are computed from the buckets, so that the
    bucket counts always sum to the total count. *)

Record RefHist : Type := {
  ref_tag : option string;
  ref_start : Z;
  ref_end : Z;
  ref_lowest : Z;
  ref_highest : Z;
  ref_figures : Z;
  ref_counts : list nat
}.

(** [sys.maxsize], the [min_value] of a histogram without samples *)
Definition sys_maxsize : Z := 9223372036854775807.

(** The length of the bucket array without its trailing empty buckets. *)
Fixpoint recorded_len (cs : list nat) : nat :=
  match cs with
  | [] => 0%nat
  | c :: cs' =>
      match recorded_len cs' with
      | O => if (c =? 0)%nat then 0%nat else 1%nat
      | S n => S (S n)
      end
  end.

(** The index of the first non-empty bucket. *)
Fixpoint first_recorded (cs : list nat) : option nat :=
  match cs with
  | [] => None
  | c :: cs' => if (c =? 0)%nat then S <$> first_recorded cs' else Some 0%nat
  end.

Definition ref_total (h : RefHist) : Z := Z.of_nat (sum_list (ref_counts h)).

Definition ref_max (h : RefHist) : Z := Z.of_nat (pred (recorded_len (ref_counts h))).

Definition ref_min (h : RefHist) : Z :=
  match first_recorded (ref_counts h) with
  | Some v => Z.of_nat v
  | None => sys_maxsize
  end.

Definition ref_new (lo hi sf : Z) : result RefHist :=
  if (1 <=? lo) && (1 <=? sf) && (sf <=? 5) then
    Ok {| ref_tag := None; ref_start := 0; ref_end := 0;
          ref_lowest := lo; ref_highest := hi; ref_figures := sf;
          ref_counts := replicate (Z.to_nat (hi + 1)) 0%nat |}
  else Raise ValueError.

(** Bucket-wise sum; the shorter array is continued with empty buckets. *)
Fixpoint merge_counts (a b : list nat) : list nat :=
  match a, b with
  | [], _ => b
  | _, [] => a
  | x :: a', y :: b' => (x + y)%nat :: merge_counts a' b'
  end.

Definition ref_add (h o : RefHist) : result RefHist :=
  if ref_highest h <? ref_max o then Raise IndexError
  else
    Ok {| ref_tag := ref_tag h;
          ref_start := Z.min (ref_start h) (ref_start o);
          ref_end := Z.max (ref_end h) (ref_end o);
          ref_lowest := ref_lowest h; ref_highest := ref_highest h;
          ref_figures := ref_figures h;
          ref_counts := merge_counts (ref_counts h) (ref_counts o) |}.

(** The number of samples of value at most [v]. *)
Definition ref_count_upto (h : RefHist) (v : Z) : Z :=
  Z.of_nat (sum_list (take (S (Z.to_nat v)) (ref_counts h))).

(** The number of samples reached when the [k]-th reporting level [k * w]
    is reached (none before the first step). *)
Definition ref_level_count (h : RefHist) (w : Q) (k : nat) : Z :=
  match k with
  | O => 0
  | S _ => ref_count_upto h (Qfloor (inject_Z (Z.of_nat k) * w))
  end.

Definition ref_step (h : RefHist) (w : Q) (k : nat) : HdrIterationValue :=
  {| value_iterated_from := inject_Z (Z.of_nat (pred k)) * w;
     value_iterated_to := inject_Z (Z.of_nat k) * w;
     count_added_in_this_iter_step := ref_level_count h w k - ref_level_count h w (pred k);
     percentile := 100 * inject_Z (ref_level_count h w k) / inject_Z (ref_total h) |}.

(** Linear iteration in steps of [w]: the steps [1, 2, ...] up to the first
    level that reaches the largest recorded value. *)
Definition ref_linear (h : RefHist) (w : Q) : list HdrIterationValue :=
  if Qlt_bool 0 w && (0 <? ref_total h) then
    ref_step h w <$> seq 1 (Nat.max 1 (Z.to_nat (Qceiling (inject_Z (ref_max h) / w))))
  else [].

(** The smallest value at which the requested share of the samples is
    reached. *)
Definition ref_value_at_percentile (h : RefHist) (p : Q) : Z :=
  let target := Z.max 1 (Qfloor (p / 100 * inject_Z (ref_total h) + (1 # 2))) in
  match filter (λ v, target ≤ ref_count_upto h (Z.of_nat v)) (seq 0 (length (ref_counts h))) with
  | v :: _ => Z.of_nat v
  | [] => 0
  end.

#[global] Instance RefHdrh : Hdrh := {|
  hist := RefHist;
  tag := ref_tag;
  start_time_stamp_msec := ref_start;
  end_time_stamp_msec := ref_end;
  total_count := ref_total;
  min_value := ref_min;
  max_value := ref_max;
  lowest_trackable_value := ref_lowest;
  highest_trackable_value := ref_highest;
  significant_figures := ref_figures;
  counts := λ h, Z.of_nat <$> ref_counts h;
  HdrHistogram := ref_new;
  hist_add := ref_add;
  get_value_at_percentile := ref_value_at_percentile;
  get_linear_iterator := ref_linear
|}.

(** A slice with the given buckets, as the log reader would decode it. *)
Definition ref_slice (t0 t1 : Z) (cs : list nat) : RefHist :=
  {| ref_tag := Some "read"; ref_start := t0; ref_end := t1;
     ref_lowest := 1; ref_highest := 3600000000000; ref_figures := 3;
     ref_counts := cs |}.

(** ** Vocabulary of the properties *)

(** [m] is the first item of [l] of maximal key, at index [i]. *)
Definition first_max_at {A} (key : A → Z) (l : list A) (i : nat) (m : A) : Prop :=
  l !! i = Some m ∧
  (∀ j y, l !! j = Some y → key y ≤ key m) ∧
  (∀ j y, (j < i)%nat → l !! j = Some y → key y < key m).

(** [m] is the maximum of the non-empty list [l]. *)
Definition is_max_of (m : Z) (l : list Z) : Prop :=
  m ∈ l ∧ ∀ x, x ∈ l → x ≤ m.

(** [y_0 + ... + y_i], summed from the left. *)
Definition partial_sum (ys : list Q) (i : nat) : Q :=
  fold_left Qplus (take (S i) ys) 0%Q.

(** The sum of a list of numbers. *)
Definition Qsum (l : list Q) : Q := fold_right Qplus 0%Q l.

(** The curve with one point per kept step of the linear iteration: x is
    the midpoint of the step in display units, y is the count of the step
    divided by [total_count * x_incr]. *)
Definition density_points `{L : Hdrh} (histogram : hist) (x_incr max_percentile : Q)
    (rawFlag : bool) : Curve :=
  let kept :=
    kept_steps (get_linear_iterator histogram (x_incr * scale_factor rawFlag)) max_percentile in
  ((λ step, ((1 # 2) * (value_iterated_from step + value_iterated_to step)
             / scale_factor rawFlag)%Q) <$> kept,
   (λ step, (inject_Z (count_added_in_this_iter_step step)
             / (inject_Z (total_count histogram) * x_incr))%Q) <$> kept).

(** Inputs of the examples: two slices with samples, one without. *)
Definition slice_a : RefHist := ref_slice 0 1000 [0; 2; 0; 1]%nat.
Definition slice_b : RefHist := ref_slice 1000 2000 [1; 0; 0; 0; 0; 3]%nat.
Definition slice_empty : RefHist := ref_slice 2000 3000 [].

Definition stability_only : Args :=
  {| max_percentile := 100; plot_points_count := 5; baseplot := false;
     percentiles := false; stability := true; raw := true |}.

Definition initial_state : MainState := {| plotDataMap := ∅; stdout := [] |}.

(** Three per-slice curves of 5, 3 and 5 points sharing their first 3 x
    values. *)
Definition three_curves : list Curve :=
  [([1; 2; 3; 4; 5], [1; 1; 1; 1; 1]);
   ([1; 2; 3], [2; 2; 2]);
   ([1; 2; 3; 7; 8], [3; 3; 3; 3; 3])]%Q.

(** ** hdr_tool.py: reading the log (the start of [main]) *)

(** [sorted(items)]: the stable sort in ascending order ([lt] is the order
    of the items, or of their keys for [sorted(items, key=...)]): an item
    goes before the first sorted item that is not smaller, so that items
    that compare equal keep their order. *)
Fixpoint py_insert_with {A} (lt : A → A → bool) (x : A) (sorted : list A) : list A :=
  match sorted with
  | [] => [x]
  | y :: sorted' =>
      if lt y x then y :: py_insert_with lt x sorted' else x :: y :: sorted'
  end.

Definition py_sorted_with {A} (lt : A → A → bool) (items : list A) : list A :=
  foldr (py_insert_with lt) [] items.

(** [sorted(items, key=key)] for integer keys *)
Definition py_sorted_by {A} (key : A → Z) : list A → list A :=
  py_sorted_with (λ a b, key a <? key b).

(** [datetime.datetime] belongs to Python's standard library and is
    embedded as an interface: the type of the dates, and
    [datetime.datetime.fromtimestamp], which raises for a timestamp whose
    date the platform cannot represent ([OverflowError], [OSError]) or
    whose year is not between 1 and 9999 ([ValueError]). *)
Class Datetime : Type := {
  datetime : Type;
  fromtimestamp : Q → result datetime
}.

(** An executable instance: a date is represented by its timestamp, in
    seconds, and the years 1 to 9999 are the only limit. *)
Definition ref_fromtimestamp (t : Q) : result Q :=
  if Qle_bool (-62135596800) t && Qlt_bool t 253402300800 then Ok t else Raise ValueError.

#[global] Instance RefDatetime : Datetime :=
  {| datetime := Q; fromtimestamp := ref_fromtimestamp |}.

Section reading.
Context {L : Hdrh} {D : Datetime}.

(** hdr_manipulation.py: [timestampToDate], from milliseconds. *)
Definition timestampToDate (tstamp : Z) : result datetime :=
  fromtimestamp (inject_Z tstamp / 1000).

(** The dict comprehension that sorts every group of slices by start time.
    [grouped] is the items of the dict returned by [groupBy], in insertion
    order. *)
Definition sortedSlicesByTag (grouped : list (string * list hist))
    : list (string * list hist) :=
  (λ item, (item.1, py_sorted_by sliceStartTimestamp item.2)) <$> grouped.

(** [t0], [date0], [t1] and [date1]: the time range of the whole log. *)
Definition logTimeRange (slicesByTag : list (string * list hist))
    : result ((Z * datetime) * (Z * datetime)) :=
  starts ← mapM slicesStartTimestamp (snd <$> slicesByTag);
  t0 ← py_minZ starts;
  date0 ← timestampToDate t0;
  ends ← mapM slicesEndTimestamp (snd <$> slicesByTag);
  t1 ← py_maxZ ends;
  date1 ← timestampToDate t1;
  Ok ((t0, date0), (t1, date1)).

End reading.

(** ** Further vocabulary *)

(** The keys of [l] are in ascending order. *)
Fixpoint sorted_by {A} (key : A → Z) (l : list A) : Prop :=
  match l with
  | [] => True
  | x :: l' => Forall (λ y, key x ≤ key y) l' ∧ sorted_by key l'
  end.

(** [m] is the minimum of the non-empty list [l]. *)
Definition is_min_of (m : Z) (l : list Z) : Prop :=
  m ∈ l ∧ ∀ x, x ∈ l → m ≤ x.

(** The command line [args] with the [--baseplot] flag set to [b]. *)
Definition with_baseplot (b : bool) (args : Args) : Args :=
  {| max_percentile := max_percentile args;
     plot_points_count := plot_points_count args;
     baseplot := b;
     percentiles := percentiles args;
     stability := stability args;
     raw := raw args |}.

(** The keys [main] stores when the flags of [args] are set. *)
Definition expected_plots (args : Args) (slices : nat) : gset string :=
  (if baseplot args then {["baseplot"]} else ∅) ∪
  (if stability args && (1 <? slices)%nat then {["stability"]} else ∅) ∪
  (if percentiles args then {["percentiles"]} else ∅).

(** All analyses requested. *)
Definition all_analyses : Args :=
  {| max_percentile := 100; plot_points_count := 5; baseplot := true;
     percentiles := true; stability := true; raw := true |}.

(** ** output_handling.py *)

Definition tab : string := String (Ascii.ascii_of_nat 9) EmptyString.
Definition newline : string := String (Ascii.ascii_of_nat 10) EmptyString.
Definition dquote : string := String (Ascii.ascii_of_nat 34) EmptyString.

(** [sum(iterable)] over floats, starting from [0]. *)
Definition py_sumQ (l : list Q) : Q := fold_left Qplus l 0%Q.

(** [lst[0]]: [IndexError] on an empty list. *)
Definition py_first {A} (lst : list A) : result A :=
  match lst with
  | [] => Raise IndexError
  | x :: _ => Ok x
  end.

(** [zip] of the unpacked lists: the rows of the table whose columns are
    the lists; there are as many rows as the shortest list has items. *)
Fixpoint py_zip_star {A} (columns : list (list A)) : list (list A) :=
  match columns with
  | [] => []
  | column :: columns' =>
      match columns' with
      | [] => (λ x, [x]) <$> column
      | _ :: _ => zip_with cons column (py_zip_star columns')
      end
  end.

(** A colour of the colormap [plt.cm.winter]. *)
Inductive Color : Type :=
  | winter (t : Q).

(** The calls on matplotlib's [pyplot] that the module makes; a figure is
    the list of the calls made on it.  (matplotlib is an external package;
    what it draws is not modelled, and its calls are taken not to raise.) *)
Inductive PltCall : Type :=
  | plt_figure (w h : Z)
  | plt_bar (xs ys : list Q) (width : Q)
  | plt_plot (xs ys : list Q) (fmt : string) (lw : option Z) (color : option Color)
      (label : option string)
  | plt_xlabel (text : string)
  | plt_ylabel (text : string)
  | plt_ylim_from_0
  | plt_legend
  | plt_yticks (ticks : list Q)
  | plt_xticks (ticks : list Z)
  | plt_grid
  | plt_title (text : string).

(** What a file holds: the text written to it, or the figure saved to it. *)
Inductive FileContent : Type :=
  | TextFile (text : string)
  | FigureFile (figure : list PltCall).

(** The files that exist, and what has been printed so far (one entry per
    [print] call).  An exception ends the run, and no world is kept after
    a [Raise]. *)
Record World : Type := {
  files : gmap string FileContent;
  printed : list string
}.

Definition world_print (text : string) (w : World) : World :=
  {| files := files w; printed := printed w ++ [text] |}.

(** A file that is written is created, or what it held is replaced. *)
Definition write_file (fName : string) (content : FileContent) (w : World) : World :=
  {| files := <[fName := content]> (files w); printed := printed w |}.

(** [os.path.isfile(fName)] *)
Definition isfile (fName : string) (w : World) : bool :=
  bool_decide (is_Some (files w !! fName)).

Definition canCreateFile (fName : string) (overwrite : bool) (w : World) : bool :=
  overwrite || negb (isfile fName w).

Section output_handling.
(** The conversions ['%e'], ['%.2f'] and ['%i'] of the string formatting
    operator. *)
Context (fmt_e fmt_2f : Q → string) (fmt_i : Z → string).
(** Whether [import matplotlib.pyplot] succeeded (the module's [plt] is the
    package, or [None]). *)
Context (plt : bool).
(** Whether the file system lets a file of that name be created or
    truncated: [open(fName, "w")] and [savefig] raise [OSError] when it does
    not (a missing directory, a directory of that name, missing
    permissions, a full disk). *)
Context (can_write : string → World → bool).

(** [open(fName, "w")] *)
Definition open_w (fName : string) (w : World) : result unit :=
  if can_write fName w then Ok () else Raise OSError.

(** [saveFigure]: [figure.savefig(filename)], then [plt.close(figure)]. *)
Definition saveFigure (figure : list PltCall) (filename : string) (w : World) : result World :=
  open_w filename w;;
  Ok (write_file filename (FigureFile figure) w).

(** The tick of the value axis for the percentile [xt]: the value of the
    first point at or above [xt], if any. *)
Definition ytick_at (xs ys : list Q) (xt : Z) : option Q :=
  head (snd <$> filter (λ xy : Q * Q, Qle_bool (inject_Z xt) xy.1 = true) (zip xs ys)).

Definition plotToFigure (pType : string) (pData : list Curve) (hstep : Q)
    (metric fName unitName : string) (w : World) : result (bool * World) :=
  if plt then
    if decide (pType = "baseplot") then
      let plot := [plt_figure 20 14] in
      curve ← py_first pData;
      let xs := curve.1 in
      let ys := curve.2 in
      let plot := plot ++ [plt_bar xs ys hstep] in
      average ← py_div (py_sumQ ((λ xy : Q * Q, xy.1 * xy.2)%Q <$> zip xs ys)) (py_sumQ ys);
      let plot := plot ++ [plt_xlabel ("t [" +:+ unitName +:+ "]");
                           plt_ylabel ("p(t) [1/" +:+ unitName +:+ "]");
                           plt_ylim_from_0;
                           plt_title ("Distribution for " +:+ dquote +:+ metric +:+ dquote
                                      +:+ " (avg = " +:+ fmt_2f average +:+ " " +:+ unitName
                                      +:+ ")")] in
      w' ← saveFigure plot fName w;
      Ok (true, w')
    else if decide (pType = "stability") then
      let plot := [plt_figure 20 14] in
      let curves := pData in
      ts ← mapM (λ i : nat, py_div (inject_Z (Z.of_nat i))
                             (inject_Z (Z.of_nat (length curves) - 1)))
              (seq 0 (length curves));
      let colors : list Color := winter <$> (ts : list Q) in
      let plot := plot ++
        omap (λ item : nat * (Curve * Color),
                let sli := item.1 in
                let xs := item.2.1.1 in
                let ys := item.2.1.2 in
                if (0 <? length xs)%nat
                then Some (plt_plot xs ys "-" (Some 3) (Some item.2.2)
                             (Some ("Slice " +:+ fmt_i (Z.of_nat sli))))
                else None)
             (zip (seq 0 (length curves)) (zip curves colors)) in
      let plot := plot ++ [plt_xlabel ("t [" +:+ unitName +:+ "]");
                           plt_ylabel ("p(t) [1/" +:+ unitName +:+ "]");
                           plt_ylim_from_0;
                           plt_legend;
                           plt_title ("Stability analysis for " +:+ dquote +:+ metric
                                      +:+ dquote)] in
      w' ← saveFigure plot fName w;
      Ok (true, w')
    else if decide (pType = "percentiles") then
      let plot := [plt_figure 14 20] in
      curve ← py_first pData;
      let xs := curve.1 in
      let ys := curve.2 in
      let plot := plot ++ [plt_plot xs ys "-" None None None;
                           plt_xlabel "Percentile";
                           plt_ylabel ("t [" +:+ unitName +:+ "]")] in
      let xticks := ((λ i : nat, Z.of_nat i * 10) <$> seq 0 10) ++ [95; 100] in
      let yticks := omap (ytick_at xs ys) xticks in
      let plot := plot ++ [plt_xticks xticks;
                           plt_yticks yticks;
                           plt_ylim_from_0;
                           plt_grid;
                           plt_title ("Percentiles for " +:+ dquote +:+ metric +:+ dquote)] in
      w' ← saveFigure plot fName w;
      Ok (true, w')
    else Raise ValueError
  else Ok (false, world_print "      ** matplotlib not available! **" w).

(** The rows ["%e\t%e" % (x, y)] of a curve. *)
Definition curve_rows (curve : Curve) : list string :=
  (λ xy : Q * Q, fmt_e xy.1 +:+ tab +:+ fmt_e xy.2) <$> zip curve.1 curve.2.

(** The rows of the curves of a stability plot: the x value, then the y
    value of every curve. *)
Definition stability_rows (xs : list Q) (yts : list (list Q)) : list string :=
  (λ row : Q * list Q, fmt_e row.1 +:+ tab +:+ String.concat tab (fmt_e <$> row.2))
    <$> zip xs yts.

(** For "baseplot" and "percentiles" the file is opened before [pData[0]]
    is evaluated, for "stability" after. *)
Definition plotToDatafile (pType : string) (pData : list Curve) (hstep : Q)
    (metric fName : string) (w : World) : result (bool * World) :=
  if decide (pType = "baseplot") then
    open_w fName w;;
    curve ← py_first pData;
    Ok (true, write_file fName (TextFile (String.concat newline (curve_rows curve))) w)
  else if decide (pType = "stability") then
    (* assume curves are padded to the same xs *)
    first ← py_first pData;
    let xs := first.1 in
    let yts := py_zip_star (snd <$> pData) in
    open_w fName w;;
    Ok (true, write_file fName (TextFile (String.concat newline (stability_rows xs yts))) w)
  else if decide (pType = "percentiles") then
    open_w fName w;;
    curve ← py_first pData;
    Ok (true, write_file fName (TextFile (String.concat newline (curve_rows curve))) w)
  else Raise ValueError.

End output_handling.

(** ** hdr_tool.py: the output of the curves (the end of [main]) *)

(** The output control of the command line: the file roots given with
    [--plot] and [--dump], if any, and [--force]. *)
Record OutputArgs : Type := {
  plot : option string;
  dump : option string;
  force : bool
}.

(** [sorted(plotDataMap.items())]: the keys of a dict are distinct, so the
    items are sorted by key. *)
Definition sorted_items (plotDataMap : gmap string (list Curve))
    : list (string * list Curve) :=
  py_sorted_with (λ a b, String.ltb a.1 b.1) (map_to_list plotDataMap).

Section output.
Context (fmt_e fmt_2f : Q → string) (fmt_i : Z → string) (plt : bool).
Context (can_write : string → World → bool).

(** ["%s_%s.%s" % (root, plotK, extension)] *)
Definition output_name (root plotK extension : string) : string :=
  root +:+ "_" +:+ plotK +:+ "." +:+ extension.

(** The body of the loop over the curves calculated so far. *)
Definition output_plot (oargs : OutputArgs) (xStep : Q) (metricName unitName : string)
    (plotK : string) (plotData : list Curve) (w : World) : result World :=
  let w := world_print ("  * Output for " +:+ dquote +:+ plotK +:+ dquote +:+ ": ") w in
  w ←
    match plot oargs with
    | Some root =>
        let fileName := output_name root plotK "png" in
        if canCreateFile fileName (force oargs) w then
          res ← plotToFigure fmt_2f fmt_i plt can_write plotK plotData xStep metricName
                  fileName unitName w;
          let res : bool * World := res in
          if res.1 then Ok (world_print ("      " +:+ fileName) res.2)
          else Ok (world_print ("      *FAILED*: " +:+ fileName) res.2)
        else Ok (world_print ("      *SKIPPING*: " +:+ fileName) w)
    | None => Ok w
    end;
  match dump oargs with
  | Some root =>
      let fileName := output_name root plotK "dat" in
      if canCreateFile fileName (force oargs) w then
        res ← plotToDatafile fmt_e can_write plotK plotData xStep metricName fileName w;
        let res : bool * World := res in
        if res.1 then Ok (world_print ("      " +:+ fileName) res.2)
        else Ok (world_print ("      *FAILED*: " +:+ fileName) res.2)
      else Ok (world_print ("      *SKIPPING*: " +:+ fileName) w)
  | None => Ok w
  end.

Fixpoint output_items (oargs : OutputArgs) (xStep : Q) (metricName unitName : string)
    (items : list (string * list Curve)) (w : World) : result World :=
  match items with
  | [] => Ok w
  | item :: items' =>
      w' ← output_plot oargs xStep metricName unitName item.1 item.2 w;
      output_items oargs xStep metricName unitName items' w'
  end.

Definition output_loop (oargs : OutputArgs) (xStep : Q) (metricName unitName : string)
    (plotDataMap : gmap string (list Curve)) (w : World) : result World :=
  output_items oargs xStep metricName unitName (sorted_items plotDataMap) w.

(** [main] from the slices of the chosen metric on: the analysis, then the
    output of its curves. *)
Definition main_run {L : Hdrh} (slices : list hist) (args : Args) (oargs : OutputArgs)
    (metricName : string) (w : World) : result World :=
  let unitName := valueUnitName (raw args) in
  fullHistogram ← aggregateSlices slices SIGNIFICANT_FIGURES;
  let maxX := histogramGetValueAtPercentile fullHistogram (max_percentile args) (raw args) in
  xStep ← py_div maxX (inject_Z (plot_points_count args));
  st ← baseplot_branch fullHistogram xStep args {| plotDataMap := ∅; stdout := [] |};
  st ← stability_branch slices xStep args st;
  st ← percentiles_branch fullHistogram xStep args st;
  output_loop oargs xStep metricName unitName (plotDataMap st)
    {| files := files w; printed := printed w ++ stdout st |}.

End output.

(** ** Further vocabulary for the output *)

(** An entry of [plotDataMap] as the analysis stores it: one curve under
    "baseplot" and under "percentiles", two curves or more under
    "stability". *)
Definition analysis_entry (plotK : string) (plotData : list Curve) : Prop :=
  (plotK = "baseplot" ∧ ∃ curve, plotData = [curve]) ∨
  (plotK = "stability" ∧ (1 < length plotData)%nat) ∨
  (plotK = "percentiles" ∧ ∃ curve, plotData = [curve]).

(** Inputs of the examples: a rendering of numbers that shows a mark for
    every number, a file system where every file can be written and one
    where none can, output settings, and a directory with one data file. *)
Definition fmt_mark {A} (x : A) : string := "#".

Definition all_writable (fName : string) (w : World) : bool := true.

Definition read_only (fName : string) (w : World) : bool := false.

Definition dump_only (overwrite : bool) : OutputArgs :=
  {| plot := None; dump := Some "out"; force := overwrite |}.

Definition plot_only (overwrite : bool) : OutputArgs :=
  {| plot := Some "out"; dump := None; force := overwrite |}.

Definition old_world : World :=
  {| files := {["out_baseplot.dat" := TextFile "old"]}; printed := [] |}.

Definition two_plots : gmap string (list Curve) :=
  {["baseplot" := [([1; 2], [3; 4])%Q];
    "stability" := [([1; 2], [3; 4])%Q; ([1; 2], [5; 6])%Q]]}.

(** * Properties *)

(** ** The reference implementation satisfies the laws *)

Section reference_laws.

Lemma sum_list_merge_counts a b :
  sum_list (merge_counts a b) = (sum_list a + sum_list b)%nat.
Proof.
  revert b. induction a as [|x a IH]; intros [|y b]; simpl; try lia.
  rewrite IH. lia.
Qed.

Lemma merge_counts_nil_r a : merge_counts a [] = a.
Proof. by destruct a. Qed.

Lemma merge_counts_comm a b : merge_counts a b = merge_counts b a.
Proof.
  revert b. induction a as [|x a IH]; intros [|y b]; simpl; try done.
  f_equal; [lia | apply IH].
Qed.

Lemma merge_counts_swap c a b :
  merge_counts (merge_counts c a) b = merge_counts (merge_counts c b) a.
Proof.
  revert a b. induction c as [|x c IH]; intros a b.
  - simpl. apply merge_counts_comm.
  - destruct a as [|y a], b as [|z b]; simpl; try done.
    f_equal; [lia | apply IH].
Qed.

Lemma ref_add_comm (h a b : RefHist) :
  (ref_add h a ≫= λ h', ref_add h' b) = (ref_add h b ≫= λ h', ref_add h' a).
Proof.
  unfold ref_add.
  destruct (ref_highest h <? ref_max a) eqn:Ha, (ref_highest h <? ref_max b) eqn:Hb;
    simpl; rewrite ?Ha, ?Hb; try done.
  f_equal. f_equal; [lia | lia | apply merge_counts_swap].
Qed.

Lemma fold_left_Zadd (l : list Z) (a : Z) : fold_left Z.add l a = a + py_sum l.
Proof.
  unfold py_sum. revert a. induction l as [|x l IH]; intros a; simpl; [lia|].
  rewrite (IH (a + x)), (IH (0 + x)). lia.
Qed.

Lemma py_sum_cons x l : py_sum (x :: l) = x + py_sum l.
Proof. unfold py_sum at 1. simpl. rewrite fold_left_Zadd. lia. Qed.

Lemma py_sum_app l1 l2 : py_sum (l1 ++ l2) = py_sum l1 + py_sum l2.
Proof.
  induction l1 as [|x l1 IH]; simpl; [done|].
  rewrite !py_sum_cons, IH. lia.
Qed.

Lemma py_sum_telescope (f : nat → Z) (n : nat) :
  py_sum ((λ k, f k - f (pred k)) <$> seq 1 n) = f n - f 0%nat.
Proof.
  induction n as [|n IH]; [simpl; unfold py_sum; simpl; lia|].
  rewrite seq_S, fmap_app, py_sum_app, IH. simpl.
  rewrite py_sum_cons. unfold py_sum. simpl. lia.
Qed.

Lemma recorded_len_0 cs : recorded_len cs = 0%nat → sum_list cs = 0%nat.
Proof.
  induction cs as [|c cs IH]; simpl; [done|].
  destruct (recorded_len cs); [|done].
  destruct (Nat.eqb_spec c 0); [|done]. intros _. rewrite IH by done. lia.
Qed.

Lemma sum_list_take_recorded cs m :
  (recorded_len cs ≤ m)%nat → sum_list (take m cs) = sum_list cs.
Proof.
  revert m. induction cs as [|c cs IH]; intros m Hm; [by destruct m|].
  destruct m as [|m].
  - rewrite take_0. symmetry. apply (recorded_len_0 (c :: cs)). lia.
  - simpl in *. rewrite IH; [done|].
    destruct (recorded_len cs); [lia|lia].
Qed.

Lemma sum_list_take_mono (cs : list nat) a b :
  (a ≤ b)%nat → (sum_list (take a cs) ≤ sum_list (take b cs))%nat.
Proof.
  revert a b. induction cs as [|c cs IH]; intros a b Hab.
  - by rewrite !take_nil.
  - destruct a as [|a]; [simpl; lia|]. destruct b as [|b]; [lia|].
    simpl. specialize (IH a b). lia.
Qed.

Lemma ref_count_upto_mono h u v : u ≤ v → ref_count_upto h u ≤ ref_count_upto h v.
Proof.
  intros Huv. unfold ref_count_upto. apply inj_le, sum_list_take_mono. lia.
Qed.

Lemma ref_level_count_nonneg h w k : 0 ≤ ref_level_count h w k.
Proof. destruct k; simpl; [done|]. unfold ref_count_upto. lia. Qed.

Lemma ref_level_count_step h w k :
  (0 < w)%Q → ref_level_count h w k ≤ ref_level_count h w (S k).
Proof.
  intros Hw. destruct k as [|k]; [apply ref_level_count_nonneg|].
  unfold ref_level_count. apply ref_count_upto_mono, Qfloor_resp_le.
  apply Qmult_le_compat_r; [|by apply Qlt_le_weak].
  rewrite <- Zle_Qle. lia.
Qed.

Lemma ref_level_count_last h w :
  (0 < w)%Q →
  ref_level_count h w (Nat.max 1 (Z.to_nat (Qceiling (inject_Z (ref_max h) / w)))) = ref_total h.
Proof.
  intros Hw.
  set (n := Nat.max 1 _).
  assert (Hn : (inject_Z (ref_max h) <= inject_Z (Z.of_nat n) * w)%Q).
  { assert (Hq : (inject_Z (ref_max h) / w <= inject_Z (Z.of_nat n))%Q).
    { eapply Qle_trans; [apply Qle_ceiling|].
      rewrite <- Zle_Qle. subst n. lia. }
    apply (Qmult_le_compat_r _ _ w) in Hq; [|by apply Qlt_le_weak].
    rewrite Qmult_comm, Qmult_div_r in Hq; [done|].
    intros Hz. rewrite Hz in Hw. by apply Qlt_irrefl in Hw. }
  assert (Hpos : (1 ≤ n)%nat) by (subst n; lia).
  clearbody n. destruct n as [|m]; [lia|].
  unfold ref_level_count, ref_count_upto, ref_total. f_equal.
  apply sum_list_take_recorded.
  apply Qfloor_resp_le in Hn. rewrite Qfloor_Z in Hn.
  unfold ref_max in Hn. lia.
Qed.

Lemma ref_linear_steps h w :
  ref_linear h w = [] ∨
  ((0 < w)%Q ∧ 0 < ref_total h ∧
   ref_linear h w =
     ref_step h w <$> seq 1 (Nat.max 1 (Z.to_nat (Qceiling (inject_Z (ref_max h) / w))))).
Proof.
  unfold ref_linear, Qlt_bool.
  destruct (Qle_bool w 0) eqn:Hw; simpl; [by left|].
  destruct (Z.ltb_spec 0 (ref_total h)); [|by left].
  right. split_and!; [|done|done].
  apply Qnot_le_lt. intros Hle. apply Qle_bool_iff in Hle. congruence.
Qed.

Lemma ref_step_counts h w n :
  step_counts (ref_step h w <$> seq 1 n)
  = (λ k, ref_level_count h w k - ref_level_count h w (pred k)) <$> seq 1 n.
Proof. unfold step_counts. rewrite <- list_fmap_compose. done. Qed.

Lemma RefHdrh_laws : HdrhLaws RefHdrh.
Proof.
  split.
  - intros lo hi sf Hlo Hsf. simpl. unfold ref_new.
    destruct (Z.leb_spec 1 lo); [|lia].
    destruct (Z.leb_spec 1 sf); [|lia].
    destruct (Z.leb_spec sf 5); [|lia]. simpl. by eexists.
  - intros lo hi sf h. simpl. unfold ref_new.
    destruct (_ && _); [|done]. intros [= <-]. simpl. split_and!; try done.
    + unfold ref_total. simpl. induction (Z.to_nat (hi + 1)); simpl; [done|lia].
    + apply Forall_fmap, Forall_replicate. done.
  - intros h o Hfit. simpl in *. unfold ref_add.
    destruct (Z.ltb_spec (ref_highest h) (ref_max o)); [lia|]. by eexists.
  - intros h o h'. simpl. unfold ref_add.
    destruct (ref_highest h <? ref_max o); [done|]. intros [= <-].
    unfold ref_total. simpl. rewrite sum_list_merge_counts. lia.
  - intros h o h'. simpl. unfold ref_add.
    destruct (ref_highest h <? ref_max o); [done|]. by intros [= <-].
  - apply ref_add_comm.
  - intros h w s. simpl. destruct (ref_linear_steps h w) as [->|(Hw & _ & ->)].
    + by intros ?%elem_of_nil.
    + intros (k & -> & Hk)%list_elem_of_fmap. apply elem_of_seq in Hk.
      destruct k as [|k]; [lia|].
      pose proof (ref_level_count_step h w k Hw).
      unfold ref_step, count_added_in_this_iter_step.
      change (pred (S k)) with k. lia.
  - intros h w i s _. simpl. destruct (ref_linear_steps h w) as [->|(Hw & _ & ->)]; [done|].
    set (n := Nat.max 1 _). intros Hs.
    rewrite list_lookup_fmap in Hs.
    destruct (seq 1 n !! i) as [k|] eqn:Hk; [|done]. simpl in Hs. injection Hs as <-.
    apply lookup_seq in Hk as [-> Hi].
    rewrite ref_step_counts, <- fmap_take, take_seq, Nat.min_l by lia.
    rewrite py_sum_telescope. simpl. rewrite Z.sub_0_r. reflexivity.
  - intros h w Htot Hw. simpl in *. destruct (ref_linear_steps h w) as [Hnil|(_ & _ & ->)].
    + unfold ref_linear, Qlt_bool in Hnil.
      destruct (Qle_bool w 0) eqn:Hle.
      { apply Qle_bool_iff in Hle. exfalso. eapply Qlt_not_le; eauto. }
      destruct (Z.ltb_spec 0 (ref_total h)); [|lia]. simpl in Hnil.
      destruct (Nat.max 1 _) eqn:E in Hnil; [lia|done].
    + rewrite ref_step_counts, py_sum_telescope, ref_level_count_last by done.
      simpl. lia.
Qed.

End reference_laws.

#[global] Existing Instance RefHdrh_laws.

(** ** Python builtins *)

Section py_max_by.
Context {A : Type} (key : A → Z) (lt : A → A → bool).
Hypothesis lt_key : ∀ a b, lt a b = (key a <? key b).

Lemma fold_max_first (l : list A) (x : A) :
  ∃ i, first_max_at key (x :: l) i
         (fold_left (λ best y, if lt best y then y else best) l x).
Proof.
  induction l as [|y l IH] using rev_ind.
  - exists 0%nat. split_and!; [done| |intros; lia].
    intros [|j] z; simpl; [intros [= ->]; lia|done].
  - destruct IH as (i & Hi & Hmax & Hfirst).
    rewrite fold_left_app. simpl. set (m := fold_left _ l x) in *.
    rewrite lt_key. destruct (Z.ltb_spec (key m) (key y)) as [Hlt|Hge].
    + exists (length (x :: l)). split_and!.
      * rewrite app_comm_cons, lookup_app_r, Nat.sub_diag by done. done.
      * intros j z Hz. rewrite app_comm_cons in Hz.
        apply lookup_app_Some in Hz as [Hz|[_ Hz]].
        -- specialize (Hmax j z Hz). lia.
        -- destruct (j - length (x :: l))%nat; simpl in Hz; [|done].
           injection Hz as ->. lia.
      * intros j z Hj Hz. rewrite app_comm_cons, lookup_app_l in Hz by done.
        specialize (Hmax j z Hz). lia.
    + assert (Hlen : (i < length (x :: l))%nat) by (eapply lookup_lt_Some; eauto).
      exists i. split_and!.
      * rewrite app_comm_cons, lookup_app_l by done. done.
      * intros j z Hz. rewrite app_comm_cons in Hz.
        apply lookup_app_Some in Hz as [Hz|[_ Hz]]; [by eapply Hmax|].
        destruct (j - length (x :: l))%nat; simpl in Hz; [|done].
        injection Hz as ->. lia.
      * intros j z Hj Hz. rewrite app_comm_cons, lookup_app_l in Hz by lia.
        by eapply Hfirst.
Qed.

Lemma py_max_by_first (l : list A) :
  l ≠ [] → ∃ i m, py_max_by lt l = Ok m ∧ first_max_at key l i m.
Proof.
  destruct l as [|x l]; [done|]. intros _.
  destruct (fold_max_first l x) as [i Hi]. eexists i, _. split; [reflexivity|done].
Qed.

End py_max_by.

Lemma py_max_by_fmap {A B} (f : A → B) (lt : B → B → bool) (l : list A) :
  py_max_by lt (f <$> l) = f <$> py_max_by (λ a b, lt (f a) (f b)) l.
Proof.
  destruct l as [|x l]; [done|]. simpl. f_equal.
  revert x. induction l as [|y l IH]; intros x; simpl; [done|].
  rewrite <- IH. by destruct (lt (f x) (f y)).
Qed.


(** ** Summary queries and the empty histogram *)

Section summary_queries.
Context {L : Hdrh}.

(** C7: on a series without slices, the min/max summary queries (earliest
    start, latest end, min value, max value) raise (the [ValueError] of
    [min]/[max] on an empty sequence, the specification's EmptySeriesError),
    while the count of non-empty slices and the total sample count are 0. *)
Theorem empty_series_queries (rawFlag : bool) :
  slicesStartTimestamp [] = Raise ValueError ∧
  slicesEndTimestamp [] = Raise ValueError ∧
  slicesMinValue [] rawFlag = Raise ValueError ∧
  slicesMaxValue [] rawFlag = Raise ValueError ∧
  slicesCountNonempty [] = 0 ∧
  slicesValueCount [] = 0.
Proof. by split_and!. Qed.

(** C9: for a histogram whose total sample count is zero,
    [normalizedDistribution] returns the empty curve [([], [])], whatever
    the bucket width, the percentile cutoff and the raw flag; it does not
    raise. *)
Theorem normalizedDistribution_no_samples (histogram : hist) (x_incr max_percentile : Q)
    (rawFlag : bool) :
  total_count histogram = 0 →
  normalizedDistribution histogram x_incr max_percentile rawFlag = Ok ([], []).
Proof.
  intros Hzero. unfold normalizedDistribution, sliceValueCount.
  rewrite Hzero. reflexivity.
Qed.

End summary_queries.

Lemma normalizedDistribution_no_samples_witness :
  total_count slice_empty = 0 ∧
  normalizedDistribution slice_empty (1 # 1000) 97.5 false = Ok ([], []).
Proof.
  split; [reflexivity|].
  apply (normalizedDistribution_no_samples (L:=RefHdrh)). reflexivity.
Defined.


(** ** The stability and percentile branches of [main] *)

Section branches.
Context {L : Hdrh}.

(** C8 (amended): when the series has fewer than 2 slices, the stability
    branch raises nothing: it prints the warning, leaves [plotDataMap]
    as it was (no "stability" entry is computed), and the run continues. *)
Theorem stability_too_few_slices (slices : list hist) (xStep : Q) (args : Args)
    (st : MainState) :
  stability args = true → (length slices < 2)%nat →
  stability_branch slices xStep args st = Ok (print stability_warning st) ∧
  plotDataMap (print stability_warning st) = plotDataMap st ∧
  stdout (print stability_warning st) = stdout st ++ [stability_warning].
Proof.
  intros Hflag Hlen. unfold stability_branch. rewrite Hflag.
  destruct (Nat.ltb_spec 1 (length slices)); [lia|]. done.
Qed.

End branches.

Lemma stability_too_few_slices_witness :
  stability stability_only = true ∧
  (length [slice_a] < 2)%nat ∧
  stability_branch [slice_a] 1 stability_only initial_state
  = Ok (print stability_warning initial_state).
Proof.
  split; [reflexivity|]. split; [simpl; lia|].
  apply (stability_too_few_slices (L:=RefHdrh)); [reflexivity | simpl; lia].
Defined.

(** C8 as stated fails: on a series of one slice the stability branch
    returns normally instead of raising. *)
Lemma stability_single_slice_returns :
  (length [slice_a] < 2)%nat ∧
  ¬ raises (stability_branch [slice_a] 1 stability_only initial_state).
Proof.
  split; [simpl; lia|]. intros [e He]. vm_compute in He. discriminate.
Qed.

Lemma running_totals_fold (bys : list Q) (tot : Q) (acc : list Q) :
  fold_left (λ (ac : Q * list Q) newval, ((ac.1 + newval)%Q, ac.2 ++ [(ac.1 + newval)%Q]))
    bys (tot, acc)
  = (fold_left Qplus bys tot,
     acc ++ ((λ i, fold_left Qplus (take (S i) bys) tot) <$> seq 0 (length bys))).
Proof.
  revert tot acc. induction bys as [|y bys IH]; intros tot acc; simpl.
  - by rewrite app_nil_r.
  - rewrite IH. f_equal. rewrite <- app_assoc. f_equal. simpl. f_equal.
    rewrite <- fmap_S_seq, <- list_fmap_compose. done.
Qed.

(** C4: the percentile curve of a density curve [(xs, ys)] is [(pxs, pys)]
    with [pys] the input [xs], unchanged, and [pxs] the running sums of
    [ys], each multiplied by the bucket width and by 100: the [i]-th
    percentile is [(y_0 + ... + y_i) * xStep * 100]. *)
Theorem percentile_curve_spec (xs ys : list Q) (xStep : Q) :
  percentile_curve (xs, ys) xStep
  = ((λ i, (partial_sum ys i * xStep * 100)%Q) <$> seq 0 (length ys), xs).
Proof.
  unfold percentile_curve, running_totals. simpl.
  rewrite running_totals_fold. simpl. rewrite <- list_fmap_compose. done.
Qed.

Lemma pad_curves_first_longest (perSlicePlots0 : list Curve) :
  perSlicePlots0 ≠ [] →
  ∃ (i : nat) (fullXs : list Q),
    first_max_at (λ xs, Z.of_nat (length xs)) (fst <$> perSlicePlots0) i fullXs ∧
    pad_curves perSlicePlots0
    = Ok ((λ pl : Curve, (fullXs, pl.2 ++ replicate (length fullXs - length pl.2) 0%Q))
            <$> perSlicePlots0).
Proof.
  intros Hne.
  destruct (py_max_by_first (λ xs : list Q, Z.of_nat (length xs))
              (λ a b, (length a <? length b)%nat)) with (l := perSlicePlots0.*1)
    as (i & fullXs & Hmax & Hfirst).
  { intros a b.
    destruct (Nat.ltb_spec (length a) (length b)),
             (Z.ltb_spec (Z.of_nat (length a)) (Z.of_nat (length b))); try done; lia. }
  { by destruct perSlicePlots0. }
  exists i, fullXs. split; [done|].
  unfold pad_curves, py_max_key_len. rewrite Hmax. done.
Qed.

(** C5: for a non-empty series of per-slice curves (each with as many
    y values as x values), [fullXs] is the x-sequence of the first longest
    curve, every curve's y-sequence is continued with
    [len(fullXs) - len(ys)] zeros and its x-sequence replaced by [fullXs];
    every resulting curve has x-sequence [fullXs] and [len(fullXs)]
    y values. *)
Theorem pad_curves_spec (perSlicePlots0 : list Curve) :
  perSlicePlots0 ≠ [] →
  Forall (λ pl : Curve, length pl.1 = length pl.2) perSlicePlots0 →
  ∃ (i : nat) (fullXs : list Q),
    first_max_at (λ xs, Z.of_nat (length xs)) (fst <$> perSlicePlots0) i fullXs ∧
    pad_curves perSlicePlots0
    = Ok ((λ pl : Curve, (fullXs, pl.2 ++ replicate (length fullXs - length pl.2) 0%Q))
            <$> perSlicePlots0) ∧
    ∀ out, pad_curves perSlicePlots0 = Ok out →
      length out = length perSlicePlots0 ∧
      Forall (λ pl : Curve, pl.1 = fullXs ∧ length pl.2 = length fullXs) out.
Proof.
  intros Hne Hcurves.
  destruct (pad_curves_first_longest perSlicePlots0 Hne) as (i & fullXs & Hfirst & Hpad).
  exists i, fullXs. split; [done|]. split; [done|].
  intros out. rewrite Hpad. intros [= <-].
  split; [by rewrite length_fmap|].
  apply Forall_fmap, Forall_forall. intros pl Hin. simpl. split; [done|].
  rewrite length_app, length_replicate.
  apply list_elem_of_lookup in Hin as [j Hj].
  rewrite Forall_forall in Hcurves.
  assert (Hlen : length pl.1 = length pl.2).
  { apply Hcurves. apply list_elem_of_lookup. eauto. }
  destruct Hfirst as (_ & Hle & _).
  assert (Hxs : perSlicePlots0.*1 !! j = Some pl.1)
    by (rewrite list_lookup_fmap, Hj; done).
  specialize (Hle j pl.1 Hxs). simpl in Hle. lia.
Qed.

Lemma pad_curves_spec_witness :
  three_curves ≠ [] ∧
  Forall (λ pl : Curve, length pl.1 = length pl.2) three_curves ∧
  ∃ (i : nat) (fullXs : list Q),
    first_max_at (λ xs, Z.of_nat (length xs)) (fst <$> three_curves) i fullXs ∧
    pad_curves three_curves
    = Ok ((λ pl : Curve, (fullXs, pl.2 ++ replicate (length fullXs - length pl.2) 0%Q))
            <$> three_curves) ∧
    ∀ out, pad_curves three_curves = Ok out →
      length out = length three_curves ∧
      Forall (λ pl : Curve, pl.1 = fullXs ∧ length pl.2 = length fullXs) out.
Proof.
  assert (Hne : three_curves ≠ []) by done.
  assert (Hlen : Forall (λ pl : Curve, length pl.1 = length pl.2) three_curves)
    by (repeat constructor).
  split; [done|]. split; [done|].
  exact (pad_curves_spec three_curves Hne Hlen).
Defined.

(** ** Aggregation *)

Lemma result_bind_assoc {A B C} (m : result A) (f : A → result B) (g : B → result C) :
  (m ≫= f) ≫= g = m ≫= (λ a, f a ≫= g).
Proof. by destruct m. Qed.

Lemma Qlt_bool_inject_Z (a b : Z) : Qlt_bool (inject_Z a) (inject_Z b) = (a <? b).
Proof.
  unfold Qlt_bool.
  destruct (Z.ltb_spec a b) as [Hlt|Hge].
  - destruct (Qle_bool (inject_Z b) (inject_Z a)) eqn:Hle; [|done].
    apply Qle_bool_iff in Hle. rewrite <- Zle_Qle in Hle. lia.
  - assert (Hle : Qle_bool (inject_Z b) (inject_Z a) = true)
      by (apply Qle_bool_iff; rewrite <- Zle_Qle; lia).
    by rewrite Hle.
Qed.

Lemma py_int_succ (z : Z) : py_int (1 + inject_Z z) = 1 + z.
Proof. unfold py_int. simpl. rewrite Z.quot_1_r. lia. Qed.

Lemma first_max_at_is_max {A} (key : A → Z) (l : list A) (i : nat) (m : A) :
  first_max_at key l i m → is_max_of (key m) (key <$> l).
Proof.
  intros (Hi & Hmax & _). split.
  - apply list_elem_of_fmap. exists m. split; [done|]. by eapply list_elem_of_lookup_2.
  - intros x (y & -> & [j Hj]%list_elem_of_lookup)%list_elem_of_fmap. by eapply Hmax.
Qed.

Lemma is_max_of_unique (m m' : Z) (l l' : list Z) :
  l ≡ₚ l' → is_max_of m l → is_max_of m' l' → m = m'.
Proof.
  intros Hperm [Hin Hmax] [Hin' Hmax'].
  assert (m' ≤ m) by (apply Hmax; by rewrite Hperm).
  assert (m ≤ m') by (apply Hmax'; by rewrite <- Hperm).
  lia.
Qed.

Section aggregate.
Context {L : Hdrh}.

Lemma slicesMaxValue_raw (slices : list hist) :
  slices ≠ [] →
  ∃ i m, first_max_at max_value slices i m ∧
         slicesMaxValue slices true = Ok (inject_Z (max_value m)).
Proof.
  intros Hne. unfold slicesMaxValue, py_max. rewrite py_max_by_fmap.
  destruct (py_max_by_first max_value
              (λ a b, Qlt_bool (sliceMaxValue a true) (sliceMaxValue b true)))
    with (l := slices) as (i & m & -> & Hfirst); [|done|by exists i, m].
  intros a b. apply Qlt_bool_inject_Z.
Qed.

Lemma slicesMaxValue_is_max (slices : list hist) :
  slices ≠ [] →
  ∃ maxRaw, is_max_of maxRaw (max_value <$> slices) ∧
            slicesMaxValue slices true = Ok (inject_Z maxRaw).
Proof.
  intros (i & m & Hfirst & Hmax)%slicesMaxValue_raw.
  exists (max_value m). split; [by eapply first_max_at_is_max|done].
Qed.

Lemma aggregateSlices_unfold (slices : list hist) (sigFigures maxRaw : Z) :
  slicesMaxValue slices true = Ok (inject_Z maxRaw) →
  aggregateSlices slices sigFigures
  = HdrHistogram 1 (1 + maxRaw) sigFigures ≫= λ fullHistogram, reduce_add fullHistogram slices.
Proof.
  intros Hmax. unfold aggregateSlices. rewrite Hmax. simpl. by rewrite py_int_succ.
Qed.

Lemma aggregateSlices_nil (sigFigures : Z) : aggregateSlices [] sigFigures = Raise ValueError.
Proof. reflexivity. Qed.

Lemma reduce_add_swap (fullHistogram a b : hist) (slices : list hist) :
  HdrhLaws L →
  reduce_add fullHistogram (a :: b :: slices) = reduce_add fullHistogram (b :: a :: slices).
Proof.
  intros Hlaws. simpl.
  rewrite <- !(result_bind_assoc (hist_add fullHistogram _)).
  by rewrite hist_add_comm.
Qed.

Lemma reduce_add_permutation (fullHistogram : hist) (slices slices' : list hist) :
  HdrhLaws L → slices ≡ₚ slices' →
  reduce_add fullHistogram slices = reduce_add fullHistogram slices'.
Proof.
  intros Hlaws Hperm. revert fullHistogram.
  induction Hperm as [|b l l' _ IH|a b l|l1 l2 l3 _ IH1 _ IH2]; intros fullHistogram.
  - done.
  - simpl. destruct (hist_add fullHistogram b); simpl; [apply IH|done].
  - by apply reduce_add_swap.
  - by rewrite IH1.
Qed.

Lemma reduce_add_total (fullHistogram h : hist) (slices : list hist) :
  HdrhLaws L →
  reduce_add fullHistogram slices = Ok h →
  total_count h = total_count fullHistogram + py_sum (total_count <$> slices).
Proof.
  intros Hlaws. revert fullHistogram.
  induction slices as [|b slices IH]; intros fullHistogram.
  - intros [= ->]. change (py_sum _) with 0. lia.
  - rewrite fmap_cons, py_sum_cons. cbn [reduce_add].
    destruct (hist_add fullHistogram b) as [h'|] eqn:Hadd; simpl; [|done].
    intros Hred%IH. rewrite Hred, (hist_add_total _ _ _ Hadd). lia.
Qed.

Lemma reduce_add_ok (fullHistogram : hist) (slices : list hist) :
  HdrhLaws L →
  (∀ sl, sl ∈ slices → max_value sl ≤ highest_trackable_value fullHistogram) →
  ∃ h, reduce_add fullHistogram slices = Ok h ∧
       lowest_trackable_value h = lowest_trackable_value fullHistogram ∧
       highest_trackable_value h = highest_trackable_value fullHistogram ∧
       significant_figures h = significant_figures fullHistogram.
Proof.
  intros Hlaws. revert fullHistogram.
  induction slices as [|b slices IH]; intros fullHistogram Hfit; simpl.
  - by eexists.
  - destruct (hist_add_ok fullHistogram b) as [h' Hadd]; [apply Hfit; left|].
    rewrite Hadd. simpl.
    destruct (hist_add_layout _ _ _ Hadd) as (Hlo & Hhi & Hsf).
    destruct (IH h') as (h & Hred & Hlo' & Hhi' & Hsf').
    { intros sl Hsl. rewrite Hhi. apply Hfit. by right. }
    exists h. split; [done|]. split_and!; congruence.
Qed.

Lemma aggregateSlices_ok (slices : list hist) (sigFigures maxRaw : Z) :
  HdrhLaws L →
  is_max_of maxRaw (max_value <$> slices) →
  slicesMaxValue slices true = Ok (inject_Z maxRaw) →
  1 ≤ sigFigures ≤ 5 →
  ∃ h, aggregateSlices slices sigFigures = Ok h ∧
       lowest_trackable_value h = 1 ∧
       highest_trackable_value h = 1 + maxRaw ∧
       significant_figures h = sigFigures.
Proof.
  intros Hlaws [_ Hmax] Hval Hsf. rewrite (aggregateSlices_unfold _ _ _ Hval).
  destruct (HdrHistogram_ok 1 (1 + maxRaw) sigFigures) as [h0 Hnew]; [lia|done|].
  rewrite Hnew. simpl.
  destruct (HdrHistogram_fresh _ _ _ _ Hnew) as (Hlo & Hhi & Hfig & _).
  destruct (reduce_add_ok h0 slices) as (h & Hred & Hlo' & Hhi' & Hfig'); [done| |].
  { intros sl Hsl. rewrite Hhi.
    assert (max_value sl ≤ maxRaw); [|lia].
    apply Hmax, list_elem_of_fmap. eauto. }
  exists h. split; [done|]. split_and!; congruence.
Qed.

(** C2: the histogram returned by [aggregateSlices] has a total count equal
    to the sum of the total counts of the slices; and for a non-empty
    series (at a valid precision) [aggregateSlices] does return one. *)
Theorem aggregateSlices_total_count `{!HdrhLaws L} (slices : list hist) (sigFigures : Z) :
  (∀ h, aggregateSlices slices sigFigures = Ok h →
        total_count h = py_sum (total_count <$> slices)) ∧
  (slices ≠ [] → 1 ≤ sigFigures ≤ 5 → ∃ h, aggregateSlices slices sigFigures = Ok h).
Proof.
  split.
  - intros h. unfold aggregateSlices.
    destruct (slicesMaxValue slices true) as [metricMax|]; simpl; [|done].
    destruct (HdrHistogram 1 _ sigFigures) as [h0|] eqn:Hnew; simpl; [|done].
    intros Hred%reduce_add_total; [|done].
    destruct (HdrHistogram_fresh _ _ _ _ Hnew) as (_ & _ & _ & Hzero & _). lia.
  - intros Hne Hsf.
    destruct (slicesMaxValue_is_max slices Hne) as (maxRaw & Hmax & Hval).
    destruct (aggregateSlices_ok slices sigFigures maxRaw) as (h & Hagg & _); try done.
    by exists h.
Qed.

(** C3: aggregation is order-independent: on a permutation of the series
    [aggregateSlices] has the same outcome, and the histograms returned
    have identical bucket counts. *)
Theorem aggregateSlices_order_independent `{!HdrhLaws L} (slices slices' : list hist)
    (sigFigures : Z) :
  slices ≡ₚ slices' →
  aggregateSlices slices' sigFigures = aggregateSlices slices sigFigures ∧
  ∀ h h', aggregateSlices slices sigFigures = Ok h →
          aggregateSlices slices' sigFigures = Ok h' →
          counts h' = counts h.
Proof.
  intros Hperm.
  assert (Heq : aggregateSlices slices' sigFigures = aggregateSlices slices sigFigures).
  { destruct slices as [|sl slices0] eqn:Hsl.
    - apply Permutation_nil_l in Hperm. by subst.
    - rewrite <- Hsl in *.
      assert (Hne : slices ≠ []) by (by subst).
      assert (Hne' : slices' ≠ []).
      { intros ->. apply Permutation_nil_r in Hperm. done. }
      destruct (slicesMaxValue_is_max slices Hne) as (maxRaw & Hmax & Hval).
      destruct (slicesMaxValue_is_max slices' Hne') as (maxRaw' & Hmax' & Hval').
      assert (maxRaw = maxRaw') as <-.
      { eapply is_max_of_unique; [|done..]. by apply fmap_Permutation. }
      rewrite (aggregateSlices_unfold _ _ _ Hval), (aggregateSlices_unfold _ _ _ Hval').
      destruct (HdrHistogram 1 (1 + maxRaw) sigFigures) as [h0|]; simpl; [|done].
      symmetry. by apply reduce_add_permutation. }
  split; [done|]. intros h h' Hagg Hagg'. congruence.
Qed.

(** C6 (amended): [aggregateSlices] takes [maxRaw] as the maximum of
    [max_value] over all the slices of the series (which is the maximum over
    the slices with samples as soon as every slice without samples is below
    one with samples), allocates the new histogram over the range
    [1, maxRaw + 1] at the given precision and merges the slices into it;
    it raises (the [ValueError] of [max], the specification's
    EmptySeriesError) when the series has no slice, and returns a histogram
    for every series that has one. *)
Theorem aggregateSlices_range `{!HdrhLaws L} (slices : list hist) (sigFigures : Z) :
  (slices = [] → aggregateSlices slices sigFigures = Raise ValueError) ∧
  (slices ≠ [] →
   ∃ maxRaw,
     is_max_of maxRaw (max_value <$> slices) ∧
     slicesMaxValue slices true = Ok (inject_Z maxRaw) ∧
     aggregateSlices slices sigFigures
     = (HdrHistogram 1 (1 + maxRaw) sigFigures ≫= λ fullHistogram,
        reduce_add fullHistogram slices) ∧
     (1 ≤ sigFigures ≤ 5 →
      ∃ h, aggregateSlices slices sigFigures = Ok h ∧
           lowest_trackable_value h = 1 ∧
           highest_trackable_value h = 1 + maxRaw ∧
           significant_figures h = sigFigures) ∧
     ((∀ e, e ∈ slices → total_count e ≤ 0 →
            ∃ s, s ∈ slices ∧ 0 < total_count s ∧ max_value e ≤ max_value s) →
      is_max_of maxRaw (max_value <$> filter (λ sl, 0 < total_count sl) slices))).
Proof.
  split; [by intros ->|]. intros Hne.
  destruct (slicesMaxValue_is_max slices Hne) as (maxRaw & Hmax & Hval).
  exists maxRaw. split_and!; [done|done|by apply aggregateSlices_unfold| |].
  - intros Hsf. by apply aggregateSlices_ok.
  - intros Hbelow. destruct Hmax as [Hin Hmax].
    apply list_elem_of_fmap in Hin as (m & -> & Hm). split.
    + destruct (decide (0 < total_count m)) as [Hpos|Hzero].
      * apply list_elem_of_fmap. exists m. split; [done|]. by apply list_elem_of_filter.
      * destruct (Hbelow m Hm) as (s & Hs & Hpos & Hle); [lia|].
        assert (max_value s ≤ max_value m) by (apply Hmax, list_elem_of_fmap; eauto).
        apply list_elem_of_fmap. exists s. split; [lia|]. by apply list_elem_of_filter.
    + intros x (s & -> & [_ Hs]%list_elem_of_filter)%list_elem_of_fmap.
      apply Hmax, list_elem_of_fmap. eauto.
Qed.

End aggregate.

Lemma aggregateSlices_total_count_witness :
  ∃ h, aggregateSlices [slice_a; slice_b] 3 = Ok h ∧
       total_count h = py_sum (total_count <$> [slice_a; slice_b]).
Proof.
  destruct (aggregateSlices_total_count (L:=RefHdrh) [slice_a; slice_b] 3) as [Htotal Hok].
  destruct Hok as [h Hagg]; [done|lia|].
  exists h. split; [done|by apply Htotal].
Defined.

Lemma aggregateSlices_order_independent_witness :
  [slice_a; slice_b; slice_empty] ≡ₚ [slice_empty; slice_b; slice_a] ∧
  aggregateSlices [slice_empty; slice_b; slice_a] 3
  = aggregateSlices [slice_a; slice_b; slice_empty] 3.
Proof.
  assert (Hperm : [slice_a; slice_b; slice_empty] ≡ₚ [slice_empty; slice_b; slice_a]).
  { etrans; [apply perm_skip, perm_swap|].
    etrans; [apply perm_swap|]. apply perm_skip, perm_swap. }
  split; [done|].
  by apply (aggregateSlices_order_independent (L:=RefHdrh)).
Defined.

Lemma aggregateSlices_range_witness :
  ∃ h, aggregateSlices [slice_a; slice_b] 3 = Ok h ∧
       lowest_trackable_value h = 1 ∧ highest_trackable_value h = 1 + 5 ∧
       significant_figures h = 3.
Proof.
  destruct (aggregateSlices_range (L:=RefHdrh) [slice_a; slice_b] 3) as [_ Hrange].
  destruct Hrange as (maxRaw & Hmax & _ & _ & Hok & _); [done|].
  destruct Hok as (h & Hagg & Hlo & Hhi & Hsf); [lia|].
  assert (maxRaw = 5) as ->.
  { destruct Hmax as [Hin Hle]. vm_compute in Hin.
    apply elem_of_cons in Hin as [->|Hin].
    - specialize (Hle 5). vm_compute in Hle. exfalso.
      apply Hle; [|done]. right; left.
    - apply elem_of_cons in Hin as [->|Hin]; [done|]. by apply elem_of_nil in Hin. }
  exists h. by split_and!.
Defined.

(** C6 as stated fails: a series whose only slice has no samples is
    aggregated (into an empty histogram) instead of raising. *)
Lemma aggregateSlices_all_empty_returns :
  (∀ sl, sl ∈ [slice_empty] → total_count sl = 0) ∧
  ¬ raises (aggregateSlices [slice_empty] 3).
Proof.
  split.
  - intros sl ->%list_elem_of_singleton. reflexivity.
  - intros [e He]. vm_compute in He. discriminate.
Qed.

(** ** The normalized distribution *)

Lemma mapM_py_div (d : Q) (ys : list Z) :
  ¬ (d == 0)%Q →
  mapM (λ y, py_div (inject_Z y) d) ys = Ok ((λ y, inject_Z y / d)%Q <$> ys).
Proof.
  intros Hd. assert (Hb : Qeq_bool d 0 = false).
  { destruct (Qeq_bool d 0) eqn:Hb; [|done]. by apply Qeq_bool_iff in Hb. }
  induction ys as [|y ys IH]; [done|].
  change (mapM (λ y, py_div (inject_Z y) d) (y :: ys))
    with (py_div (inject_Z y) d ≫= λ q,
          mapM (λ y, py_div (inject_Z y) d) ys ≫= λ k, mret (q :: k)).
  rewrite IH. unfold py_div. rewrite Hb. done.
Qed.

Lemma py_sum_nonneg (l : list Z) : Forall (λ c, 0 ≤ c) l → 0 ≤ py_sum l.
Proof.
  induction 1 as [|c l Hc _ IH]; [done|]. rewrite py_sum_cons. lia.
Qed.

Lemma py_sum_take_le (l : list Z) (n : nat) :
  Forall (λ c, 0 ≤ c) l → 0 ≤ py_sum (take n l) ≤ py_sum l.
Proof.
  intros Hl. rewrite <- (take_drop n l) at 3. rewrite py_sum_app.
  pose proof (py_sum_nonneg (take n l) ltac:(by apply Forall_take)).
  pose proof (py_sum_nonneg (drop n l) ltac:(by apply Forall_drop)). lia.
Qed.

Section distribution.
Context {L : Hdrh}.

Lemma scale_factor_pos (rawFlag : bool) : (0 < scale_factor rawFlag)%Q.
Proof. by destruct rawFlag. Qed.

Lemma normalizedDistribution_all_filtered (histogram : hist) (x_incr max_percentile : Q)
    (rawFlag : bool) :
  0 < total_count histogram →
  kept_steps (get_linear_iterator histogram (x_incr * scale_factor rawFlag)) max_percentile = [] →
  normalizedDistribution histogram x_incr max_percentile rawFlag = Raise ValueError.
Proof.
  intros Htot Hkept. unfold normalizedDistribution, sliceValueCount.
  destruct (Z.ltb_spec 0 (total_count histogram)); [|lia].
  by rewrite Hkept.
Qed.

Lemma normalizedDistribution_kept (histogram : hist) (x_incr max_percentile : Q)
    (rawFlag : bool) :
  0 < total_count histogram → (0 < x_incr)%Q →
  kept_steps (get_linear_iterator histogram (x_incr * scale_factor rawFlag)) max_percentile ≠ [] →
  normalizedDistribution histogram x_incr max_percentile rawFlag
  = Ok (density_points histogram x_incr max_percentile rawFlag).
Proof.
  intros Htot Hw Hkept. unfold normalizedDistribution, density_points, sliceValueCount.
  destruct (Z.ltb_spec 0 (total_count histogram)); [|lia].
  destruct (kept_steps _ _) as [|s kept]; [done|].
  change (py_unzip2 (step_point <$> s :: kept))
    with (Ok ((step_point <$> s :: kept).*1, (step_point <$> s :: kept).*2)).
  cbn [mbind result_bind fst snd].
  rewrite mapM_py_div.
  - cbn [mbind result_bind]. rewrite <- !list_fmap_compose. done.
  - intros Hz. assert (Hpos : (0 < inject_Z (total_count histogram) * x_incr)%Q).
    { apply Qmult_lt_0_compat; [|done]. rewrite Zlt_Qlt in Htot. done. }
    rewrite Hz in Hpos. by apply Qlt_irrefl in Hpos.
Qed.

Lemma percentile_of_counts (P T : Z) :
  0 < T →
  (0 ≤ P → (0 <= 100 * inject_Z P / inject_Z T)%Q) ∧
  (P ≤ T → (100 * inject_Z P / inject_Z T <= 100)%Q) ∧
  (0 < P → (0 < 100 * inject_Z P / inject_Z T)%Q).
Proof.
  intros HT. assert (HTq : (0 < inject_Z T)%Q) by (by rewrite Zlt_Qlt in HT).
  split_and!; intros HP.
  - apply Qle_shift_div_l; [done|]. rewrite Qmult_0_l.
    apply Qmult_le_0_compat; [done|]. by rewrite Zle_Qle in HP.
  - apply Qle_shift_div_r; [done|]. apply Qmult_le_l; [done|]. by rewrite Zle_Qle in HP.
  - apply Qlt_shift_div_l; [done|]. rewrite Qmult_0_l.
    apply Qmult_lt_0_compat; [done|]. by rewrite Zlt_Qlt in HP.
Qed.

Lemma percentile_of_counts_mono (P P' T : Z) :
  0 < T → P ≤ P' →
  (100 * inject_Z P / inject_Z T <= 100 * inject_Z P' / inject_Z T)%Q.
Proof.
  intros HT HP. assert (HTq : (0 < inject_Z T)%Q) by (by rewrite Zlt_Qlt in HT).
  unfold Qdiv. apply Qmult_le_compat_r.
  - apply Qmult_le_l; [done|]. by rewrite Zle_Qle in HP.
  - apply Qinv_le_0_compat. by apply Qlt_le_weak.
Qed.

Lemma kept_steps_all (steps : list HdrIterationValue) (max_percentile : Q) :
  Forall (λ step, (percentile step <= max_percentile)%Q) steps →
  kept_steps steps max_percentile = steps.
Proof.
  unfold kept_steps. induction 1 as [|s steps Hs _ IH]; [done|].
  rewrite filter_cons_True, IH; [done|]. by apply Qle_bool_iff.
Qed.

Lemma kept_steps_none (steps : list HdrIterationValue) (max_percentile : Q) :
  Forall (λ step, (max_percentile < percentile step)%Q) steps →
  kept_steps steps max_percentile = [].
Proof.
  unfold kept_steps. induction 1 as [|s steps Hs _ IH]; [done|].
  rewrite filter_cons_False, IH; [done|].
  intros Hle%Qle_bool_iff. by apply Qle_not_lt in Hle.
Qed.

Section linear_iteration.
Context `{!HdrhLaws L}.
Context (histogram : hist) (w : Q).
Hypothesis Htotal : 0 < total_count histogram.

Lemma step_counts_nonneg :
  Forall (λ c, 0 ≤ c) (step_counts (get_linear_iterator histogram w)).
Proof.
  apply Forall_fmap, Forall_forall. intros s Hs. by eapply linear_count_nonneg.
Qed.

Lemma linear_percentile_nonneg :
  Forall (λ step, (0 <= percentile step)%Q) (get_linear_iterator histogram w).
Proof.
  apply Forall_forall. intros s [i Hi]%list_elem_of_lookup.
  rewrite (linear_percentile _ _ _ _ Htotal Hi).
  apply percentile_of_counts; [done|].
  apply py_sum_take_le, step_counts_nonneg.
Qed.

Lemma linear_percentile_le_100 :
  (0 < w)%Q →
  Forall (λ step, (percentile step <= 100)%Q) (get_linear_iterator histogram w).
Proof.
  intros Hw. apply Forall_forall. intros s [i Hi]%list_elem_of_lookup.
  rewrite (linear_percentile _ _ _ _ Htotal Hi).
  apply percentile_of_counts; [done|].
  rewrite <- (linear_exhausts histogram w Htotal Hw) at 1.
  apply py_sum_take_le, step_counts_nonneg.
Qed.

Lemma linear_percentile_pos (s0 : HdrIterationValue) (rest : list HdrIterationValue) :
  get_linear_iterator histogram w = s0 :: rest →
  0 < count_added_in_this_iter_step s0 →
  Forall (λ step, (0 < percentile step)%Q) (get_linear_iterator histogram w).
Proof.
  intros Hsteps Hfirst. apply Forall_forall. intros s [i Hi]%list_elem_of_lookup.
  rewrite (linear_percentile _ _ _ _ Htotal Hi).
  apply percentile_of_counts; [done|].
  pose proof step_counts_nonneg as Hnn. rewrite Hsteps in Hnn |- *.
  unfold step_counts in *. rewrite fmap_cons in Hnn |- *.
  rewrite firstn_cons, py_sum_cons.
  apply Forall_cons in Hnn as [_ Hnn].
  pose proof (py_sum_take_le _ i Hnn). lia.
Qed.

Lemma linear_percentile_first (s0 : HdrIterationValue) (rest : list HdrIterationValue) :
  get_linear_iterator histogram w = s0 :: rest →
  Forall (λ step, (percentile s0 <= percentile step)%Q) (get_linear_iterator histogram w).
Proof.
  intros Hsteps. apply Forall_forall. intros s [i Hi]%list_elem_of_lookup.
  assert (H0 : get_linear_iterator histogram w !! 0%nat = Some s0) by (by rewrite Hsteps).
  rewrite (linear_percentile _ _ _ _ Htotal Hi), (linear_percentile _ _ _ _ Htotal H0).
  apply percentile_of_counts_mono; [done|].
  pose proof step_counts_nonneg as Hnn. rewrite Hsteps in Hnn |- *.
  unfold step_counts in *. rewrite fmap_cons in Hnn |- *.
  rewrite !firstn_cons, !py_sum_cons, take_0.
  apply Forall_cons in Hnn as [_ Hnn].
  pose proof (py_sum_take_le _ i Hnn). change (py_sum []) with 0. lia.
Qed.

Lemma linear_steps_nonempty : (0 < w)%Q → get_linear_iterator histogram w ≠ [].
Proof.
  intros Hw Hnil. pose proof (linear_exhausts histogram w Htotal Hw) as Hsum.
  rewrite Hnil in Hsum. change (py_sum _) with 0 in Hsum. lia.
Qed.

End linear_iteration.

(** C10: [normalizedDistribution] is not total on histograms with samples:
    whenever the percentile filter discards every step of the linear
    iteration, the unpacking of the empty [zip] raises [ValueError]
    instead of an empty curve being returned.  This happens for every
    negative cutoff, for every cutoff below the cumulative percentile of the
    first bucket of the iteration, and so for the cutoff 0 as soon as that
    first bucket is populated. *)
Theorem normalizedDistribution_not_total `{!HdrhLaws L} (histogram : hist)
    (x_incr : Q) (rawFlag : bool) :
  0 < total_count histogram →
  (∀ max_percentile,
     kept_steps (get_linear_iterator histogram (x_incr * scale_factor rawFlag)) max_percentile
       = [] →
     normalizedDistribution histogram x_incr max_percentile rawFlag = Raise ValueError) ∧
  (∀ max_percentile, (max_percentile < 0)%Q →
     normalizedDistribution histogram x_incr max_percentile rawFlag = Raise ValueError) ∧
  (∀ max_percentile s0 rest,
     get_linear_iterator histogram (x_incr * scale_factor rawFlag) = s0 :: rest →
     (max_percentile < percentile s0)%Q →
     normalizedDistribution histogram x_incr max_percentile rawFlag = Raise ValueError) ∧
  (∀ s0 rest,
     get_linear_iterator histogram (x_incr * scale_factor rawFlag) = s0 :: rest →
     0 < count_added_in_this_iter_step s0 →
     normalizedDistribution histogram x_incr 0 rawFlag = Raise ValueError).
Proof.
  intros Htot. split_and!.
  - intros max_percentile. by apply normalizedDistribution_all_filtered.
  - intros max_percentile Hneg. apply normalizedDistribution_all_filtered; [done|].
    apply kept_steps_none.
    eapply Forall_impl; [by apply linear_percentile_nonneg|].
    intros s Hs. simpl in *. by eapply Qlt_le_trans.
  - intros max_percentile s0 rest Hsteps Hbelow.
    apply normalizedDistribution_all_filtered; [done|].
    apply kept_steps_none.
    eapply Forall_impl; [by eapply linear_percentile_first|].
    intros s Hs. simpl in *. by eapply Qlt_le_trans.
  - intros s0 rest Hsteps Hfirst. apply normalizedDistribution_all_filtered; [done|].
    apply kept_steps_none. by eapply linear_percentile_pos.
Qed.

End distribution.

(** C1: the code breaks the claim at a histogram with samples whose first
    bucket is already above the cutoff.  The samples are 1, 1 and 3, the
    bucket width is 1 and the cutoff is the 50th percentile: the first
    bucket of the iteration is at the 66.7th percentile, so that no bucket
    is at or below the cutoff and the claim asks for a curve without
    points, which is what the function returns for a histogram without
    samples.  Instead, unpacking the [zip] of no rows raises
    [ValueError]. *)
Theorem normalizedDistribution_density_fails :
  0 < total_count slice_a ∧ (0 < 1)%Q ∧
  percentile <$> get_linear_iterator slice_a (1 * scale_factor true)
    = [200 # 3; 200 # 3; 300 # 3]%Q ∧
  kept_steps (get_linear_iterator slice_a (1 * scale_factor true)) 50 = [] ∧
  density_points slice_a 1 50 true = ([], []) ∧
  normalizedDistribution slice_a 1 50 true = Raise ValueError ∧
  normalizedDistribution slice_empty 1 50 true = Ok ([], []).
Proof.
  split_and!; [reflexivity|reflexivity|by vm_compute..].
Qed.

Lemma normalizedDistribution_not_total_witness :
  0 < total_count slice_b ∧
  normalizedDistribution slice_b 2 0 true = Raise ValueError ∧
  normalizedDistribution slice_b 2 (-1) true = Raise ValueError.
Proof.
  assert (Htot : 0 < total_count slice_b) by reflexivity.
  destruct (normalizedDistribution_not_total (L:=RefHdrh) slice_b 2 true Htot)
    as (_ & Hneg & _ & Hfirst).
  split_and!; [done| |].
  - eapply Hfirst; [vm_compute; reflexivity|reflexivity].
  - apply Hneg. reflexivity.
Defined.


(** ** The branches of [main] on the curves of [normalizedDistribution] *)

Lemma mapM_result_length {A B} (f : A → result B) (l : list A) (k : list B) :
  mapM f l = Ok k → length k = length l.
Proof.
  revert k. induction l as [|x l IH]; intros k.
  - by intros [= <-].
  - change (mapM f (x :: l)) with (f x ≫= λ y, mapM f l ≫= λ k, mret (y :: k)).
    destruct (f x) as [y|]; [|done]. destruct (mapM f l) as [k'|]; [|done].
    intros [= <-]. simpl. by rewrite (IH k').
Qed.

Lemma py_unzip2_ok {A B} (pairs : list (A * B)) (columns : list A * list B) :
  py_unzip2 pairs = Ok columns → columns = (pairs.*1, pairs.*2).
Proof. destruct pairs; [done|]. by intros [= <-]. Qed.

Section main_branches.
Context {L : Hdrh}.

Lemma normalizedDistribution_lengths (histogram : hist) (x_incr max_percentile : Q)
    (rawFlag : bool) (curve : Curve) :
  normalizedDistribution histogram x_incr max_percentile rawFlag = Ok curve →
  length curve.1 = length curve.2.
Proof.
  unfold normalizedDistribution. cbv zeta.
  destruct (0 <? sliceValueCount histogram); [|by intros [= <-]].
  destruct (py_unzip2 _) as [columns|] eqn:Hun; [|done]. cbn [mbind result_bind].
  destruct (mapM _ _) as [ys|] eqn:Hys; [|done]. intros [= <-]. cbn [fst snd].
  apply mapM_result_length in Hys. rewrite Hys, length_fmap.
  apply py_unzip2_ok in Hun as ->. cbn [fst snd]. by rewrite !length_fmap.
Qed.

Lemma mapM_normalizedDistribution_lengths (slices : list hist) (xStep max_percentile : Q)
    (rawFlag : bool) (curves : list Curve) :
  mapM (λ sl, normalizedDistribution sl xStep max_percentile rawFlag) slices = Ok curves →
  length curves = length slices ∧
  Forall (λ pl : Curve, length pl.1 = length pl.2) curves.
Proof.
  revert curves. induction slices as [|sl slices IH]; intros curves.
  - by intros [= <-].
  - change (mapM ?f (sl :: slices)) with (f sl ≫= λ y, mapM f slices ≫= λ k, mret (y :: k)).
    destruct (normalizedDistribution sl xStep max_percentile rawFlag) as [c|] eqn:Hc; [|done].
    destruct (mapM _ slices) as [cs|]; [|done]. intros [= <-].
    destruct (IH cs eq_refl) as [Hlen Hall]. split; [simpl; lia|].
    constructor; [|done]. by eapply normalizedDistribution_lengths.
Qed.

(** With two slices or more, the stability branch pads the per-slice
    curves and stores them under "stability". *)
Lemma stability_branch_pads (slices : list hist) (xStep : Q) (args : Args) (st : MainState)
    (perSlicePlots0 : list Curve) :
  stability args = true → (1 < length slices)%nat →
  mapM (λ sl, normalizedDistribution sl xStep (max_percentile args) (raw args)) slices
    = Ok perSlicePlots0 →
  ∃ perSlicePlots,
    pad_curves perSlicePlots0 = Ok perSlicePlots ∧
    stability_branch slices xStep args st
    = Ok (print "done."
            (set_plot "stability" perSlicePlots
               (print "  * Calculating stability plot ... " st))).
Proof.
  intros Hflag Hlen Hcurves.
  destruct (mapM_normalizedDistribution_lengths _ _ _ _ _ Hcurves) as [Hlen' Hall].
  destruct (pad_curves_first_longest perSlicePlots0) as (i & fullXs & _ & Hpad).
  { intros ->. simpl in Hlen'. lia. }
  eexists. split; [exact Hpad|].
  unfold stability_branch. rewrite Hflag.
  destruct (Nat.ltb_spec 1 (length slices)); [|lia].
  cbn zeta. rewrite Hcurves. cbn [mbind result_bind]. rewrite Hpad. done.
Qed.

(** The percentile branch stores the percentile curve of the base plot
    under "percentiles". *)
Lemma percentiles_branch_curve (fullHistogram : hist) (xStep : Q) (args : Args)
    (st : MainState) (base : Curve) :
  percentiles args = true →
  plotDataMap st !! "baseplot" = Some [base] →
  percentiles_branch fullHistogram xStep args st
  = Ok (print "done."
          (set_plot "percentiles" [percentile_curve base xStep]
             (print "  * Calculating percentile plot ... " st))).
Proof.
  intros Hflag Hbase. unfold percentiles_branch. rewrite Hflag.
  cbn zeta. cbn [plotDataMap print]. rewrite Hbase. done.
Qed.

End main_branches.

(** * Further properties *)

(** ** Summary queries *)

Section py_min_by.
Context {A : Type} (key : A → Z) (lt : A → A → bool).
Hypothesis lt_key : ∀ a b, lt a b = (key a <? key b).

Lemma fold_min_spec (l : list A) (x : A) :
  fold_left (λ best y, if lt y best then y else best) l x ∈ x :: l ∧
  ∀ y, y ∈ x :: l → key (fold_left (λ best y, if lt y best then y else best) l x) ≤ key y.
Proof.
  revert x. induction l as [|z l IH]; intros x.
  - simpl. split; [left|]. intros y ->%list_elem_of_singleton. lia.
  - cbn [fold_left]. rewrite lt_key.
    destruct (Z.ltb_spec (key z) (key x)) as [Hlt|Hge].
    + destruct (IH z) as [Hin Hle]. split.
      * right. done.
      * intros y [->|Hy]%elem_of_cons; [|by apply Hle].
        specialize (Hle z ltac:(left)). lia.
    + destruct (IH x) as [Hin Hle]. split.
      * apply elem_of_cons in Hin as [->|Hin]; [left|right; by right].
      * intros y [->|[->|Hy]%elem_of_cons]%elem_of_cons.
        -- apply Hle. left.
        -- specialize (Hle x ltac:(left)). lia.
        -- apply Hle. by right.
Qed.

Lemma py_min_by_spec (l : list A) :
  l ≠ [] → ∃ m, py_min_by lt l = Ok m ∧ m ∈ l ∧ ∀ y, y ∈ l → key m ≤ key y.
Proof.
  destruct l as [|x l]; [done|]. intros _.
  destruct (fold_min_spec l x) as [Hin Hle]. eexists. split; [reflexivity|done].
Qed.

End py_min_by.

Lemma py_min_by_fmap {A B} (f : A → B) (lt : B → B → bool) (l : list A) :
  py_min_by lt (f <$> l) = f <$> py_min_by (λ a b, lt (f a) (f b)) l.
Proof.
  destruct l as [|x l]; [done|]. simpl. f_equal.
  revert x. induction l as [|y l IH]; intros x; simpl; [done|].
  rewrite <- IH. by destruct (lt (f y) (f x)).
Qed.

Lemma Qlt_bool_scaled (a b : Z) :
  Qlt_bool (inject_Z a / VALUE_FACTOR) (inject_Z b / VALUE_FACTOR) = (a <? b).
Proof.
  rewrite <- Qlt_bool_inject_Z. unfold Qlt_bool. f_equal.
  assert (Hiff : (inject_Z b / VALUE_FACTOR <= inject_Z a / VALUE_FACTOR)%Q
                 ↔ (inject_Z b <= inject_Z a)%Q).
  { unfold Qdiv. apply Qmult_le_r. reflexivity. }
  destruct (Qle_bool (inject_Z b) (inject_Z a)) eqn:Hraw.
  - apply Qle_bool_iff, Hiff, Qle_bool_iff. done.
  - destruct (Qle_bool (_ / _) (_ / _)) eqn:Hdisp; [|done].
    apply Qle_bool_iff, Hiff, Qle_bool_iff in Hdisp. congruence.
Qed.

Lemma py_max_by_ext {A} (lt lt' : A → A → bool) (l : list A) :
  (∀ a b, lt a b = lt' a b) → py_max_by lt l = py_max_by lt' l.
Proof.
  intros Hext. destruct l as [|x l]; [done|]. simpl. f_equal.
  revert x. induction l as [|y l IH]; intros x; simpl; [done|]. by rewrite Hext, IH.
Qed.

Lemma py_min_by_ext {A} (lt lt' : A → A → bool) (l : list A) :
  (∀ a b, lt a b = lt' a b) → py_min_by lt l = py_min_by lt' l.
Proof.
  intros Hext. destruct l as [|x l]; [done|]. simpl. f_equal.
  revert x. induction l as [|y l IH]; intros x; simpl; [done|]. by rewrite Hext, IH.
Qed.

Section queries.
Context {L : Hdrh}.

(** X1: on a series with at least one slice, the earliest start is the
    minimum of the slices' start timestamps and the latest end the maximum
    of their end timestamps; when every slice starts before it ends, the
    earliest start is not after the latest end. *)
Theorem slices_time_range (slices : list hist) :
  slices ≠ [] →
  ∃ t0 t1,
    slicesStartTimestamp slices = Ok t0 ∧
    is_min_of t0 (start_time_stamp_msec <$> slices) ∧
    slicesEndTimestamp slices = Ok t1 ∧
    is_max_of t1 (end_time_stamp_msec <$> slices) ∧
    ((∀ sl, sl ∈ slices → start_time_stamp_msec sl ≤ end_time_stamp_msec sl) → t0 ≤ t1).
Proof.
  intros Hne.
  destruct (py_min_by_spec (λ z : Z, z) Z.ltb) with (l := sliceStartTimestamp <$> slices)
    as (t0 & Hmin & Hin0 & Hle0); [done|by destruct slices|].
  destruct (py_max_by_first (λ z : Z, z) Z.ltb) with (l := sliceEndTimestamp <$> slices)
    as (i & t1 & Hmax & Hfirst); [done|by destruct slices|].
  apply first_max_at_is_max in Hfirst. rewrite list_fmap_id in Hfirst.
  exists t0, t1. split_and!; try done.
  intros Hordered.
  apply list_elem_of_fmap in Hin0 as (sl & -> & Hsl).
  destruct Hfirst as [_ Hub].
  assert (sliceEndTimestamp sl ≤ t1) by (apply Hub, list_elem_of_fmap; eauto).
  specialize (Hordered sl Hsl). unfold sliceStartTimestamp, sliceEndTimestamp in *. lia.
Qed.

(** X2: the display-unit extremes are the raw extremes divided by
    [VALUE_FACTOR]: [slicesMinValue] and [slicesMaxValue] pick the same
    slice whatever the raw flag, and every slice's values lie between the
    two. *)
Theorem slices_value_range_units (slices : list hist) :
  slices ≠ [] →
  ∃ lowest highest,
    lowest ∈ slices ∧ highest ∈ slices ∧
    (∀ sl, sl ∈ slices →
       min_value lowest ≤ min_value sl ∧ max_value sl ≤ max_value highest) ∧
    slicesMinValue slices true = Ok (inject_Z (min_value lowest)) ∧
    slicesMinValue slices false = Ok (inject_Z (min_value lowest) / VALUE_FACTOR)%Q ∧
    slicesMaxValue slices true = Ok (inject_Z (max_value highest)) ∧
    slicesMaxValue slices false = Ok (inject_Z (max_value highest) / VALUE_FACTOR)%Q.
Proof.
  intros Hne.
  destruct (py_min_by_spec min_value (λ a b, min_value a <? min_value b)) with (l := slices)
    as (lowest & Hmin & Hlow & Hle); [done..|].
  destruct (py_max_by_first max_value (λ a b, max_value a <? max_value b)) with (l := slices)
    as (i & highest & Hmax & Hfirst); [done..|].
  exists lowest, highest.
  assert (Hhigh : highest ∈ slices).
  { destruct Hfirst as [Hi _]. by eapply list_elem_of_lookup_2. }
  split_and!; try done.
  - intros sl Hsl. split; [by apply Hle|].
    destruct Hfirst as (_ & Hub & _). apply list_elem_of_lookup in Hsl as [j Hj]. by eapply Hub.
  - unfold slicesMinValue, py_min. rewrite py_min_by_fmap.
    rewrite (py_min_by_ext _ (λ a b, min_value a <? min_value b)), Hmin; [done|].
    intros a b. apply Qlt_bool_inject_Z.
  - unfold slicesMinValue, py_min. rewrite py_min_by_fmap.
    rewrite (py_min_by_ext _ (λ a b, min_value a <? min_value b)), Hmin; [done|].
    intros a b. apply Qlt_bool_scaled.
  - unfold slicesMaxValue, py_max. rewrite py_max_by_fmap.
    rewrite (py_max_by_ext _ (λ a b, max_value a <? max_value b)), Hmax; [done|].
    intros a b. apply Qlt_bool_inject_Z.
  - unfold slicesMaxValue, py_max. rewrite py_max_by_fmap.
    rewrite (py_max_by_ext _ (λ a b, max_value a <? max_value b)), Hmax; [done|].
    intros a b. apply Qlt_bool_scaled.
Qed.

Lemma py_sum_indicator (P : hist → bool) (slices : list hist) :
  py_sum ((λ sl, if P sl then 1 else 0) <$> slices)
  = Z.of_nat (length (filter (λ sl, P sl = true) slices)).
Proof.
  induction slices as [|sl slices IH]; [done|].
  rewrite fmap_cons, py_sum_cons, IH.
  destruct (P sl) eqn:HP.
  - rewrite filter_cons_True by done. simpl. lia.
  - rewrite filter_cons_False by congruence. lia.
Qed.

(** X3: [slicesCountNonempty] is the number of slices with a positive
    sample count; it lies between 0 and the number of slices. *)
Theorem slicesCountNonempty_counts (slices : list hist) :
  slicesCountNonempty slices
  = Z.of_nat (length (filter (λ sl, 0 < total_count sl) slices)) ∧
  0 ≤ slicesCountNonempty slices ≤ Z.of_nat (length slices).
Proof.
  unfold slicesCountNonempty, sliceValueCount.
  rewrite (py_sum_indicator (λ sl, 0 <? total_count sl)).
  assert (Hfilter : filter (λ sl, (0 <? total_count sl) = true) slices
                    = filter (λ sl, 0 < total_count sl) slices).
  { apply list_filter_iff. intros sl. apply Z.ltb_lt. }
  rewrite Hfilter. split; [done|].
  pose proof (length_filter (λ sl, 0 < total_count sl) slices). lia.
Qed.

(** X4: when no slice has a negative count, there are at least as many
    samples as non-empty slices, and the total sample count is 0 exactly
    when the count of non-empty slices is 0, that is when every slice is
    empty. *)
Theorem slices_counts_agree (slices : list hist) :
  (∀ sl, sl ∈ slices → 0 ≤ total_count sl) →
  slicesCountNonempty slices ≤ slicesValueCount slices ∧
  (slicesValueCount slices = 0 ↔ slicesCountNonempty slices = 0) ∧
  (slicesValueCount slices = 0 ↔ ∀ sl, sl ∈ slices → total_count sl = 0).
Proof.
  unfold slicesCountNonempty, slicesValueCount, sliceValueCount.
  induction slices as [|sl slices IH]; intros Hnn.
  - split_and!; [done|done|]. split; [by intros _ sl ?%elem_of_nil|done].
  - rewrite !fmap_cons, !py_sum_cons.
    destruct IH as (IHle & IHiff & IHall); [intros; apply Hnn; by right|].
    assert (0 ≤ total_count sl) by (apply Hnn; left).
    assert (0 ≤ py_sum ((λ sl, if 0 <? total_count sl then 1 else 0) <$> slices)).
    { apply py_sum_nonneg, Forall_fmap, Forall_forall. intros s _. simpl.
      destruct (0 <? total_count s); lia. }
    destruct (Z.ltb_spec 0 (total_count sl)); split_and!.
    + lia.
    + split; lia.
    + split; [intros; lia|]. intros Hall. specialize (Hall sl ltac:(left)). lia.
    + lia.
    + split; lia.
    + split.
      * intros Hz sl' [->|Hsl]%elem_of_cons; [lia|]. apply IHall; [lia|done].
      * intros Hall. rewrite (proj2 IHall); [lia|].
        intros; apply Hall. by right.
Qed.

End queries.

Lemma slices_time_range_witness :
  [slice_a; slice_b] ≠ [] ∧
  ∃ t0 t1,
    slicesStartTimestamp [slice_a; slice_b] = Ok t0 ∧
    is_min_of t0 (start_time_stamp_msec <$> [slice_a; slice_b]) ∧
    slicesEndTimestamp [slice_a; slice_b] = Ok t1 ∧
    is_max_of t1 (end_time_stamp_msec <$> [slice_a; slice_b]).
Proof.
  assert (Hne : [slice_a; slice_b] ≠ []) by done.
  split; [done|].
  destruct (slices_time_range (L:=RefHdrh) [slice_a; slice_b] Hne)
    as (t0 & t1 & H0 & Hmin & H1 & Hmax & _).
  by exists t0, t1.
Defined.

Lemma slices_value_range_units_witness :
  [slice_a; slice_b] ≠ [] ∧
  ∃ lowest highest,
    slicesMinValue [slice_a; slice_b] false = Ok (inject_Z (min_value lowest) / VALUE_FACTOR)%Q ∧
    slicesMaxValue [slice_a; slice_b] false = Ok (inject_Z (max_value highest) / VALUE_FACTOR)%Q.
Proof.
  assert (Hne : [slice_a; slice_b] ≠ []) by done.
  split; [done|].
  destruct (slices_value_range_units (L:=RefHdrh) [slice_a; slice_b] Hne)
    as (lowest & highest & _ & _ & _ & _ & Hmin & _ & Hmax).
  by exists lowest, highest.
Defined.

Lemma slices_counts_agree_witness :
  (∀ sl, sl ∈ [slice_a; slice_empty] → 0 ≤ total_count sl) ∧
  slicesCountNonempty [slice_a; slice_empty] ≤ slicesValueCount [slice_a; slice_empty].
Proof.
  assert (Hnn : ∀ sl, sl ∈ [slice_a; slice_empty] → 0 ≤ total_count sl).
  { intros sl [->|[->|[]%elem_of_nil]%elem_of_cons]%elem_of_cons; by vm_compute. }
  split; [done|].
  by destruct (slices_counts_agree (L:=RefHdrh) [slice_a; slice_empty] Hnn) as [Hle _].
Defined.

(** ** The normalized distribution, continued *)

Lemma Qmult_1_r_eq (x : Q) : (x * 1)%Q = x.
Proof.
  destruct x as [n d]. unfold Qmult. simpl. by rewrite Z.mul_1_r, Pos.mul_1_r.
Qed.

Lemma mapM_py_div_zero (d : Q) (y : Z) (ys : list Z) :
  (d == 0)%Q → mapM (λ y, py_div (inject_Z y) d) (y :: ys) = Raise ZeroDivisionError.
Proof.
  intros Hd.
  change (mapM (λ y, py_div (inject_Z y) d) (y :: ys))
    with (py_div (inject_Z y) d ≫= λ q,
          mapM (λ y, py_div (inject_Z y) d) ys ≫= λ k, mret (q :: k)).
  unfold py_div. apply Qeq_bool_iff in Hd. by rewrite Hd.
Qed.

Section distribution_more.
Context {L : Hdrh}.

(** X5: a curve returned by [normalizedDistribution] has as many y values
    as x values, and it is empty exactly when the histogram has no samples:
    for a histogram with samples the function never returns an empty
    curve. *)
Theorem normalizedDistribution_curve_shape (histogram : hist) (x_incr max_percentile : Q)
    (rawFlag : bool) (xs ys : list Q) :
  normalizedDistribution histogram x_incr max_percentile rawFlag = Ok (xs, ys) →
  length xs = length ys ∧ (xs = [] ↔ total_count histogram ≤ 0).
Proof.
  intros Hcurve. split; [by apply normalizedDistribution_lengths in Hcurve|].
  destruct (Z.ltb_spec 0 (total_count histogram)) as [Hpos|Hzero].
  - split; [|lia]. intros ->.
    destruct (kept_steps (get_linear_iterator histogram (x_incr * scale_factor rawFlag))
                max_percentile) as [|s kept] eqn:Hkept.
    + pose proof (normalizedDistribution_all_filtered _ _ _ _ Hpos Hkept). congruence.
    + exfalso. revert Hcurve. unfold normalizedDistribution, sliceValueCount.
      destruct (Z.ltb_spec 0 (total_count histogram)); [|lia]. cbv zeta. rewrite Hkept.
      change (py_unzip2 (step_point <$> s :: kept))
        with (Ok ((step_point <$> s :: kept).*1, (step_point <$> s :: kept).*2)).
      cbn [mbind result_bind fst snd].
      destruct (mapM _ _); [|done]. intros [= Hxs _].
  - split; [done|]. intros _. revert Hcurve. unfold normalizedDistribution, sliceValueCount.
    destruct (Z.ltb_spec 0 (total_count histogram)); [lia|]. by intros [= <- _].
Qed.

(** X6: for a histogram with samples and a positive bucket width, the y
    values returned pair up with the kept steps of the iteration: every y
    value is non-negative, and it is 0 for a step that added no sample. *)
Theorem normalizedDistribution_nonneg `{!HdrhLaws L} (histogram : hist)
    (x_incr max_percentile : Q) (rawFlag : bool) (xs ys : list Q) :
  0 < total_count histogram → (0 < x_incr)%Q →
  normalizedDistribution histogram x_incr max_percentile rawFlag = Ok (xs, ys) →
  Forall2 (λ y step,
             (0 <= y)%Q ∧ (count_added_in_this_iter_step step = 0 → (y == 0)%Q))
    ys
    (kept_steps (get_linear_iterator histogram (x_incr * scale_factor rawFlag)) max_percentile).
Proof.
  intros Htot Hw Hcurve.
  assert (HT : (0 < inject_Z (total_count histogram))%Q) by (by rewrite Zlt_Qlt in Htot).
  assert (Hd : (0 < inject_Z (total_count histogram) * x_incr)%Q)
    by (by apply Qmult_lt_0_compat).
  set (steps := get_linear_iterator histogram (x_incr * scale_factor rawFlag)) in *.
  assert (Hkept : kept_steps steps max_percentile ≠ []).
  { intros Hnil. pose proof (normalizedDistribution_all_filtered _ _ _ _ Htot Hnil).
    congruence. }
  rewrite normalizedDistribution_kept in Hcurve by done.
  injection Hcurve as _ <-. fold steps.
  apply Forall2_fmap_l, Forall_Forall2_diag, Forall_forall. intros s Hs. split.
  - apply Qle_shift_div_l; [done|]. rewrite Qmult_0_l.
    apply list_elem_of_filter in Hs as [_ Hs].
    pose proof (linear_count_nonneg _ _ _ Hs) as Hc. by rewrite Zle_Qle in Hc.
  - intros ->. unfold Qdiv. by rewrite Qmult_0_l.
Qed.

(** X7: display mode with bucket width [x_incr] and raw mode with bucket
    width [x_incr * VALUE_FACTOR] iterate the same buckets: both raise the
    same error, or both return a curve, with as many points in one as in
    the other, the display x values being the raw ones divided by
    [VALUE_FACTOR]. *)
Theorem normalizedDistribution_units (histogram : hist) (x_incr max_percentile : Q) :
  match normalizedDistribution histogram x_incr max_percentile false,
        normalizedDistribution histogram (x_incr * VALUE_FACTOR) max_percentile true with
  | Ok (xs, ys), Ok (xs_raw, ys_raw) =>
      Forall2 (λ x x_raw, (x == x_raw / VALUE_FACTOR)%Q) xs xs_raw ∧
      length ys = length ys_raw ∧ length ys = length xs
  | Raise e, Raise e_raw => e = e_raw
  | _, _ => False
  end.
Proof.
  unfold normalizedDistribution, sliceValueCount. cbv zeta.
  change (scale_factor true) with 1%Q. change (scale_factor false) with VALUE_FACTOR.
  rewrite Qmult_1_r_eq.
  destruct (0 <? total_count histogram); [|done].
  destruct (kept_steps _ _) as [|s kept]; [done|].
  change (py_unzip2 (step_point <$> s :: kept))
    with (Ok ((step_point <$> s :: kept).*1, (step_point <$> s :: kept).*2)).
  cbn [mbind result_bind fst snd].
  set (T := inject_Z (total_count histogram)).
  destruct (Qeq_dec (T * x_incr) 0) as [Hz|Hnz].
  - assert (Hz' : (T * (x_incr * VALUE_FACTOR) == 0)%Q) by (rewrite Qmult_assoc, Hz; reflexivity).
    rewrite !fmap_cons, !mapM_py_div_zero by done. done.
  - assert (Hnz' : ¬ (T * (x_incr * VALUE_FACTOR) == 0)%Q).
    { intros Hz. apply Hnz. rewrite Qmult_assoc in Hz.
      apply Qmult_integral in Hz as [Hz|Hz]; [done|discriminate]. }
    rewrite !mapM_py_div by done. cbn [mbind result_bind].
    rewrite <- !list_fmap_compose. split_and!.
    + apply Forall2_fmap, Forall2_same_length_lookup. split; [done|].
      intros i a b Ha Hb. assert (a = b) as -> by congruence. simpl. field. discriminate.
    + by rewrite !length_fmap.
    + by rewrite !length_fmap.
Qed.

End distribution_more.

Lemma normalizedDistribution_curve_shape_witness :
  normalizedDistribution slice_b 2 100 true
    = Ok ([2 # 2; 6 # 2; 10 # 2], [1 # 8; 0 # 8; 3 # 8])%Q ∧
  length [2 # 2; 6 # 2; 10 # 2]%Q = length [1 # 8; 0 # 8; 3 # 8]%Q.
Proof.
  assert (Hcurve : normalizedDistribution slice_b 2 100 true
                   = Ok ([2 # 2; 6 # 2; 10 # 2], [1 # 8; 0 # 8; 3 # 8])%Q)
    by (vm_compute; reflexivity).
  split; [done|].
  by destruct (normalizedDistribution_curve_shape (L:=RefHdrh) _ _ _ _ _ _ Hcurve).
Defined.

Lemma normalizedDistribution_nonneg_witness :
  0 < total_count slice_b ∧ (0 < 2)%Q ∧
  normalizedDistribution slice_b 2 50 true = Ok ([2 # 2; 6 # 2], [1 # 8; 0 # 8])%Q ∧
  Forall (λ y, (0 <= y)%Q) [1 # 8; 0 # 8]%Q.
Proof.
  assert (Htot : 0 < total_count slice_b) by reflexivity.
  assert (Hw : (0 < 2)%Q) by reflexivity.
  assert (Hcurve : normalizedDistribution slice_b 2 50 true
                   = Ok ([2 # 2; 6 # 2], [1 # 8; 0 # 8])%Q)
    by (vm_compute; reflexivity).
  split_and!; [done..|].
  pose proof (normalizedDistribution_nonneg (L:=RefHdrh) _ _ _ _ _ _ Htot Hw Hcurve) as Hall.
  apply Forall2_Forall_l with (Q := λ y, (0 <= y)%Q) in Hall; [done|].
  apply Forall_forall. by intros step _ y [Hy _].
Defined.

(** ** The percentile curve, continued *)

Lemma fold_left_Qplus (l : list Q) (a : Q) : (fold_left Qplus l a == a + Qsum l)%Q.
Proof.
  revert a. induction l as [|x l IH]; intros a; simpl.
  - ring.
  - rewrite IH. change (fold_right Qplus 0%Q l) with (Qsum l). ring.
Qed.

Lemma Qsum_app (l1 l2 : list Q) : (Qsum (l1 ++ l2) == Qsum l1 + Qsum l2)%Q.
Proof.
  induction l1 as [|x l1 IH]; simpl.
  - ring.
  - change (fold_right Qplus 0%Q (l1 ++ l2)) with (Qsum (l1 ++ l2)).
    change (fold_right Qplus 0%Q l1) with (Qsum l1). rewrite IH. ring.
Qed.

Lemma Qsum_nonneg (l : list Q) : Forall (λ y, (0 <= y)%Q) l → (0 <= Qsum l)%Q.
Proof.
  induction 1 as [|y l Hy _ IH]; simpl; [done|].
  change (fold_right Qplus 0%Q l) with (Qsum l).
  rewrite <- (Qplus_0_l 0). by apply Qplus_le_compat.
Qed.

Lemma partial_sum_Qsum (ys : list Q) (i : nat) : (partial_sum ys i == Qsum (take (S i) ys))%Q.
Proof. unfold partial_sum. rewrite fold_left_Qplus. ring. Qed.

Lemma partial_sum_mono (ys : list Q) (i j : nat) :
  Forall (λ y, (0 <= y)%Q) ys → (i ≤ j)%nat → (partial_sum ys i <= partial_sum ys j)%Q.
Proof.
  intros Hnn Hij. rewrite !partial_sum_Qsum.
  replace (S j) with (S i + (j - i))%nat by lia.
  rewrite <- take_take_drop. rewrite Qsum_app.
  rewrite <- (Qplus_0_r (Qsum (take (S i) ys))) at 1.
  apply Qplus_le_compat; [apply Qle_refl|].
  apply Qsum_nonneg. by apply Forall_take, Forall_drop.
Qed.

Lemma running_totals_partial_sums (bys : list Q) :
  running_totals bys = partial_sum bys <$> seq 0 (length bys).
Proof. unfold running_totals. by rewrite running_totals_fold. Qed.

Lemma percentile_curve_lookup (base : Curve) (xStep : Q) (i : nat) (p : Q) :
  (percentile_curve base xStep).1 !! i = Some p →
  (i < length base.2)%nat ∧ p = (partial_sum base.2 i * xStep * 100)%Q.
Proof.
  unfold percentile_curve. cbn [fst]. rewrite running_totals_partial_sums.
  rewrite list_lookup_fmap, list_lookup_fmap.
  destruct (seq 0 (length base.2) !! i) as [k|] eqn:Hk; [|done].
  apply lookup_seq in Hk as [-> Hi]. by intros [= <-].
Qed.

(** X8: the percentile curve has one percentile per y value of the base
    plot, and for non-negative y values and a non-negative step its
    percentile axis is non-decreasing. *)
Theorem percentile_curve_monotone (base : Curve) (xStep : Q) :
  Forall (λ y, (0 <= y)%Q) base.2 → (0 <= xStep)%Q →
  length (percentile_curve base xStep).1 = length base.2 ∧
  ∀ i j p q, (i ≤ j)%nat →
    (percentile_curve base xStep).1 !! i = Some p →
    (percentile_curve base xStep).1 !! j = Some q →
    (p <= q)%Q.
Proof.
  intros Hnn Hstep. split.
  - unfold percentile_curve. cbn [fst].
    by rewrite running_totals_partial_sums, !length_fmap, length_seq.
  - intros i j p q Hij [_ ->]%percentile_curve_lookup [_ ->]%percentile_curve_lookup.
    apply Qmult_le_compat_r; [|done].
    apply Qmult_le_compat_r; [|done].
    by apply partial_sum_mono.
Qed.

Section percentile_of_density.
Context `{!HdrhLaws L}.

Lemma normalizedDistribution_ys_nonneg (histogram : hist) (x_incr max_percentile : Q)
    (rawFlag : bool) (curve : Curve) :
  0 < total_count histogram → (0 < x_incr)%Q →
  normalizedDistribution histogram x_incr max_percentile rawFlag = Ok curve →
  Forall (λ y, (0 <= y)%Q) curve.2 ∧
  length curve.2
  = length (kept_steps (get_linear_iterator histogram (x_incr * scale_factor rawFlag))
              max_percentile).
Proof.
  intros Htot Hw Hcurve.
  assert (HT : (0 < inject_Z (total_count histogram))%Q) by (by rewrite Zlt_Qlt in Htot).
  assert (Hd : (0 < inject_Z (total_count histogram) * x_incr)%Q)
    by (by apply Qmult_lt_0_compat).
  assert (Hkept : kept_steps (get_linear_iterator histogram (x_incr * scale_factor rawFlag))
                    max_percentile ≠ []).
  { intros Hnil. pose proof (normalizedDistribution_all_filtered _ _ _ _ Htot Hnil).
    congruence. }
  rewrite normalizedDistribution_kept in Hcurve by done. injection Hcurve as <-.
  unfold density_points. cbv zeta. cbn [snd]. split; [|by rewrite length_fmap].
  apply Forall_fmap, Forall_forall. intros s Hs. simpl.
  apply Qle_shift_div_l; [done|]. rewrite Qmult_0_l.
  apply list_elem_of_filter in Hs as [_ Hs].
  pose proof (linear_count_nonneg _ _ _ Hs) as Hc. by rewrite Zle_Qle in Hc.
Qed.

(** X9: the percentile curve computed from the curve that
    [normalizedDistribution] returns for a histogram with samples and a
    positive bucket width (the same width): its value axis is the x values
    of that curve, and its percentile axis has one entry per kept step of
    the iteration, non-negative and non-decreasing. *)
Theorem percentile_curve_of_density (histogram : hist) (x_incr max_percentile : Q)
    (rawFlag : bool) (curve : Curve) :
  0 < total_count histogram → (0 < x_incr)%Q →
  normalizedDistribution histogram x_incr max_percentile rawFlag = Ok curve →
  (percentile_curve curve x_incr).2 = curve.1 ∧
  length (percentile_curve curve x_incr).1
  = length (kept_steps (get_linear_iterator histogram (x_incr * scale_factor rawFlag))
              max_percentile) ∧
  Forall (λ p, (0 <= p)%Q) (percentile_curve curve x_incr).1 ∧
  ∀ i j p q, (i ≤ j)%nat →
    (percentile_curve curve x_incr).1 !! i = Some p →
    (percentile_curve curve x_incr).1 !! j = Some q →
    (p <= q)%Q.
Proof.
  intros Htot Hw Hcurve.
  destruct (normalizedDistribution_ys_nonneg _ _ _ _ _ Htot Hw Hcurve) as [Hnn Hlen].
  assert (Hstep : (0 <= x_incr)%Q) by (by apply Qlt_le_weak).
  split_and!.
  - done.
  - unfold percentile_curve. cbn [fst].
    by rewrite running_totals_partial_sums, !length_fmap, length_seq.
  - apply Forall_forall. intros p [i Hp]%list_elem_of_lookup.
    apply percentile_curve_lookup in Hp as [_ ->].
    apply Qmult_le_0_compat; [|done]. apply Qmult_le_0_compat; [|done].
    rewrite partial_sum_Qsum. by apply Qsum_nonneg, Forall_take.
  - intros i j p q Hij [_ ->]%percentile_curve_lookup [_ ->]%percentile_curve_lookup.
    apply Qmult_le_compat_r; [|done].
    apply Qmult_le_compat_r; [|done].
    by apply partial_sum_mono.
Qed.

End percentile_of_density.

Lemma percentile_curve_monotone_witness :
  Forall (λ y, (0 <= y)%Q) [1 # 8; 0 # 8; 3 # 8]%Q ∧ (0 <= 2)%Q ∧
  length (percentile_curve ([1; 3; 5], [1 # 8; 0 # 8; 3 # 8])%Q 2).1 = 3%nat.
Proof.
  assert (Hnn : Forall (λ y, (0 <= y)%Q) [1 # 8; 0 # 8; 3 # 8]%Q)
    by (repeat constructor; discriminate).
  assert (Hstep : (0 <= 2)%Q) by discriminate.
  split_and!; [done..|].
  by destruct (percentile_curve_monotone ([1; 3; 5], [1 # 8; 0 # 8; 3 # 8])%Q 2 Hnn Hstep).
Defined.

Lemma percentile_curve_of_density_witness :
  0 < total_count slice_b ∧ (0 < 2)%Q ∧
  normalizedDistribution slice_b 2 50 true = Ok ([2 # 2; 6 # 2], [1 # 8; 0 # 8])%Q ∧
  Forall (λ p, (0 <= p)%Q) (percentile_curve ([2 # 2; 6 # 2], [1 # 8; 0 # 8])%Q 2).1.
Proof.
  assert (Htot : 0 < total_count slice_b) by reflexivity.
  assert (Hw : (0 < 2)%Q) by reflexivity.
  assert (Hcurve : normalizedDistribution slice_b 2 50 true
                   = Ok ([2 # 2; 6 # 2], [1 # 8; 0 # 8])%Q)
    by (vm_compute; reflexivity).
  split_and!; [done..|].
  by destruct (percentile_curve_of_density (L:=RefHdrh) _ _ _ _ _ Htot Hw Hcurve)
    as (_ & _ & Hbound & _).
Defined.

(** ** The analysis of [main], continued *)

Lemma result_bind_Ok {A B} (m : result A) (f : A → result B) (b : B) :
  m ≫= f = Ok b → ∃ a, m = Ok a ∧ f a = Ok b.
Proof. destruct m as [a|]; [|done]. intros Hf. by exists a. Qed.

Section main_properties.
Context {L : Hdrh}.

Lemma baseplot_branch_inv (fullHistogram : hist) (xStep : Q) (args : Args) (st st' : MainState) :
  baseplot_branch fullHistogram xStep args st = Ok st' →
  (baseplot args = false ∧ st' = st) ∨
  (baseplot args = true ∧
   ∃ curve,
     normalizedDistribution fullHistogram xStep (max_percentile args) (raw args) = Ok curve ∧
     plotDataMap st' = <["baseplot" := [curve]]> (plotDataMap st)).
Proof.
  unfold baseplot_branch. destruct (baseplot args); [|intros [= <-]; by left].
  cbv zeta. destruct (normalizedDistribution _ _ _ _) as [curve|]; [|done].
  intros [= <-]. right. split; [done|]. by exists curve.
Qed.

Lemma stability_branch_inv (slices : list hist) (xStep : Q) (args : Args) (st st' : MainState) :
  stability_branch slices xStep args st = Ok st' →
  (stability args && (1 <? length slices)%nat = false ∧ plotDataMap st' = plotDataMap st) ∨
  (stability args && (1 <? length slices)%nat = true ∧
   ∃ perSlicePlots0 perSlicePlots,
     mapM (λ sl, normalizedDistribution sl xStep (max_percentile args) (raw args)) slices
       = Ok perSlicePlots0 ∧
     pad_curves perSlicePlots0 = Ok perSlicePlots ∧
     plotDataMap st' = <["stability" := perSlicePlots]> (plotDataMap st)).
Proof.
  unfold stability_branch. destruct (stability args); [|intros [= <-]; by left].
  destruct (1 <? length slices)%nat; [|intros [= <-]; by left].
  cbv zeta. destruct (mapM _ slices) as [perSlicePlots0|]; [|done]. cbn [mbind result_bind].
  destruct (pad_curves perSlicePlots0) as [perSlicePlots|] eqn:Hpad; [|done].
  intros [= <-]. right. split; [done|]. by exists perSlicePlots0, perSlicePlots.
Qed.

Lemma percentiles_branch_inv (fullHistogram : hist) (xStep : Q) (args : Args)
    (st st' : MainState) :
  percentiles_branch fullHistogram xStep args st = Ok st' →
  (percentiles args = false ∧ st' = st) ∨
  (percentiles args = true ∧
   ∃ base, plotDataMap st' = <["percentiles" := [percentile_curve base xStep]]> (plotDataMap st)).
Proof.
  unfold percentiles_branch. destruct (percentiles args); [|intros [= <-]; by left].
  cbv zeta. cbn [print plotDataMap].
  destruct (plotDataMap st !! "baseplot") as [[|base plots]|]; cbn [mbind result_bind].
  - done.
  - intros [= <-]. right. split; [done|]. by exists base.
  - destruct (normalizedDistribution _ _ _ _) as [base|]; [|done].
    intros [= <-]. right. split; [done|]. by exists base.
Qed.

Lemma main_analysis_inv (slices : list hist) (args : Args) (st : MainState) :
  main_analysis slices args = Ok st →
  ∃ fullHistogram xStep st1 st2,
    aggregateSlices slices SIGNIFICANT_FIGURES = Ok fullHistogram ∧
    py_div (histogramGetValueAtPercentile fullHistogram (max_percentile args) (raw args))
           (inject_Z (plot_points_count args)) = Ok xStep ∧
    baseplot_branch fullHistogram xStep args {| plotDataMap := ∅; stdout := [] |} = Ok st1 ∧
    stability_branch slices xStep args st1 = Ok st2 ∧
    percentiles_branch fullHistogram xStep args st2 = Ok st.
Proof.
  unfold main_analysis. cbv zeta.
  intros (fullHistogram & Hagg & (xStep & Hstep & (st1 & H1 & (st2 & H2 & H3)
    %result_bind_Ok)%result_bind_Ok)%result_bind_Ok)%result_bind_Ok.
  by exists fullHistogram, xStep, st1, st2.
Qed.

(** X11: when the analysis returns, [plotDataMap] holds exactly the keys
    of the requested analyses ("stability" only for two slices or more),
    with one curve under "baseplot" and under "percentiles" and one curve
    per slice under "stability". *)
Theorem main_analysis_plots (slices : list hist) (args : Args) (st : MainState) :
  main_analysis slices args = Ok st →
  dom (plotDataMap st) = expected_plots args (length slices) ∧
  (∀ plots, plotDataMap st !! "baseplot" = Some plots → length plots = 1%nat) ∧
  (∀ plots, plotDataMap st !! "percentiles" = Some plots → length plots = 1%nat) ∧
  (∀ plots, plotDataMap st !! "stability" = Some plots → length plots = length slices).
Proof.
  intros (fullHistogram & xStep & st1 & st2 & _ & _ & H1 & H2 & H3)%main_analysis_inv.
  apply baseplot_branch_inv in H1. apply stability_branch_inv in H2.
  apply percentiles_branch_inv in H3.
  unfold expected_plots.
  destruct H1 as [[-> ->]|(-> & curve & _ & Hm1)];
    destruct H2 as [[-> Hm2]|(-> & ps0 & ps & Hmap & Hpad & Hm2)];
    destruct H3 as [[-> ->]|(-> & base & Hm3)];
    cbn [plotDataMap] in *;
    repeat match goal with H : plotDataMap _ = _ |- _ => rewrite H; clear H end.
  all: split; [rewrite ?dom_insert_L, ?dom_empty_L; set_solver|].
  all: split_and!; intros plots Hplots; simplify_map_eq; try done.
  all: apply mapM_result_length in Hmap.
  all: unfold pad_curves in Hpad; destruct (py_max_key_len _) as [fullXs|]; [|done];
       injection Hpad as <-; by rewrite length_fmap.
Qed.

End main_properties.

Lemma pad_curves_aligned (perSlicePlots0 perSlicePlots : list Curve) :
  Forall (λ pl : Curve, length pl.1 = length pl.2) perSlicePlots0 →
  pad_curves perSlicePlots0 = Ok perSlicePlots →
  length perSlicePlots = length perSlicePlots0 ∧
  ∃ fullXs, Forall (λ pl : Curve, pl.1 = fullXs ∧ length pl.2 = length fullXs) perSlicePlots.
Proof.
  intros Hcurves Hpad.
  destruct perSlicePlots0 as [|pl0 rest] eqn:Hps; [done|]. rewrite <- Hps in *.
  destruct (pad_curves_first_longest perSlicePlots0) as (i & fullXs & Hfirst & Hpad');
    [by subst|].
  rewrite Hpad' in Hpad. injection Hpad as <-. split; [by rewrite length_fmap|].
  exists fullXs. apply Forall_fmap, Forall_forall. intros pl Hin. simpl. split; [done|].
  rewrite length_app, length_replicate.
  apply list_elem_of_lookup in Hin as [j Hj].
  rewrite Forall_forall in Hcurves.
  assert (Hlen : length pl.1 = length pl.2).
  { apply Hcurves. apply list_elem_of_lookup. eauto. }
  destruct Hfirst as (_ & Hle & _).
  assert (Hxs : perSlicePlots0.*1 !! j = Some pl.1)
    by (rewrite list_lookup_fmap, Hj; done).
  specialize (Hle j pl.1 Hxs). simpl in Hle. lia.
Qed.

Section main_more.
Context {L : Hdrh}.

(** X10: when the stability branch runs on two slices or more and
    returns, it stores under "stability" one curve per slice, all with the
    same x-sequence and with as many y values as that x-sequence has x
    values. *)
Theorem stability_branch_curves (slices : list hist) (xStep : Q) (args : Args)
    (st st' : MainState) :
  stability args = true → (1 < length slices)%nat →
  stability_branch slices xStep args st = Ok st' →
  ∃ fullXs curves,
    plotDataMap st' = <["stability" := curves]> (plotDataMap st) ∧
    length curves = length slices ∧
    Forall (λ pl : Curve, pl.1 = fullXs ∧ length pl.2 = length fullXs) curves.
Proof.
  intros Hflag Hlen Hrun. apply stability_branch_inv in Hrun.
  destruct (Nat.ltb_spec 1 (length slices)) as [_|?]; [|lia]. rewrite Hflag in Hrun.
  destruct Hrun as [[? _]|(_ & ps0 & ps & Hmap & Hpad & Hmap')]; [done|].
  apply mapM_normalizedDistribution_lengths in Hmap as [Hlen0 Hall].
  destruct (pad_curves_aligned ps0 ps Hall Hpad) as [Hlen' [fullXs Hfull]].
  exists fullXs, ps. split_and!; [done|congruence|done].
Qed.

(** X13: the analysis raises [ValueError] on a series without slices, and
    [ZeroDivisionError] when the number of plot points is 0 (the bucket
    width is the value at the cutoff divided by it). *)
Theorem main_analysis_errors (slices : list hist) (args : Args) :
  (slices = [] → main_analysis slices args = Raise ValueError) ∧
  (∀ fullHistogram,
     aggregateSlices slices SIGNIFICANT_FIGURES = Ok fullHistogram →
     plot_points_count args = 0 →
     main_analysis slices args = Raise ZeroDivisionError).
Proof.
  split.
  - by intros ->.
  - intros fullHistogram Hagg Hzero. unfold main_analysis. rewrite Hagg.
    cbn [mbind result_bind]. cbv zeta. rewrite Hzero. done.
Qed.

(** X12: dropping the base plot from a run that returns gives a run that
    returns too, with the same "percentiles" and "stability" entries: the
    percentile branch recomputes the base plot it needs. *)
Theorem main_analysis_without_baseplot (slices : list hist) (args : Args) (st1 : MainState) :
  main_analysis slices (with_baseplot true args) = Ok st1 →
  ∃ st2,
    main_analysis slices (with_baseplot false args) = Ok st2 ∧
    plotDataMap st2 !! "percentiles" = plotDataMap st1 !! "percentiles" ∧
    plotDataMap st2 !! "stability" = plotDataMap st1 !! "stability" ∧
    plotDataMap st2 !! "baseplot" = None.
Proof.
  unfold main_analysis.
  destruct (aggregateSlices slices SIGNIFICANT_FIGURES) as [fullHistogram|];
    cbn [mbind result_bind]; [|done].
  cbv zeta. cbn [max_percentile raw plot_points_count with_baseplot].
  destruct (py_div _ _) as [xStep|]; cbn [mbind result_bind]; [|done].
  unfold baseplot_branch. cbn [baseplot max_percentile raw with_baseplot]. cbv zeta.
  destruct (normalizedDistribution fullHistogram xStep (max_percentile args) (raw args))
    as [curve|] eqn:Hcurve; cbn [mbind result_bind]; [|done].
  unfold stability_branch. cbn [stability max_percentile raw with_baseplot].
  destruct (stability args && (1 <? length slices)%nat) eqn:Hstab.
  - apply andb_true_iff in Hstab as [-> ->]. cbv zeta.
    destruct (mapM _ slices) as [ps0|]; cbn [mbind result_bind]; [|done].
    destruct (pad_curves ps0) as [ps|]; cbn [mbind result_bind]; [|done].
    unfold percentiles_branch. cbn [percentiles max_percentile raw with_baseplot].
    destruct (percentiles args); cbv zeta; cbn [print set_plot plotDataMap].
    + rewrite lookup_insert_ne, lookup_insert_eq by done.
      rewrite lookup_insert_ne, lookup_empty by done.
      cbn [mbind result_bind]. rewrite Hcurve. cbn [mbind result_bind].
      intros [= <-]. eexists. split; [done|]. cbn [plotDataMap].
      by simplify_map_eq.
    + intros [= <-]. eexists. split; [done|]. cbn [plotDataMap]. by simplify_map_eq.
  - assert (Hskip : ∀ st : MainState,
              (if stability args
               then if (1 <? length slices)%nat
                    then
                      let st0 := print "  * Calculating stability plot ... " st in
                      mapM (λ sl, normalizedDistribution sl xStep (max_percentile args)
                                    (raw args)) slices
                      ≫= λ perSlicePlots0,
                           pad_curves perSlicePlots0
                           ≫= λ perSlicePlots,
                                Ok (print "done." (set_plot "stability" perSlicePlots st0))
                    else Ok (print stability_warning st)
               else Ok st)
              = Ok (if stability args then print stability_warning st else st)).
    { intros st. destruct (stability args); [|done]. simpl in Hstab. by rewrite Hstab. }
    rewrite !Hskip. cbn [mbind result_bind].
    unfold percentiles_branch. cbn [percentiles max_percentile raw with_baseplot].
    destruct (percentiles args); cbv zeta.
    + destruct (stability args); cbn [print set_plot plotDataMap].
      * rewrite lookup_insert_eq, lookup_empty. cbn [mbind result_bind].
        rewrite Hcurve. cbn [mbind result_bind].
        intros [= <-]. eexists. split; [done|]. cbn [plotDataMap]. by simplify_map_eq.
      * rewrite lookup_insert_eq, lookup_empty. cbn [mbind result_bind].
        rewrite Hcurve. cbn [mbind result_bind].
        intros [= <-]. eexists. split; [done|]. cbn [plotDataMap]. by simplify_map_eq.
    + intros [= <-]. eexists. split; [done|].
      destruct (stability args); cbn [print set_plot plotDataMap]; by simplify_map_eq.
Qed.

End main_more.

Lemma py_sum_zeros (l : list Z) : Forall (λ c, c = 0) l → py_sum l = 0.
Proof. induction 1 as [|c l -> _ IH]; [done|]. by rewrite py_sum_cons, IH. Qed.

Lemma py_div_nonzero (a : Q) (n : Z) : n ≠ 0 → py_div a (inject_Z n) = Ok (a / inject_Z n)%Q.
Proof.
  intros Hn. unfold py_div. destruct (Qeq_bool (inject_Z n) 0) eqn:Hz; [|done].
  apply Qeq_bool_iff in Hz. unfold Qeq in Hz. simpl in Hz. lia.
Qed.

Section no_samples.
Context `{!HdrhLaws L}.

Lemma normalizedDistribution_zero (histogram : hist) (x_incr max_percentile : Q)
    (rawFlag : bool) :
  total_count histogram = 0 →
  normalizedDistribution histogram x_incr max_percentile rawFlag = Ok ([], []).
Proof. intros Hz. unfold normalizedDistribution, sliceValueCount. by rewrite Hz. Qed.

Lemma mapM_normalizedDistribution_zero (slices : list hist) (xStep max_percentile : Q)
    (rawFlag : bool) :
  (∀ sl, sl ∈ slices → total_count sl = 0) →
  mapM (λ sl, normalizedDistribution sl xStep max_percentile rawFlag) slices
  = Ok (replicate (length slices) ([], [])).
Proof.
  induction slices as [|sl slices IH]; intros Hz; [done|].
  change (mapM ?f (sl :: slices)) with (f sl ≫= λ y, mapM f slices ≫= λ k, mret (y :: k)).
  cbv beta. rewrite normalizedDistribution_zero by (apply Hz; left).
  cbn [mbind result_bind]. rewrite IH by (intros; apply Hz; by right). done.
Qed.

Lemma pad_curves_empty_curves (n : nat) :
  pad_curves (replicate (S n) ([], [])) = Ok (replicate (S n) ([], [])).
Proof.
  destruct (pad_curves_first_longest (replicate (S n) (([], []) : Curve)))
    as (i & fullXs & (Hi & _) & ->); [done|].
  rewrite fmap_replicate in Hi. apply lookup_replicate in Hi as [-> _].
  by rewrite fmap_replicate.
Qed.

Lemma aggregateSlices_no_samples (slices : list hist) :
  slices ≠ [] → (∀ sl, sl ∈ slices → total_count sl = 0) →
  ∃ fullHistogram,
    aggregateSlices slices SIGNIFICANT_FIGURES = Ok fullHistogram ∧
    total_count fullHistogram = 0.
Proof.
  intros Hne Hz.
  destruct (slicesMaxValue_is_max slices Hne) as (maxRaw & Hmax & Hval).
  destruct (aggregateSlices_ok slices SIGNIFICANT_FIGURES maxRaw) as (h & Hagg & _);
    [done..|unfold SIGNIFICANT_FIGURES; lia|].
  exists h. split; [done|].
  rewrite (aggregateSlices_unfold _ _ _ Hval) in Hagg.
  apply result_bind_Ok in Hagg as (h0 & Hnew & Hred).
  apply reduce_add_total in Hred; [|done].
  destruct (HdrHistogram_fresh _ _ _ _ Hnew) as (_ & _ & _ & Hzero & _).
  rewrite Hred, Hzero, py_sum_zeros; [done|].
  apply Forall_fmap, Forall_forall. intros sl Hsl. by apply Hz.
Qed.

(** X14: for a series with slices none of which has a sample (and a
    non-zero number of plot points) the analysis returns, and every curve it
    stores is the empty curve. *)
Theorem main_analysis_no_samples (slices : list hist) (args : Args) :
  slices ≠ [] → (∀ sl, sl ∈ slices → total_count sl = 0) →
  plot_points_count args ≠ 0 →
  ∃ st,
    main_analysis slices args = Ok st ∧
    ∀ key plots, plotDataMap st !! key = Some plots →
      plots ≠ [] ∧ Forall (λ curve : Curve, curve = ([], [])) plots.
Proof.
  intros Hne Hz Hpoints.
  destruct (aggregateSlices_no_samples slices Hne Hz) as (h & Hagg & Hzero).
  unfold main_analysis. rewrite Hagg. cbn [mbind result_bind]. cbv zeta.
  rewrite py_div_nonzero by done. cbn [mbind result_bind].
  set (xStep := (_ / _)%Q).
  set (empty_plots := λ st : MainState,
         ∀ key plots, plotDataMap st !! key = Some plots →
           plots ≠ [] ∧ Forall (λ curve : Curve, curve = ([], [])) plots).
  assert (Hbase : ∃ st', baseplot_branch h xStep args {| plotDataMap := ∅; stdout := [] |}
                         = Ok st' ∧ empty_plots st').
  { unfold baseplot_branch. destruct (baseplot args).
    - cbv zeta. rewrite normalizedDistribution_zero by done. cbn [mbind result_bind].
      eexists. split; [done|]. intros key plots. cbn [print set_plot plotDataMap].
      destruct (decide (key = "baseplot")) as [->|Hkey].
      + rewrite lookup_insert_eq. intros [= <-]. split; [done|]. by repeat constructor.
      + by rewrite lookup_insert_ne, lookup_empty.
    - eexists. split; [done|]. intros key plots. cbn [plotDataMap]. by rewrite lookup_empty. }
  assert (Hpad : ∀ st, empty_plots st →
            ∃ st', stability_branch slices xStep args st = Ok st' ∧ empty_plots st').
  { intros st Hst. unfold stability_branch. destruct (stability args); [|by exists st].
    destruct (Nat.ltb_spec 1 (length slices)) as [Hlen|_];
      [|eexists; split; [done|]; by cbn [print plotDataMap]].
    cbv zeta. rewrite mapM_normalizedDistribution_zero by done. cbn [mbind result_bind].
    destruct (length slices) as [|n]; [lia|]. rewrite pad_curves_empty_curves.
    cbn [mbind result_bind]. eexists. split; [done|].
    intros key plots. cbn [print set_plot plotDataMap].
    destruct (decide (key = "stability")) as [->|Hkey].
    - rewrite lookup_insert_eq. intros [= <-]. split; [done|].
      by apply (Forall_replicate _ (S n)).
    - rewrite lookup_insert_ne by done. apply Hst. }
  assert (Hperc : ∀ st, empty_plots st →
            ∃ st', percentiles_branch h xStep args st = Ok st' ∧ empty_plots st').
  { intros st Hst. unfold percentiles_branch. destruct (percentiles args); [|by exists st].
    cbv zeta. cbn [print plotDataMap].
    assert (Hcurve : (match plotDataMap st !! "baseplot" with
                      | Some (curve :: _) => Ok curve
                      | Some [] => Raise IndexError
                      | None => normalizedDistribution h xStep (max_percentile args) (raw args)
                      end) = Ok ([], [])).
    { destruct (plotDataMap st !! "baseplot") as [[|c plots]|] eqn:Hb.
      - by apply Hst in Hb as [? _].
      - apply Hst in Hb as [_ Hb]. apply Forall_cons in Hb as [-> _]. done.
      - by apply normalizedDistribution_zero. }
    rewrite Hcurve. cbn [mbind result_bind]. eexists. split; [done|].
    intros key plots. cbn [print set_plot plotDataMap].
    destruct (decide (key = "percentiles")) as [->|Hkey].
    - rewrite lookup_insert_eq. intros [= <-]. split; [done|]. by repeat constructor.
    - rewrite lookup_insert_ne by done. apply Hst. }
  destruct Hbase as (st1 & -> & Hst1). cbn [mbind result_bind].
  destruct (Hpad st1 Hst1) as (st2 & -> & Hst2). cbn [mbind result_bind].
  destruct (Hperc st2 Hst2) as (st3 & -> & Hst3).
  by exists st3.
Qed.

End no_samples.

Lemma stability_branch_curves_witness :
  ∃ st' fullXs curves,
    stability_branch [slice_a; slice_b] 1 stability_only initial_state = Ok st' ∧
    plotDataMap st' = <["stability" := curves]> (plotDataMap initial_state) ∧
    length curves = 2%nat ∧
    Forall (λ pl : Curve, pl.1 = fullXs ∧ length pl.2 = length fullXs) curves.
Proof.
  destruct (stability_branch (L:=RefHdrh) [slice_a; slice_b] 1 stability_only initial_state)
    as [st'|] eqn:Hrun; [|by vm_compute in Hrun].
  assert (Hflag : stability stability_only = true) by reflexivity.
  assert (Hlen2 : (1 < length [slice_a; slice_b])%nat) by (simpl; lia).
  destruct (stability_branch_curves (L:=RefHdrh) _ _ _ _ _ Hflag Hlen2 Hrun)
    as (fullXs & curves & Hmap & Hlen & Hall).
  by exists st', fullXs, curves.
Defined.

Lemma main_analysis_plots_witness :
  ∃ st,
    main_analysis [slice_a; slice_b] all_analyses = Ok st ∧
    dom (plotDataMap st) = expected_plots all_analyses 2.
Proof.
  destruct (main_analysis (L:=RefHdrh) [slice_a; slice_b] all_analyses) as [st|] eqn:Hrun;
    [|by vm_compute in Hrun].
  exists st. split; [done|].
  by destruct (main_analysis_plots (L:=RefHdrh) _ _ _ Hrun) as [Hdom _].
Defined.

Lemma main_analysis_without_baseplot_witness :
  ∃ st1 st2,
    main_analysis [slice_a; slice_b] (with_baseplot true all_analyses) = Ok st1 ∧
    main_analysis [slice_a; slice_b] (with_baseplot false all_analyses) = Ok st2 ∧
    plotDataMap st2 !! "percentiles" = plotDataMap st1 !! "percentiles".
Proof.
  destruct (main_analysis (L:=RefHdrh) [slice_a; slice_b] (with_baseplot true all_analyses))
    as [st1|] eqn:Hrun; [|by vm_compute in Hrun].
  destruct (main_analysis_without_baseplot (L:=RefHdrh) _ _ _ Hrun)
    as (st2 & Hrun2 & Hperc & _).
  exists st1, st2. split_and!; [reflexivity|exact Hrun2|exact Hperc].
Defined.

Lemma main_analysis_errors_witness :
  main_analysis [slice_a; slice_b] (with_baseplot true stability_only) ≠ Raise ValueError ∧
  main_analysis ([] : list RefHist) all_analyses = Raise ValueError.
Proof.
  split; [by vm_compute|].
  by destruct (main_analysis_errors (L:=RefHdrh) [] all_analyses) as [-> _].
Defined.

Lemma main_analysis_no_samples_witness :
  [slice_empty; slice_empty] ≠ [] ∧
  (∀ sl, sl ∈ [slice_empty; slice_empty] → total_count sl = 0) ∧
  plot_points_count all_analyses ≠ 0 ∧
  ∃ st, main_analysis [slice_empty; slice_empty] all_analyses = Ok st.
Proof.
  assert (Hne : [slice_empty; slice_empty] ≠ []) by done.
  assert (Hz : ∀ sl, sl ∈ [slice_empty; slice_empty] → total_count sl = 0).
  { intros sl [->|[->|[]%elem_of_nil]%elem_of_cons]%elem_of_cons; reflexivity. }
  assert (Hpoints : plot_points_count all_analyses ≠ 0) by done.
  split_and!; [done..|].
  destruct (main_analysis_no_samples (L:=RefHdrh) _ all_analyses Hne Hz Hpoints)
    as (st & Hrun & _).
  by exists st.
Defined.

(** ** Reading the log: sorting and the time range *)

Lemma py_insert_with_Permutation {A} (lt : A → A → bool) (x : A) (l : list A) :
  py_insert_with lt x l ≡ₚ x :: l.
Proof.
  induction l as [|y l IH]; simpl; [done|].
  destruct (lt y x); [|done]. rewrite IH. apply perm_swap.
Qed.

Lemma py_sorted_with_Permutation {A} (lt : A → A → bool) (l : list A) :
  py_sorted_with lt l ≡ₚ l.
Proof.
  unfold py_sorted_with.
  induction l as [|x l IH]; simpl; [done|].
  by rewrite py_insert_with_Permutation, IH.
Qed.

Section py_sorted_by.
Context {A : Type} (key : A → Z).

Lemma py_sorted_by_Permutation (l : list A) : py_sorted_by key l ≡ₚ l.
Proof. apply py_sorted_with_Permutation. Qed.

Lemma py_insert_by_sorted (x : A) (l : list A) :
  sorted_by key l → sorted_by key (py_insert_with (λ a b, key a <? key b) x l).
Proof.
  induction l as [|y l IH]; simpl; [done|]. intros [Hy Hl].
  destruct (Z.ltb_spec (key y) (key x)) as [Hlt|Hge]; simpl.
  - split; [|by apply IH]. rewrite py_insert_with_Permutation.
    constructor; [lia|done].
  - split_and!; [|done..]. constructor; [done|].
    eapply Forall_impl; [exact Hy|]. intros z Hz. simpl in *. lia.
Qed.

Lemma py_sorted_by_sorted (l : list A) : sorted_by key (py_sorted_by key l).
Proof.
  unfold py_sorted_by, py_sorted_with.
  induction l as [|x l IH]; simpl; [done|]. by apply py_insert_by_sorted.
Qed.

Lemma py_insert_by_filter (k : Z) (x : A) (l : list A) :
  filter (λ a, key a = k) (py_insert_with (λ a b, key a <? key b) x l) = filter (λ a, key a = k) (x :: l).
Proof.
  induction l as [|y l IH]; simpl; [done|].
  destruct (Z.ltb_spec (key y) (key x)) as [Hlt|Hge]; [|done].
  rewrite (filter_cons _ y), IH, !filter_cons.
  destruct (decide (key y = k)), (decide (key x = k)); try done. lia.
Qed.

Lemma py_sorted_by_stable (k : Z) (l : list A) :
  filter (λ a, key a = k) (py_sorted_by key l) = filter (λ a, key a = k) l.
Proof.
  unfold py_sorted_by, py_sorted_with.
  induction l as [|x l IH]; simpl; [done|].
  by rewrite py_insert_by_filter, !filter_cons, IH.
Qed.

End py_sorted_by.

Lemma py_min_by_sorted_head {A} (key : A → Z) (x : A) (l : list A) :
  sorted_by key (x :: l) →
  py_min_by Z.ltb (key <$> x :: l) = Ok (key x).
Proof.
  simpl. intros [Hx _]. f_equal.
  induction l as [|y l IH]; simpl; [done|].
  apply Forall_cons in Hx as [Hy Hx].
  destruct (Z.ltb_spec (key y) (key x)); [lia|]. by apply IH.
Qed.

Lemma mapM_result_Forall2 {A B} (f : A → result B) (R : A → B → Prop) (l : list A) :
  (∀ x, x ∈ l → ∃ y, f x = Ok y ∧ R x y) →
  ∃ k, mapM f l = Ok k ∧ Forall2 R l k.
Proof.
  induction l as [|x l IH]; intros Hf.
  - by exists [].
  - destruct (Hf x ltac:(left)) as (y & Hy & HR).
    destruct IH as (k & Hk & Hall); [intros; apply Hf; by right|].
    exists (y :: k). split; [|by constructor].
    change (mapM f (x :: l)) with (f x ≫= λ y, mapM f l ≫= λ k, mret (y :: k)).
    by rewrite Hy, Hk.
Qed.

Lemma mapM_result_raise {A B} (f : A → result B) (e0 : PyError) (l : list A) :
  (∀ x e, f x = Raise e → e = e0) →
  (∃ x, x ∈ l ∧ raises (f x)) →
  mapM f l = Raise e0.
Proof.
  intros Honly. induction l as [|x l IH]; intros (z & Hz & Hraise).
  - by apply elem_of_nil in Hz.
  - change (mapM f (x :: l)) with (f x ≫= λ y, mapM f l ≫= λ k, mret (y :: k)).
    destruct (f x) as [y|e] eqn:Hx.
    + cbn [mbind result_bind]. rewrite IH; [done|].
      apply elem_of_cons in Hz as [->|Hz]; [|by exists z].
      destruct Hraise as [e He]. congruence.
    + by rewrite (Honly _ _ Hx).
Qed.

Section reading_properties.
Context {L : Hdrh}.

Lemma aggregateSlices_Permutation `{!HdrhLaws L} (slices slices' : list hist) (sigFigures : Z) :
  slices ≡ₚ slices' →
  aggregateSlices slices' sigFigures = aggregateSlices slices sigFigures.
Proof.
  intros Hperm. destruct slices as [|sl slices0] eqn:Hsl.
  - apply Permutation_nil_l in Hperm. by subst.
  - rewrite <- Hsl in *.
    assert (Hne : slices ≠ []) by (by subst).
    assert (Hne' : slices' ≠ []).
    { intros ->. apply Permutation_nil_r in Hperm. done. }
    destruct (slicesMaxValue_is_max slices Hne) as (maxRaw & Hmax & Hval).
    destruct (slicesMaxValue_is_max slices' Hne') as (maxRaw' & Hmax' & Hval').
    assert (maxRaw = maxRaw') as <-.
    { eapply is_max_of_unique; [|done..]. by apply fmap_Permutation. }
    rewrite (aggregateSlices_unfold _ _ _ Hval), (aggregateSlices_unfold _ _ _ Hval').
    destruct (HdrHistogram 1 (1 + maxRaw) sigFigures) as [h0|]; simpl; [|done].
    symmetry. by apply reduce_add_permutation.
Qed.

(** X15: the series of a tag, as [main] sorts it after grouping: the tags
    are kept; every series holds the same slices as its group, in ascending
    order of start time, slices of equal start time keeping their order; the
    earliest start time of a series is that of its first slice; and the
    aggregate of a series is that of its group. *)
Theorem sortedSlicesByTag_series `{!HdrhLaws L} (grouped : list (string * list hist)) :
  (sortedSlicesByTag grouped).*1 = grouped.*1 ∧
  Forall2 (λ sorted group,
             sorted.2 ≡ₚ group.2 ∧
             sorted_by start_time_stamp_msec sorted.2 ∧
             (∀ t, filter (λ sl, start_time_stamp_msec sl = t) sorted.2
                   = filter (λ sl, start_time_stamp_msec sl = t) group.2) ∧
             (∀ first rest, sorted.2 = first :: rest →
                slicesStartTimestamp sorted.2 = Ok (start_time_stamp_msec first)) ∧
             (∀ sigFigures,
                aggregateSlices sorted.2 sigFigures = aggregateSlices group.2 sigFigures))
    (sortedSlicesByTag grouped) grouped.
Proof.
  unfold sortedSlicesByTag. split.
  - by rewrite <- list_fmap_compose.
  - apply Forall2_fmap_l, Forall_Forall2_diag, Forall_forall.
    intros [tag group] _. cbn [fst snd]. split_and!.
    + apply py_sorted_by_Permutation.
    + apply (py_sorted_by_sorted sliceStartTimestamp).
    + intros t. apply (py_sorted_by_stable sliceStartTimestamp).
    + intros first rest Hsorted. cbn [fst snd] in Hsorted |- *.
      unfold slicesStartTimestamp, py_minZ.
      pose proof (py_sorted_by_sorted sliceStartTimestamp group) as Hs.
      rewrite Hsorted in Hs |- *.
      by rewrite (py_min_by_sorted_head sliceStartTimestamp).
    + intros sigFigures. apply aggregateSlices_Permutation.
      symmetry. apply py_sorted_by_Permutation.
Qed.

Lemma slicesStartTimestamp_raise (slices : list hist) (e : PyError) :
  slicesStartTimestamp slices = Raise e → e = ValueError ∧ slices = [].
Proof. destruct slices; [by intros [= <-]|done]. Qed.

Lemma slicesEndTimestamp_raise (slices : list hist) (e : PyError) :
  slicesEndTimestamp slices = Raise e → e = ValueError ∧ slices = [].
Proof. destruct slices; [by intros [= <-]|done]. Qed.

(** X16: the time range that [main] computes for a log.  When there is a
    tag and every tag has a slice, [t0] is the start time of some slice,
    [t1] the end time of some slice, every slice starts at or after [t0]
    and ends at or before [t1], and the calculation returns them with their
    dates when both convert to a date; otherwise it raises the error of
    the conversion, that of [t0] first.  For a log without slices, or with
    a tag without slices, the calculation raises [ValueError]. *)
Theorem logTimeRange_spec `{D : Datetime} (slicesByTag : list (string * list hist)) :
  (slicesByTag ≠ [] → (∀ item, item ∈ slicesByTag → item.2 ≠ []) →
   ∃ t0 t1,
     (∃ item sl, item ∈ slicesByTag ∧ sl ∈ item.2 ∧ start_time_stamp_msec sl = t0) ∧
     (∃ item sl, item ∈ slicesByTag ∧ sl ∈ item.2 ∧ end_time_stamp_msec sl = t1) ∧
     (∀ item sl, item ∈ slicesByTag → sl ∈ item.2 →
        t0 ≤ start_time_stamp_msec sl ∧ end_time_stamp_msec sl ≤ t1) ∧
     logTimeRange slicesByTag
     = (date0 ← timestampToDate t0;
        date1 ← timestampToDate t1;
        Ok ((t0, date0), (t1, date1)))) ∧
  (slicesByTag = [] ∨ (∃ item, item ∈ slicesByTag ∧ item.2 = []) →
   logTimeRange slicesByTag = Raise ValueError).
Proof.
  split.
  - intros Hne Hseries.
    destruct (mapM_result_Forall2 slicesStartTimestamp
                (λ slices t, is_min_of t (start_time_stamp_msec <$> slices))
                slicesByTag.*2) as (starts & Hstarts & Hmins).
    { intros slices (item & -> & Hitem)%list_elem_of_fmap.
      destruct (py_min_by_spec (λ z : Z, z) Z.ltb) with (l := sliceStartTimestamp <$> item.2)
        as (t & Ht & Hin & Hle); [done| |by exists t].
      specialize (Hseries item Hitem). by destruct item.2. }
    destruct (mapM_result_Forall2 slicesEndTimestamp
                (λ slices t, is_max_of t (end_time_stamp_msec <$> slices))
                slicesByTag.*2) as (ends & Hends & Hmaxs).
    { intros slices (item & -> & Hitem)%list_elem_of_fmap.
      destruct (py_max_by_first (λ z : Z, z) Z.ltb) with (l := sliceEndTimestamp <$> item.2)
        as (i & t & Ht & Hfirst); [done| |].
      { specialize (Hseries item Hitem). by destruct item.2. }
      apply first_max_at_is_max in Hfirst. rewrite list_fmap_id in Hfirst. by exists t. }
    assert (Hlen : starts ≠ [] ∧ ends ≠ []).
    { apply Forall2_length in Hmins, Hmaxs. rewrite length_fmap in Hmins, Hmaxs.
      split; intros ->; destruct slicesByTag; done. }
    destruct Hlen as [Hs He].
    destruct (py_min_by_spec (λ z : Z, z) Z.ltb) with (l := starts)
      as (t0 & Ht0 & Hin0 & Hle0); [done..|].
    destruct (py_max_by_first (λ z : Z, z) Z.ltb) with (l := ends)
      as (i & t1 & Ht1 & Hfirst); [done..|].
    apply first_max_at_is_max in Hfirst. rewrite list_fmap_id in Hfirst.
    destruct Hfirst as [Hin1 Hle1].
    exists t0, t1. split_and!.
    + apply list_elem_of_lookup in Hin0 as [j Hj].
      destruct (Forall2_lookup_r _ _ _ _ _ Hmins Hj) as (slices & Hsl & [Hmem _]).
      apply list_elem_of_fmap in Hmem as (sl & -> & Hsl').
      apply list_lookup_fmap_Some in Hsl as (item & -> & Hitem).
      exists item, sl. split; [by apply (list_elem_of_lookup_2 _ j)|]. by split.
    + apply list_elem_of_lookup in Hin1 as [j Hj].
      destruct (Forall2_lookup_r _ _ _ _ _ Hmaxs Hj) as (slices & Hsl & [Hmem _]).
      apply list_elem_of_fmap in Hmem as (sl & -> & Hsl').
      apply list_lookup_fmap_Some in Hsl as (item & -> & Hitem).
      exists item, sl. split; [by apply (list_elem_of_lookup_2 _ j)|]. by split.
    + intros item sl [j Hj]%list_elem_of_lookup Hsl.
      assert (Hj' : slicesByTag.*2 !! j = Some item.2) by (by rewrite list_lookup_fmap, Hj).
      destruct (Forall2_lookup_l _ _ _ _ _ Hmins Hj') as (m & Hm & [_ Hlow]).
      destruct (Forall2_lookup_l _ _ _ _ _ Hmaxs Hj') as (M & HM & [_ Hup]).
      assert (m ≤ start_time_stamp_msec sl) by (apply Hlow, list_elem_of_fmap; eauto).
      assert (end_time_stamp_msec sl ≤ M) by (apply Hup, list_elem_of_fmap; eauto).
      assert (t0 ≤ m) by (by eapply Hle0, list_elem_of_lookup_2).
      assert (M ≤ t1) by (by eapply Hle1, list_elem_of_lookup_2).
      lia.
    + unfold logTimeRange, py_minZ, py_maxZ. rewrite Hstarts. cbn [mbind result_bind].
      rewrite Ht0. cbn [mbind result_bind].
      destruct (timestampToDate t0) as [date0|]; [|done]. cbn [mbind result_bind].
      rewrite Hends. cbn [mbind result_bind]. by rewrite Ht1.
  - intros [->|(item & Hitem & Hempty)]; [done|].
    assert (Hmap : mapM slicesStartTimestamp slicesByTag.*2 = Raise ValueError).
    { apply mapM_result_raise.
      - intros slices e He. by apply slicesStartTimestamp_raise in He as [-> _].
      - exists item.2. split; [apply list_elem_of_fmap; eauto|].
        rewrite Hempty. by exists ValueError. }
    unfold logTimeRange. by rewrite Hmap.
Qed.

End reading_properties.

Lemma sortedSlicesByTag_series_witness :
  sortedSlicesByTag [("read", [slice_b; slice_a])] = [("read", [slice_a; slice_b])] ∧
  aggregateSlices [slice_a; slice_b] 3 = aggregateSlices [slice_b; slice_a] 3.
Proof.
  split; [reflexivity|].
  destruct (sortedSlicesByTag_series (L:=RefHdrh) [("read", [slice_b; slice_a])])
    as [_ Hseries].
  apply Forall2_cons_1 in Hseries as [(_ & _ & _ & _ & Hagg) _].
  exact (Hagg 3).
Defined.

Lemma logTimeRange_spec_witness :
  [("read", [slice_a; slice_b])] ≠ [] ∧
  (∀ item, item ∈ [("read", [slice_a; slice_b])] → item.2 ≠ []) ∧
  logTimeRange [("read", [slice_a; slice_b])]
  = Ok ((0, (0 # 1000)%Q), (2000, (2000 # 1000)%Q)) ∧
  logTimeRange [("read", [ref_slice 0 (10 ^ 16) [1%nat]])] = Raise ValueError.
Proof.
  assert (Hne : [("read", [slice_a; slice_b])] ≠ []) by done.
  assert (Hseries : ∀ item : string * list RefHist,
            item ∈ [("read", [slice_a; slice_b])] → item.2 ≠ []).
  { by intros item [->|[]%elem_of_nil]%elem_of_cons. }
  split_and!; [done..| |by vm_compute].
  destruct (logTimeRange_spec (L:=RefHdrh) (D:=RefDatetime) [("read", [slice_a; slice_b])])
    as [Hok _].
  destruct (Hok Hne Hseries) as (t0 & t1 & _ & _ & _ & Hrun).
  by vm_compute.
Defined.

(** ** The output: files, data tables and figures *)

Section writers.
Context (fmt_e fmt_2f : Q → string) (fmt_i : Z → string) (plt : bool).
Context (can_write : string → World → bool).

Lemma plotToDatafile_inv (pType : string) (pData : list Curve) (hstep : Q)
    (metric fName : string) (w : World) (res : bool * World) :
  plotToDatafile fmt_e can_write pType pData hstep metric fName w = Ok res →
  res.1 = true ∧ ∃ text, res.2 = write_file fName (TextFile text) w.
Proof.
  unfold plotToDatafile, open_w.
  destruct (can_write fName w), pData as [|curve pData]; cbn [py_first mbind result_bind];
    repeat case_decide; try done; intros [= <-]; eauto.
Qed.

Lemma plotToFigure_inv (pType : string) (pData : list Curve) (hstep : Q)
    (metric fName unitName : string) (w : World) (res : bool * World) :
  plotToFigure fmt_2f fmt_i plt can_write pType pData hstep metric fName unitName w = Ok res →
  (plt = true ∧ res.1 = true ∧ ∃ figure, res.2 = write_file fName (FigureFile figure) w) ∨
  (plt = false ∧ res.1 = false ∧ files res.2 = files w).
Proof.
  unfold plotToFigure. destruct plt; [|intros [= <-]; by right].
  intros Hrun. left. split; [done|].
  assert (Hsave : ∀ figure w',
            saveFigure can_write figure fName w = Ok w' →
            w' = write_file fName (FigureFile figure) w).
  { intros figure w'. unfold saveFigure, open_w.
    destruct (can_write fName w); [|done]. by intros [= <-]. }
  revert Hrun. repeat case_decide.
  - intros (curve & _ & (average & _ & (w' & Hw'%Hsave & [= <-])%result_bind_Ok)
      %result_bind_Ok)%result_bind_Ok. eauto.
  - intros (ts & _ & (w' & Hw'%Hsave & [= <-])%result_bind_Ok)%result_bind_Ok. eauto.
  - intros (curve & _ & (w' & Hw'%Hsave & [= <-])%result_bind_Ok)%result_bind_Ok. eauto.
  - done.
Qed.


Lemma canCreateFile_false (fName : string) (overwrite : bool) (w : World) :
  canCreateFile fName overwrite w = false → overwrite = false ∧ is_Some (files w !! fName).
Proof.
  unfold canCreateFile, isfile. destruct overwrite; [done|]. simpl.
  intros Hfile%negb_false_iff. by apply bool_decide_eq_true in Hfile.
Qed.

Lemma canCreateFile_fresh (fName : string) (w : World) :
  canCreateFile fName false w = true → files w !! fName = None.
Proof.
  unfold canCreateFile, isfile. simpl. intros Hfile%negb_true_iff.
  apply bool_decide_eq_false in Hfile. by apply eq_None_not_Some.
Qed.

Lemma write_file_files (fName : string) (content : FileContent) (overwrite : bool) (w : World) :
  canCreateFile fName overwrite w = true →
  (∀ f, f ≠ fName → files (write_file fName content w) !! f = files w !! f) ∧
  (overwrite = false → files w ⊆ files (write_file fName content w)) ∧
  dom (files w) ⊆ dom (files (write_file fName content w)) ∧
  files (write_file fName content w) !! fName = Some content.
Proof.
  intros Hcan. cbn [write_file files]. split_and!.
  - intros f Hf. by apply lookup_insert_ne.
  - intros ->. by apply insert_subseteq, canCreateFile_fresh.
  - rewrite dom_insert. set_solver.
  - apply lookup_insert_eq.
Qed.

Lemma output_plot_files (oargs : OutputArgs) (xStep : Q) (metricName unitName plotK : string)
    (plotData : list Curve) (w w' : World) :
  output_plot fmt_e fmt_2f fmt_i plt can_write oargs xStep metricName unitName plotK plotData w = Ok w' →
  (∀ f, (∀ root, plot oargs = Some root → f ≠ output_name root plotK "png") →
        (∀ root, dump oargs = Some root → f ≠ output_name root plotK "dat") →
        files w' !! f = files w !! f) ∧
  (force oargs = false → files w ⊆ files w') ∧
  dom (files w) ⊆ dom (files w') ∧
  (∀ root, plot oargs = Some root → plt = true →
     is_Some (files w' !! output_name root plotK "png")) ∧
  (∀ root, dump oargs = Some root → is_Some (files w' !! output_name root plotK "dat")).
Proof.
  unfold output_plot. intros (w1 & Hfigure & Hdata)%result_bind_Ok.
  set (w0 := world_print _ w) in *.
  assert (H1 : (∀ f, (∀ root, plot oargs = Some root → f ≠ output_name root plotK "png") →
                     files w1 !! f = files w !! f) ∧
               (force oargs = false → files w ⊆ files w1) ∧
               dom (files w) ⊆ dom (files w1) ∧
               (∀ root, plot oargs = Some root → plt = true →
                  is_Some (files w1 !! output_name root plotK "png"))).
  { destruct (plot oargs) as [root|]; [|injection Hfigure as <-; by split_and!].
    cbv zeta in Hfigure.
    destruct (canCreateFile _ _ w0) eqn:Hcan.
    - apply result_bind_Ok in Hfigure as (res & Hres & Hprint).
      assert (Hw1 : files w1 = files res.2) by (by destruct res.1; injection Hprint as <-).
      rewrite Hw1. apply plotToFigure_inv in Hres as [(_ & _ & figure & ->)|(-> & _ & ->)].
      + destruct (write_file_files _ (FigureFile figure) _ _ Hcan) as (Hne & Hsub & Hdom & Heq).
        split_and!; [|done..|].
        * intros f Hf. by apply Hne, Hf.
        * intros ? [= <-] _. by rewrite Heq.
      + split_and!; done.
    - injection Hfigure as <-. apply canCreateFile_false in Hcan as [_ Hfile].
      split_and!; [done..|]. by intros ? [= <-] _. }
  assert (H2 : (∀ f, (∀ root, dump oargs = Some root → f ≠ output_name root plotK "dat") →
                     files w' !! f = files w1 !! f) ∧
               (force oargs = false → files w1 ⊆ files w') ∧
               dom (files w1) ⊆ dom (files w') ∧
               (∀ root, dump oargs = Some root →
                  is_Some (files w' !! output_name root plotK "dat"))).
  { destruct (dump oargs) as [root|]; [|injection Hdata as <-; by split_and!].
    cbv zeta in Hdata.
    destruct (canCreateFile _ _ w1) eqn:Hcan.
    - apply result_bind_Ok in Hdata as (res & Hres & Hprint).
      assert (Hw1 : files w' = files res.2) by (by destruct res.1; injection Hprint as <-).
      rewrite Hw1. apply plotToDatafile_inv in Hres as (_ & text & ->).
      destruct (write_file_files _ (TextFile text) _ _ Hcan) as (Hne & Hsub & Hdom & Heq).
      split_and!; [|done..|].
      + intros f Hf. by apply Hne, Hf.
      + intros ? [= <-]. by rewrite Heq.
    - injection Hdata as <-. apply canCreateFile_false in Hcan as [_ Hfile].
      split_and!; [done..|]. by intros ? [= <-]. }
  destruct H1 as (Hne1 & Hsub1 & Hdom1 & Hpng), H2 as (Hne2 & Hsub2 & Hdom2 & Hdat).
  split_and!.
  - intros f Hf1 Hf2. by rewrite Hne2, Hne1.
  - intros Hforce. by etrans; [apply Hsub1|apply Hsub2].
  - by etrans.
  - intros root Hroot Hplt. destruct (Hpng root Hroot Hplt) as [c Hc].
    apply (elem_of_dom (files w')), Hdom2, elem_of_dom. eauto.
  - done.
Qed.

Lemma output_items_files (oargs : OutputArgs) (xStep : Q) (metricName unitName : string)
    (items : list (string * list Curve)) (w w' : World) :
  output_items fmt_e fmt_2f fmt_i plt can_write oargs xStep metricName unitName items w = Ok w' →
  (∀ f, (∀ k root, k ∈ items.*1 → plot oargs = Some root → f ≠ output_name root k "png") →
        (∀ k root, k ∈ items.*1 → dump oargs = Some root → f ≠ output_name root k "dat") →
        files w' !! f = files w !! f) ∧
  (force oargs = false → files w ⊆ files w') ∧
  dom (files w) ⊆ dom (files w') ∧
  (∀ k root, k ∈ items.*1 → plot oargs = Some root → plt = true →
     is_Some (files w' !! output_name root k "png")) ∧
  (∀ k root, k ∈ items.*1 → dump oargs = Some root →
     is_Some (files w' !! output_name root k "dat")).
Proof.
  revert w. induction items as [|[plotK plotData] items IH]; intros w.
  - intros [= <-]. split_and!; try done; intros k root []%elem_of_nil.
  - cbn [output_items fst snd]. intros (w1 & Hstep & Hrest)%result_bind_Ok.
    apply output_plot_files in Hstep as (Hne1 & Hsub1 & Hdom1 & Hpng1 & Hdat1).
    apply IH in Hrest as (Hne2 & Hsub2 & Hdom2 & Hpng2 & Hdat2).
    rewrite fmap_cons. cbn [fst]. split_and!.
    + intros f Hf1 Hf2. rewrite Hne2, Hne1; [done|..].
      * intros root. apply Hf1. by left.
      * intros root. apply Hf2. by left.
      * intros k root Hk. apply Hf1. by right.
      * intros k root Hk. apply Hf2. by right.
    + intros Hforce. by etrans; [apply Hsub1|apply Hsub2].
    + by etrans.
    + intros k root [->|Hk]%elem_of_cons Hroot Hplt; [|by eapply Hpng2].
      destruct (Hpng1 root Hroot Hplt) as [c Hc].
      apply (elem_of_dom (files w')), Hdom2, elem_of_dom. eauto.
    + intros k root [->|Hk]%elem_of_cons Hroot; [|by eapply Hdat2].
      destruct (Hdat1 root Hroot) as [c Hc].
      apply (elem_of_dom (files w')), Hdom2, elem_of_dom. eauto.
Qed.

Lemma sorted_items_keys (plotDataMap : gmap string (list Curve)) (k : string) :
  k ∈ (sorted_items plotDataMap).*1 ↔ k ∈ dom plotDataMap.
Proof.
  unfold sorted_items. rewrite py_sorted_with_Permutation.
  rewrite elem_of_dom, list_elem_of_fmap. split.
  - intros ([k' plotData] & -> & Hitem). apply elem_of_map_to_list in Hitem. eauto.
  - intros [plotData Hk]. exists (k, plotData). split; [done|]. by apply elem_of_map_to_list.
Qed.

(** X17: without [--force] the output loop never replaces or removes a
    file that exists: whatever a file held before the loop, it holds
    after it. *)
Theorem output_loop_no_overwrite (oargs : OutputArgs) (xStep : Q) (metricName unitName : string)
    (plotDataMap : gmap string (list Curve)) (w w' : World) :
  force oargs = false →
  output_loop fmt_e fmt_2f fmt_i plt can_write oargs xStep metricName unitName plotDataMap w = Ok w' →
  ∀ f content, files w !! f = Some content → files w' !! f = Some content.
Proof.
  intros Hforce (_ & Hsub & _)%output_items_files f content Hf.
  by eapply lookup_weaken; [|apply Hsub].
Qed.

(** X18: the files of a completed output loop.  A file whose name is not
    [root_key.png] for the plot root or [root_key.dat] for the dump root,
    for a key of [plotDataMap], is left as it was; no file is removed; and
    for every key the data file exists when a dump root is given, and the
    image exists when a plot root is given and matplotlib is available. *)
Theorem output_loop_files (oargs : OutputArgs) (xStep : Q) (metricName unitName : string)
    (plotDataMap : gmap string (list Curve)) (w w' : World) :
  output_loop fmt_e fmt_2f fmt_i plt can_write oargs xStep metricName unitName plotDataMap w = Ok w' →
  (∀ f, (∀ k root, k ∈ dom plotDataMap → plot oargs = Some root →
           f ≠ output_name root k "png") →
        (∀ k root, k ∈ dom plotDataMap → dump oargs = Some root →
           f ≠ output_name root k "dat") →
        files w' !! f = files w !! f) ∧
  (∀ f, is_Some (files w !! f) → is_Some (files w' !! f)) ∧
  (∀ k root, k ∈ dom plotDataMap → plot oargs = Some root → plt = true →
     is_Some (files w' !! output_name root k "png")) ∧
  (∀ k root, k ∈ dom plotDataMap → dump oargs = Some root →
     is_Some (files w' !! output_name root k "dat")).
Proof.
  intros (Hne & _ & Hdom & Hpng & Hdat)%output_items_files. split_and!.
  - intros f Hf1 Hf2. apply Hne.
    + intros k root Hk%sorted_items_keys. by apply Hf1.
    + intros k root Hk%sorted_items_keys. by apply Hf2.
  - intros f Hf%elem_of_dom. by apply elem_of_dom, Hdom.
  - intros k root Hk%sorted_items_keys. by apply Hpng.
  - intros k root Hk%sorted_items_keys. by apply Hdat.
Qed.

End writers.

Lemma py_zip_star_rows {A} (columns : list (list A)) (n : nat) :
  columns ≠ [] → Forall (λ column, length column = n) columns →
  length (py_zip_star columns) = n ∧
  ∀ i row, py_zip_star columns !! i = Some row →
    Forall2 (λ column y, column !! i = Some y) columns row.
Proof.
  induction columns as [|column columns IH]; [done|]. intros _ [Hlen Hall]%Forall_cons.
  destruct columns as [|column' columns].
  - simpl. split; [by rewrite length_fmap|]. intros i row Hrow.
    apply list_lookup_fmap_Some in Hrow as (x & -> & Hx). by repeat constructor.
  - destruct IH as [IHlen IHrows]; [done..|].
    change (py_zip_star (column :: column' :: columns))
      with (zip_with cons column (py_zip_star (column' :: columns))).
    split; [rewrite length_zip_with; lia|].
    intros i row Hrow. apply lookup_zip_with_Some in Hrow as (x & row' & -> & Hx & Hrow').
    constructor; [done|by apply IHrows].
Qed.

Section data_files.
Context (fmt_e : Q → string) (can_write : string → World → bool).

(** X19: the data file of a stability plot whose curves are aligned (the
    same x values [fullXs] in every curve and as many y values): the call
    opens the file (raising [OSError] when it cannot be written) and
    writes a text that has one row per x value, row [i] holding the x
    value followed by the [i]-th y value of every curve, in the order of
    the curves, separated by tabs. *)
Theorem plotToDatafile_stability_table (pData : list Curve) (fullXs : list Q) (hstep : Q)
    (metric fName : string) (w : World) :
  pData ≠ [] →
  Forall (λ curve : Curve, curve.1 = fullXs ∧ length curve.2 = length fullXs) pData →
  ∃ rows,
    plotToDatafile fmt_e can_write "stability" pData hstep metric fName w
    = (open_w can_write fName w;;
       Ok (true, write_file fName (TextFile (String.concat newline rows)) w)) ∧
    length rows = length fullXs ∧
    ∀ i x, fullXs !! i = Some x →
      ∃ ys, Forall2 (λ (curve : Curve) y, curve.2 !! i = Some y) pData ys ∧
            rows !! i = Some (fmt_e x +:+ tab +:+ String.concat tab (fmt_e <$> ys)).
Proof.
  intros Hne Hall. destruct pData as [|first pData]; [done|].
  destruct (py_zip_star_rows (snd <$> first :: pData) (length fullXs)) as [Hlen Hrows].
  { done. }
  { apply Forall_fmap. eapply Forall_impl; [exact Hall|]. by intros curve [_ Hcurve]. }
  assert (Hfirst : first.1 = fullXs) by (by apply Forall_cons in Hall as [[? _] _]).
  exists (stability_rows fmt_e fullXs (py_zip_star (snd <$> first :: pData))). split_and!.
  - unfold plotToDatafile. rewrite decide_False, decide_True by done.
    cbn [py_first mbind result_bind]. by rewrite Hfirst.
  - unfold stability_rows. rewrite length_fmap, length_zip_with, Hlen. lia.
  - intros i x Hx.
    destruct (lookup_lt_is_Some_2 (py_zip_star (snd <$> first :: pData)) i) as [row Hrow].
    { rewrite Hlen. by eapply lookup_lt_Some. }
    exists row. split.
    + apply Hrows in Hrow. by apply Forall2_fmap_l in Hrow.
    + unfold stability_rows. rewrite list_lookup_fmap.
      assert (Hzip : zip fullXs (py_zip_star (snd <$> first :: pData)) !! i = Some (x, row)).
      { apply lookup_zip_with_Some. eauto. }
      by rewrite Hzip.
Qed.

End data_files.

Section figures.
Context (fmt_2f : Q → string) (fmt_i : Z → string) (can_write : string → World → bool).

Lemma stability_colors (n : nat) :
  n ≠ 1%nat →
  mapM (λ i : nat, py_div (inject_Z (Z.of_nat i)) (inject_Z (Z.of_nat n - 1))) (seq 0 n)
  = Ok ((λ i : nat, inject_Z (Z.of_nat i) / inject_Z (Z.of_nat n - 1))%Q <$> seq 0 n).
Proof.
  intros Hn. generalize (seq 0 n). intros l. induction l as [|i l IH]; [done|].
  change (mapM ?f (i :: l)) with (f i ≫= λ y, mapM f l ≫= λ k, mret (y :: k)). cbv beta.
  rewrite py_div_nonzero by lia. cbn [mbind result_bind]. by rewrite IH.
Qed.

(** X20: the figure of a stability plot, with matplotlib available.  For
    exactly one curve the colour calculation divides by zero and the call
    raises [ZeroDivisionError].  For two curves or more the figure is
    saved (raising [OSError] when the file cannot be written) and the call
    returns [True]; its line plots are exactly one per curve with x values:
    curve [i] of [n] is drawn with line width 3, labelled "Slice i" and
    coloured at [i / (n - 1)] of the colormap. *)
Theorem plotToFigure_stability_curves (pData : list Curve) (hstep : Q)
    (metric fName unitName : string) (w : World) :
  (length pData = 1%nat →
   plotToFigure fmt_2f fmt_i true can_write "stability" pData hstep metric fName unitName w
   = Raise ZeroDivisionError) ∧
  ((1 < length pData)%nat →
   ∃ figure,
     plotToFigure fmt_2f fmt_i true can_write "stability" pData hstep metric fName unitName w
     = (w' ← saveFigure can_write figure fName w; Ok (true, w')) ∧
     ∀ xs ys fmt lw color label,
       plt_plot xs ys fmt lw color label ∈ figure ↔
       ∃ i : nat,
         pData !! i = Some (xs, ys) ∧ xs ≠ [] ∧ fmt = "-" ∧ lw = Some 3 ∧
         color = Some (winter (inject_Z (Z.of_nat i)
                               / inject_Z (Z.of_nat (length pData) - 1))) ∧
         label = Some ("Slice " +:+ fmt_i (Z.of_nat i))).
Proof.
  unfold plotToFigure. rewrite decide_False, decide_True by done. cbv zeta. split.
  - intros Hlen. destruct pData as [|curve [|??]]; try done.
  - intros Hlen. rewrite stability_colors by lia. cbn [mbind result_bind].
    eexists. split; [reflexivity|].
    intros xs ys fmt lw color label.
    rewrite !elem_of_app, !elem_of_cons, elem_of_nil, list_elem_of_omap.
    split.
    + intros [[[[=]|[]]|([j [[xs' ys'] col]] & Hitem & Hplot)]|Hin];
        [|repeat (destruct Hin as [[=]|Hin]); destruct Hin].
      cbn [fst snd] in Hplot.
      apply list_elem_of_lookup in Hitem as [i Hitem].
      apply lookup_zip_with_Some in Hitem as (j' & item & [= <- <-] & Hj & Hitem).
      apply lookup_zip_with_Some in Hitem as (curve & col' & [= <- <-] & Hcurve & Hcol).
      apply lookup_seq in Hj as [-> Hi]. simpl in Hcurve.
      rewrite <- list_fmap_compose, list_lookup_fmap, lookup_seq_lt in Hcol by done.
      injection Hcol as <-.
      destruct xs' as [|x xs']; [done|]. injection Hplot as <- <- <- <- <- <-.
      exists i. by split_and!.
    + intros (i & Hcurve & Hxs & -> & -> & -> & ->). left. right.
      exists (i, ((xs, ys), winter (inject_Z (Z.of_nat i) / inject_Z (Z.of_nat (length pData) - 1)))).
      assert (Hi : (i < length pData)%nat) by (by eapply lookup_lt_Some).
      split.
      * apply (list_elem_of_lookup_2 _ i), lookup_zip_with_Some.
        eexists _, _. split; [done|]. split; [by apply lookup_seq|].
        apply lookup_zip_with_Some. eexists _, _. split; [done|]. split; [done|].
        by rewrite <- list_fmap_compose, list_lookup_fmap, lookup_seq_lt.
      * cbn [fst snd]. by destruct xs.
Qed.

End figures.

Section no_matplotlib.
Context (fmt_e fmt_2f : Q → string) (fmt_i : Z → string).
Context (can_write : string → World → bool).

(** X24: without matplotlib and without a dump root the output loop
    completes for every content of [plotDataMap] and leaves the files as
    they were. *)
Theorem output_loop_without_matplotlib (oargs : OutputArgs) (xStep : Q)
    (metricName unitName : string) (plotDataMap : gmap string (list Curve)) (w : World) :
  dump oargs = None →
  ∃ w', output_loop fmt_e fmt_2f fmt_i false can_write oargs xStep metricName unitName plotDataMap w
        = Ok w' ∧
        files w' = files w.
Proof.
  intros Hdump. unfold output_loop. generalize (sorted_items plotDataMap). intros items.
  revert w. induction items as [|[plotK plotData] items IH]; intros w; [by exists w|].
  cbn [output_items fst snd].
  assert (Hstep : ∃ w1, output_plot fmt_e fmt_2f fmt_i false can_write oargs xStep metricName unitName
                          plotK plotData w = Ok w1 ∧ files w1 = files w).
  { unfold output_plot. rewrite Hdump. destruct (plot oargs) as [root|]; [|by eexists].
    cbv zeta. destruct (canCreateFile _ _ _); by eexists. }
  destruct Hstep as (w1 & -> & <-). cbn [mbind result_bind]. apply IH.
Qed.

End no_matplotlib.

Lemma py_sumQ_Qsum (l : list Q) : (py_sumQ l == Qsum l)%Q.
Proof. unfold py_sumQ. rewrite fold_left_Qplus. ring. Qed.

Section baseplot_figure.
Context {L : Hdrh} (fmt_2f : Q → string) (fmt_i : Z → string).
Context (can_write : string → World → bool).

Lemma normalizedDistribution_samples_inv (histogram : hist) (x_incr max_percentile : Q)
    (rawFlag : bool) (curve : Curve) :
  0 < total_count histogram →
  normalizedDistribution histogram x_incr max_percentile rawFlag = Ok curve →
  ¬ (inject_Z (total_count histogram) * x_incr == 0)%Q ∧
  curve = density_points histogram x_incr max_percentile rawFlag.
Proof.
  intros Htot. unfold normalizedDistribution, density_points, sliceValueCount.
  destruct (Z.ltb_spec 0 (total_count histogram)); [|lia]. cbv zeta.
  destruct (kept_steps _ _) as [|s kept]; [done|].
  change (py_unzip2 (step_point <$> s :: kept))
    with (Ok ((step_point <$> s :: kept).*1, (step_point <$> s :: kept).*2)).
  cbn [mbind result_bind fst snd].
  destruct (Qeq_dec (inject_Z (total_count histogram) * x_incr) 0) as [Hz|Hnz].
  - change ((step_point <$> s :: kept).*2)
      with (count_added_in_this_iter_step s :: (step_point <$> kept).*2).
    by rewrite mapM_py_div_zero.
  - rewrite mapM_py_div by done. cbn [mbind result_bind].
    rewrite <- !list_fmap_compose. by intros [= <-].
Qed.

(** X21: the base plot figure of a curve that [normalizedDistribution]
    returned for a histogram with samples, with matplotlib available: when
    none of the kept steps added a sample (the cutoff lies below the first
    populated bucket), every y value is 0, the average divides by their
    sum, and the call raises [ZeroDivisionError]. *)
Theorem baseplot_figure_no_kept_sample (histogram : hist) (x_incr max_percentile : Q)
    (rawFlag : bool) (curve : Curve) (hstep : Q) (metric fName unitName : string) (w : World) :
  0 < total_count histogram →
  normalizedDistribution histogram x_incr max_percentile rawFlag = Ok curve →
  Forall (λ step, count_added_in_this_iter_step step = 0)
    (kept_steps (get_linear_iterator histogram (x_incr * scale_factor rawFlag))
       max_percentile) →
  Forall (λ y, (y == 0)%Q) curve.2 ∧
  plotToFigure fmt_2f fmt_i true can_write "baseplot" [curve] hstep metric fName unitName w
  = Raise ZeroDivisionError.
Proof.
  intros Htot Hcurve Hzero.
  apply normalizedDistribution_samples_inv in Hcurve as [Hd ->]; [|done].
  unfold density_points. cbv zeta. cbn [fst snd].
  set (kept := kept_steps _ _) in *.
  set (d := (inject_Z (total_count histogram) * x_incr)%Q) in *.
  set (ys := (λ step, (inject_Z (count_added_in_this_iter_step step) / d)%Q) <$> kept).
  assert (Hys : Forall (λ y, (y == 0)%Q) ys).
  { apply Forall_fmap. eapply Forall_impl; [exact Hzero|].
    intros step Hstep. simpl in *. rewrite Hstep. unfold Qdiv. by rewrite Qmult_0_l. }
  split; [done|].
  assert (Hden : (py_sumQ ys == 0)%Q).
  { rewrite py_sumQ_Qsum. clear -Hys. induction Hys as [|y ys Hy _ IH]; [done|].
    cbn [Qsum fold_right]. change (fold_right Qplus 0%Q ys) with (Qsum ys).
    rewrite Hy, IH. reflexivity. }
  unfold plotToFigure. rewrite decide_True by done.
  cbn [py_first mbind result_bind]. cbv zeta. cbn [fst snd]. fold ys.
  unfold py_div. apply Qeq_bool_iff in Hden. by rewrite Hden.
Qed.

End baseplot_figure.

Lemma sorted_items_elem_of (plotDataMap : gmap string (list Curve)) (item : string * list Curve) :
  item ∈ sorted_items plotDataMap ↔ plotDataMap !! item.1 = Some item.2.
Proof.
  unfold sorted_items. rewrite py_sorted_with_Permutation. destruct item as [k plots].
  apply elem_of_map_to_list.
Qed.

Section main_entries.
Context {L : Hdrh}.

Lemma main_analysis_entries (slices : list hist) (args : Args) (st : MainState) :
  main_analysis slices args = Ok st →
  ∀ plotK plotData, plotDataMap st !! plotK = Some plotData → analysis_entry plotK plotData.
Proof.
  intros (fullHistogram & xStep & st1 & st2 & _ & _ & H1 & H2 & H3)%main_analysis_inv.
  apply baseplot_branch_inv in H1. apply stability_branch_inv in H2.
  apply percentiles_branch_inv in H3.
  assert (Hstab : stability args && (1 <? length slices)%nat = true →
            ∀ ps0 ps,
              mapM (λ sl, normalizedDistribution sl xStep (max_percentile args) (raw args)) slices
                = Ok ps0 →
              pad_curves ps0 = Ok ps → (1 < length ps)%nat).
  { intros [_ Hlen%Nat.ltb_lt]%andb_true_iff ps0 ps Hmap%mapM_result_length Hpad.
    unfold pad_curves in Hpad. destruct (py_max_key_len _) as [fullXs|]; [|done].
    injection Hpad as <-. rewrite length_fmap. lia. }
  intros plotK plotData.
  destruct H1 as [[_ ->]|(_ & curve & _ & Hm1)];
    destruct H2 as [[_ Hm2]|(Hflag & ps0 & ps & Hmap & Hpad & Hm2)];
    destruct H3 as [[_ ->]|(_ & base & Hm3)];
    cbn [plotDataMap] in *;
    repeat match goal with H : plotDataMap _ = _ |- _ => rewrite H; clear H end.
  all: rewrite ?lookup_insert_Some, ?lookup_empty; unfold analysis_entry.
  all: intros Hk; repeat (destruct Hk as [[<- <-]|[_ Hk]]); try done; eauto 10.
  all: do 2 try (apply lookup_insert_Some in Hk as [[<- <-]|[_ Hk]]); try done; eauto 10.
  all: right; left; split; [done|]; by eapply Hstab.
Qed.

End main_entries.

Lemma py_sorted_with_head {A} (lt : A → A → bool) (x : A) (l : list A) :
  lt x x = false →
  (∀ y, y ∈ l → y = x ∨ (lt x y = true ∧ lt y x = false)) →
  x ∈ l →
  ∃ rest, py_sorted_with lt l = x :: rest.
Proof.
  intros Hirr. unfold py_sorted_with.
  induction l as [|a l IH]; intros Hmin Hin; [by apply elem_of_nil in Hin|].
  cbn [foldr].
  assert (Hperm : foldr (py_insert_with lt) [] l ≡ₚ l) by apply py_sorted_with_Permutation.
  destruct (foldr (py_insert_with lt) [] l) as [|y sorted] eqn:Hsorted.
  - apply Permutation_nil_l in Hperm. subst l.
    apply list_elem_of_singleton in Hin as ->. by eexists.
  - assert (Hy : y ∈ l) by (rewrite <- Hperm; by left).
    cbn [py_insert_with].
    assert (Hhead : a = x → ∃ rest, (if lt y a then y :: py_insert_with lt a sorted
                                     else a :: y :: sorted) = x :: rest).
    { intros ->. destruct (Hmin y ltac:(by right)) as [->|[_ Hyx]].
      - rewrite Hirr. by eexists.
      - rewrite Hyx. by eexists. }
    apply elem_of_cons in Hin as [->|Hin]; [by apply Hhead|].
    destruct IH as [rest Hrest]; [intros z Hz; apply Hmin; by right|done|].
    injection Hrest as -> ->.
    destruct (Hmin a ltac:(by left)) as [->|[Hxa _]]; [by apply Hhead|].
    rewrite Hxa. by eexists.
Qed.

Lemma sorted_items_baseplot_first (plotDataMap : gmap string (list Curve))
    (plotData : list Curve) :
  (∀ plotK plotData, plotDataMap !! plotK = Some plotData → analysis_entry plotK plotData) →
  plotDataMap !! "baseplot" = Some plotData →
  ∃ rest, sorted_items plotDataMap = ("baseplot", plotData) :: rest.
Proof.
  intros Hentries Hbase. unfold sorted_items. apply py_sorted_with_head.
  - reflexivity.
  - intros [plotK plotData'] Hitem%elem_of_map_to_list. cbn [fst].
    destruct (Hentries _ _ Hitem) as [[-> _]|[[-> _]|[-> _]]].
    + left. congruence.
    + right. by split.
    + right. by split.
  - by apply elem_of_map_to_list.
Qed.

Section output_errors.
Context (fmt_e fmt_2f : Q → string) (fmt_i : Z → string) (plt : bool).
Context (can_write : string → World → bool).

Lemma plotToDatafile_entry (pType : string) (pData : list Curve) (hstep : Q)
    (metric fName : string) (w : World) :
  analysis_entry pType pData →
  (∃ w', plotToDatafile fmt_e can_write pType pData hstep metric fName w = Ok (true, w')) ∨
  (plotToDatafile fmt_e can_write pType pData hstep metric fName w = Raise OSError ∧
   can_write fName w = false).
Proof.
  unfold plotToDatafile, open_w.
  intros [(-> & curve & ->)|[[-> Hlen]|(-> & curve & ->)]].
  - rewrite decide_True by done.
    destruct (can_write fName w); [left; by eexists|by right].
  - rewrite decide_False, decide_True by done.
    destruct pData as [|first pData]; [simpl in Hlen; lia|].
    destruct (can_write fName w); [left; by eexists|by right].
  - rewrite decide_False, decide_False, decide_True by done.
    destruct (can_write fName w); [left; by eexists|by right].
Qed.

Lemma saveFigure_cases (figure : list PltCall) (fName : string) (w : World) :
  (∃ w', saveFigure can_write figure fName w = Ok w') ∨
  (saveFigure can_write figure fName w = Raise OSError ∧ can_write fName w = false).
Proof.
  unfold saveFigure, open_w. destruct (can_write fName w); [left; by eexists|by right].
Qed.

Lemma plotToFigure_entry (pType : string) (pData : list Curve) (hstep : Q)
    (metric fName unitName : string) (w : World) :
  analysis_entry pType pData →
  (∃ res, plotToFigure fmt_2f fmt_i plt can_write pType pData hstep metric fName unitName w
          = Ok res) ∨
  (plotToFigure fmt_2f fmt_i plt can_write pType pData hstep metric fName unitName w
   = Raise ZeroDivisionError ∧
   plt = true ∧ pType = "baseplot" ∧ ∃ curve, pData = [curve] ∧ (py_sumQ curve.2 == 0)%Q) ∨
  (plotToFigure fmt_2f fmt_i plt can_write pType pData hstep metric fName unitName w
   = Raise OSError ∧
   plt = true ∧ can_write fName w = false).
Proof.
  unfold plotToFigure. destruct plt; [|left; by eexists].
  intros [(-> & curve & ->)|[[-> Hlen]|(-> & curve & ->)]].
  - rewrite decide_True by done. cbn [py_first mbind result_bind]. cbv zeta.
    unfold py_div. destruct (Qeq_bool (py_sumQ curve.2) 0) eqn:Hsum.
    + right. left. apply Qeq_bool_iff in Hsum. split_and!; [done..|]. by exists curve.
    + cbn [mbind result_bind].
      match goal with |- context [saveFigure _ ?figure _ _] =>
        destruct (saveFigure_cases figure fName w) as [[w' ->]|[-> Hcan]] end.
      * left. by eexists.
      * right. right. by split_and!.
  - rewrite decide_False, decide_True by done. cbv zeta.
    rewrite stability_colors by lia. cbn [mbind result_bind].
    match goal with |- context [saveFigure _ ?figure _ _] =>
      destruct (saveFigure_cases figure fName w) as [[w' ->]|[-> Hcan]] end.
    + left. by eexists.
    + right. right. by split_and!.
  - rewrite decide_False, decide_False, decide_True by done.
    cbn [py_first mbind result_bind]. cbv zeta.
    match goal with |- context [saveFigure _ ?figure _ _] =>
      destruct (saveFigure_cases figure fName w) as [[w' ->]|[-> Hcan]] end.
    + left. by eexists.
    + right. right. by split_and!.
Qed.

Lemma output_plot_entry (oargs : OutputArgs) (xStep : Q) (metricName unitName plotK : string)
    (plotData : list Curve) (w : World) :
  analysis_entry plotK plotData →
  (∃ w', output_plot fmt_e fmt_2f fmt_i plt can_write oargs xStep metricName unitName plotK
           plotData w = Ok w') ∨
  (output_plot fmt_e fmt_2f fmt_i plt can_write oargs xStep metricName unitName plotK
     plotData w = Raise ZeroDivisionError ∧
   plt = true ∧ is_Some (plot oargs) ∧ plotK = "baseplot" ∧
   ∃ curve, plotData = [curve] ∧ (py_sumQ curve.2 == 0)%Q) ∨
  (output_plot fmt_e fmt_2f fmt_i plt can_write oargs xStep metricName unitName plotK
     plotData w = Raise OSError ∧
   ∃ root extension w',
     ((plot oargs = Some root ∧ plt = true ∧ extension = "png") ∨
      (dump oargs = Some root ∧ extension = "dat")) ∧
     can_write (output_name root plotK extension) w' = false).
Proof.
  intros Hentry. unfold output_plot.
  set (w0 := world_print _ w).
  assert (Hdata : ∀ w1,
            let data :=
              match dump oargs with
              | Some root =>
                  let fileName := output_name root plotK "dat" in
                  if canCreateFile fileName (force oargs) w1
                  then res ← plotToDatafile fmt_e can_write plotK plotData xStep metricName
                               fileName w1;
                       let res : bool * World := res in
                       if res.1 then Ok (world_print ("      " +:+ fileName) res.2)
                       else Ok (world_print ("      *FAILED*: " +:+ fileName) res.2)
                  else Ok (world_print ("      *SKIPPING*: " +:+ fileName) w1)
              | None => Ok w1
              end in
            (∃ w', data = Ok w') ∨
            (data = Raise OSError ∧
             ∃ root, dump oargs = Some root ∧
                     can_write (output_name root plotK "dat") w1 = false)).
  { intros w1. destruct (dump oargs) as [root|]; [|left; by eexists]. cbv zeta.
    destruct (canCreateFile _ _ _); [|left; by eexists].
    destruct (plotToDatafile_entry plotK plotData xStep metricName
                (output_name root plotK "dat") w1 Hentry) as [[w' ->]|[-> Hcan]].
    - left. by eexists.
    - right. split; [done|]. by exists root. }
  assert (Hrest : ∀ w1,
            let data :=
              match dump oargs with
              | Some root =>
                  let fileName := output_name root plotK "dat" in
                  if canCreateFile fileName (force oargs) w1
                  then res ← plotToDatafile fmt_e can_write plotK plotData xStep metricName
                               fileName w1;
                       let res : bool * World := res in
                       if res.1 then Ok (world_print ("      " +:+ fileName) res.2)
                       else Ok (world_print ("      *FAILED*: " +:+ fileName) res.2)
                  else Ok (world_print ("      *SKIPPING*: " +:+ fileName) w1)
              | None => Ok w1
              end in
            (∃ w', data = Ok w') ∨
            (data = Raise OSError ∧
             ∃ root extension w',
               ((plot oargs = Some root ∧ plt = true ∧ extension = "png") ∨
                (dump oargs = Some root ∧ extension = "dat")) ∧
               can_write (output_name root plotK extension) w' = false)).
  { intros w1. destruct (Hdata w1) as [?|(Hraise & root & Hroot & Hcan)]; [by left|right].
    split; [done|]. exists root, "dat", w1. split; [by right|done]. }
  destruct (plot oargs) as [root|] eqn:Hplot; cbn [mbind result_bind].
  2:{ destruct (Hrest w0) as [?|?]; [by left|by right; right]. }
  cbv zeta. destruct (canCreateFile _ _ _); cbn [mbind result_bind].
  2:{ destruct (Hrest (world_print ("      *SKIPPING*: " +:+ output_name root plotK "png") w0))
        as [?|?]; [by left|by right; right]. }
  destruct (plotToFigure_entry plotK plotData xStep metricName
              (output_name root plotK "png") unitName w0 Hentry)
    as [[res ->]|[(-> & Hplt & Hk & Hcurve)|(-> & Hplt & Hcan)]].
  - cbn [mbind result_bind]. destruct res.1; cbn [mbind result_bind].
    + destruct (Hrest (world_print ("      " +:+ output_name root plotK "png") res.2))
        as [?|?]; [by left|by right; right].
    + destruct (Hrest (world_print ("      *FAILED*: " +:+ output_name root plotK "png") res.2))
        as [?|?]; [by left|by right; right].
  - right. left. by split_and!.
  - right. right. split; [done|]. exists root, "png", w0. split; [by left|done].
Qed.

Lemma output_plot_flat_baseplot (oargs : OutputArgs) (xStep : Q) (metricName unitName : string)
    (root : string) (curve : Curve) (w : World) :
  plt = true → plot oargs = Some root → force oargs = true → (py_sumQ curve.2 == 0)%Q →
  output_plot fmt_e fmt_2f fmt_i plt can_write oargs xStep metricName unitName "baseplot"
    [curve] w
  = Raise ZeroDivisionError.
Proof.
  intros -> Hplot Hforce Hsum%Qeq_bool_iff. unfold output_plot. rewrite Hplot, Hforce.
  cbv zeta. unfold canCreateFile. cbn [orb].
  unfold plotToFigure. rewrite decide_True by done. cbn [py_first mbind result_bind]. cbv zeta.
  unfold py_div. by rewrite Hsum.
Qed.

Lemma output_items_entries (oargs : OutputArgs) (xStep : Q) (metricName unitName : string)
    (items : list (string * list Curve)) (w : World) :
  Forall (λ item, analysis_entry item.1 item.2) items →
  (∃ w', output_items fmt_e fmt_2f fmt_i plt can_write oargs xStep metricName unitName items w
         = Ok w') ∨
  (output_items fmt_e fmt_2f fmt_i plt can_write oargs xStep metricName unitName items w
   = Raise ZeroDivisionError ∧
   plt = true ∧ is_Some (plot oargs) ∧
   ∃ curve, ("baseplot", [curve]) ∈ items ∧ (py_sumQ curve.2 == 0)%Q) ∨
  (output_items fmt_e fmt_2f fmt_i plt can_write oargs xStep metricName unitName items w
   = Raise OSError ∧
   ∃ plotK root extension w',
     plotK ∈ items.*1 ∧
     ((plot oargs = Some root ∧ plt = true ∧ extension = "png") ∨
      (dump oargs = Some root ∧ extension = "dat")) ∧
     can_write (output_name root plotK extension) w' = false).
Proof.
  intros Hall. revert w. induction Hall as [|[plotK plotData] items Hentry _ IH]; intros w.
  - left. by eexists.
  - cbn [output_items fst snd] in *. rewrite fmap_cons. cbn [fst].
    destruct (output_plot_entry oargs xStep metricName unitName plotK plotData w Hentry)
      as [[w1 ->]|[(-> & Hplt & Hplot & -> & curve & -> & Hsum)|
                   (-> & root & extension & w' & Hkind & Hcan)]].
    + cbn [mbind result_bind].
      destruct (IH w1) as [?|[(-> & ? & ? & curve & Hin & Hsum)|
                              (-> & k & root & extension & w' & Hk & Hkind & Hcan)]].
      * by left.
      * right. left. split_and!; [done..|]. exists curve. split; [by right|done].
      * right. right. split; [done|]. exists k, root, extension, w'.
        split_and!; [by right|done..].
    + right. left. split_and!; [done..|]. exists curve. split; [by left|done].
    + right. right. split; [done|]. exists plotK, root, extension, w'.
      split_and!; [by left|done..].
Qed.

Lemma main_run_analysis {L : Hdrh} (slices : list hist) (args : Args) (oargs : OutputArgs)
    (metricName : string) (w : World) :
  match main_analysis slices args with
  | Ok st =>
      ∃ xStep,
        main_run fmt_e fmt_2f fmt_i plt can_write slices args oargs metricName w
        = output_loop fmt_e fmt_2f fmt_i plt can_write oargs xStep metricName
            (valueUnitName (raw args)) (plotDataMap st)
            {| files := files w; printed := printed w ++ stdout st |}
  | Raise e =>
      main_run fmt_e fmt_2f fmt_i plt can_write slices args oargs metricName w = Raise e
  end.
Proof.
  unfold main_run, main_analysis. cbv zeta.
  destruct (aggregateSlices _ _) as [fullHistogram|]; [|done]. cbn [mbind result_bind].
  destruct (py_div _ _) as [xStep|]; [|done]. cbn [mbind result_bind].
  destruct (baseplot_branch _ _ _ _) as [st1|]; [|done]. cbn [mbind result_bind].
  destruct (stability_branch _ _ _ _) as [st2|]; [|done]. cbn [mbind result_bind].
  destruct (percentiles_branch _ _ _ _) as [st|]; [|done]. by exists xStep.
Qed.

Lemma sorted_items_entries {L : Hdrh} (slices : list hist) (args : Args) (st : MainState) :
  main_analysis slices args = Ok st →
  Forall (λ item, analysis_entry item.1 item.2) (sorted_items (plotDataMap st)).
Proof.
  intros Hrun. apply Forall_forall. intros item Hitem%sorted_items_elem_of.
  by eapply main_analysis_entries.
Qed.

(** X22: the errors of the output of [main].  When the run raises, either
    the analysis raised that error, or the error is [ZeroDivisionError]
    from the image of a base plot whose y values sum to zero (with a plot
    root given and matplotlib available), or it is [OSError] from an image
    or a data file of one of the plots that could not be written: once
    the analysis has returned, the output raises nothing else. *)
Theorem main_run_errors {L : Hdrh} (slices : list hist) (args : Args) (oargs : OutputArgs)
    (metricName : string) (w : World) (e : PyError) :
  main_run fmt_e fmt_2f fmt_i plt can_write slices args oargs metricName w = Raise e →
  main_analysis slices args = Raise e ∨
  (e = ZeroDivisionError ∧ plt = true ∧ is_Some (plot oargs) ∧
   ∃ st curve,
     main_analysis slices args = Ok st ∧
     plotDataMap st !! "baseplot" = Some [curve] ∧ (py_sumQ curve.2 == 0)%Q) ∨
  (e = OSError ∧
   ∃ st plotK root extension w',
     main_analysis slices args = Ok st ∧
     plotK ∈ dom (plotDataMap st) ∧
     ((plot oargs = Some root ∧ plt = true ∧ extension = "png") ∨
      (dump oargs = Some root ∧ extension = "dat")) ∧
     can_write (output_name root plotK extension) w' = false).
Proof.
  intros Hrun. pose proof (main_run_analysis slices args oargs metricName w) as Hmain.
  destruct (main_analysis slices args) as [st|e'] eqn:Hanalysis; [|left; congruence].
  destruct Hmain as [xStep Hmain]. rewrite Hmain in Hrun. right. unfold output_loop in Hrun.
  destruct (output_items_entries oargs xStep metricName (valueUnitName (raw args))
              (sorted_items (plotDataMap st))
              {| files := files w; printed := printed w ++ stdout st |})
    as [[w' Hok]|[(Hraise & Hplt & Hplot & curve & Hin & Hsum)|
                  (Hraise & k & root & extension & w' & Hk & Hkind & Hcan)]].
  { by eapply sorted_items_entries. }
  { congruence. }
  - left. split_and!; [congruence|done..|]. exists st, curve.
    apply sorted_items_elem_of in Hin. by split_and!.
  - right. split; [congruence|]. exists st, k, root, extension, w'.
    apply sorted_items_keys in Hk. by split_and!.
Qed.

(** X23: when the analysis has stored a base plot whose y values sum to
    zero, a run that plots with [--force] and matplotlib available raises
    [ZeroDivisionError]. *)
Theorem main_run_flat_baseplot {L : Hdrh} (slices : list hist) (args : Args)
    (oargs : OutputArgs) (metricName : string) (w : World) (st : MainState) (curve : Curve) :
  main_analysis slices args = Ok st →
  plotDataMap st !! "baseplot" = Some [curve] → (py_sumQ curve.2 == 0)%Q →
  plt = true → is_Some (plot oargs) → force oargs = true →
  main_run fmt_e fmt_2f fmt_i plt can_write slices args oargs metricName w
  = Raise ZeroDivisionError.
Proof.
  intros Hanalysis Hbase Hsum Hplt [root Hplot] Hforce.
  pose proof (main_run_analysis slices args oargs metricName w) as Hmain.
  rewrite Hanalysis in Hmain. destruct Hmain as [xStep ->]. unfold output_loop.
  destruct (sorted_items_baseplot_first (plotDataMap st) [curve]) as [rest ->];
    [by eapply main_analysis_entries|done|].
  cbn [output_items fst snd].
  by rewrite (output_plot_flat_baseplot _ _ _ _ root).
Qed.

End output_errors.

Lemma output_loop_no_overwrite_witness :
  force (dump_only false) = false ∧
  ∃ w',
    output_loop fmt_mark fmt_mark fmt_mark true all_writable (dump_only false) 1 "read" "RU" two_plots
      old_world = Ok w' ∧
    files w' !! "out_baseplot.dat" = Some (TextFile "old").
Proof.
  assert (Hforce : force (dump_only false) = false) by reflexivity.
  split; [done|].
  destruct (output_loop fmt_mark fmt_mark fmt_mark true all_writable (dump_only false) 1 "read" "RU"
              two_plots old_world) as [w'|] eqn:Hrun; [|by vm_compute in Hrun].
  exists w'. split; [done|].
  apply (output_loop_no_overwrite _ _ _ _ _ _ _ _ _ _ _ _ Hforce Hrun). reflexivity.
Defined.

Lemma output_loop_files_witness :
  ∃ w',
    output_loop fmt_mark fmt_mark fmt_mark true all_writable (dump_only true) 1 "read" "RU" two_plots
      old_world = Ok w' ∧
    is_Some (files w' !! output_name "out" "stability" "dat").
Proof.
  destruct (output_loop fmt_mark fmt_mark fmt_mark true all_writable (dump_only true) 1 "read" "RU"
              two_plots old_world) as [w'|] eqn:Hrun; [|by vm_compute in Hrun].
  exists w'. split; [done|].
  destruct (output_loop_files _ _ _ _ _ _ _ _ _ _ _ _ Hrun) as (_ & _ & _ & Hdat).
  apply Hdat; [|reflexivity]. apply elem_of_dom. by eexists.
Defined.

Lemma plotToDatafile_stability_table_witness :
  ∃ rows,
    plotToDatafile fmt_mark all_writable "stability" [([1; 2], [3; 4]); ([1; 2], [5; 6])]%Q
      1 "read" "out_stability.dat" old_world
    = Ok (true, write_file "out_stability.dat" (TextFile (String.concat newline rows))
                  old_world) ∧
    length rows = 2%nat.
Proof.
  assert (Hne : [([1; 2], [3; 4]); ([1; 2], [5; 6])]%Q ≠ ([] : list Curve)) by done.
  assert (Hall : Forall (λ curve : Curve, curve.1 = [1; 2]%Q ∧ length curve.2 = length [1; 2]%Q)
                   [([1; 2], [3; 4]); ([1; 2], [5; 6])]%Q).
  { by repeat constructor. }
  destruct (plotToDatafile_stability_table fmt_mark all_writable _ _ 1 "read"
              "out_stability.dat" old_world Hne Hall) as (rows & Hrun & Hlen & _).
  by exists rows.
Defined.

Lemma plotToFigure_stability_curves_witness :
  plotToFigure fmt_mark fmt_mark true all_writable "stability" [([1; 2], [3; 4])%Q] 1 "read"
    "out_stability.png" "RU" old_world
  = Raise ZeroDivisionError.
Proof.
  by apply (plotToFigure_stability_curves fmt_mark fmt_mark all_writable [([1; 2], [3; 4])%Q]).
Defined.

Lemma output_loop_without_matplotlib_witness :
  ∃ w',
    output_loop fmt_mark fmt_mark fmt_mark false all_writable (plot_only true) 1 "read" "RU"
      two_plots old_world = Ok w' ∧
    files w' = files old_world.
Proof. by apply output_loop_without_matplotlib. Defined.

Lemma baseplot_figure_no_kept_sample_witness :
  0 < total_count slice_a ∧
  normalizedDistribution slice_a (1 # 2) 10 true = Ok ([2 # 8], [0 # 3])%Q ∧
  plotToFigure fmt_mark fmt_mark true all_writable "baseplot" [([2 # 8], [0 # 3])%Q] 1 "read"
    "out_baseplot.png" "RU" old_world
  = Raise ZeroDivisionError.
Proof.
  assert (Htot : 0 < total_count slice_a) by reflexivity.
  assert (Hcurve : normalizedDistribution slice_a (1 # 2) 10 true = Ok ([2 # 8], [0 # 3])%Q)
    by (vm_compute; reflexivity).
  assert (Hzero : Forall (λ step, count_added_in_this_iter_step step = 0)
                    (kept_steps (get_linear_iterator slice_a ((1 # 2) * scale_factor true))
                       10)).
  { by repeat constructor. }
  split_and!; [done..|].
  by destruct (baseplot_figure_no_kept_sample (L:=RefHdrh) fmt_mark fmt_mark all_writable
                 slice_a (1 # 2) 10 true _ 1 "read" "out_baseplot.png" "RU" old_world
                 Htot Hcurve Hzero).
Defined.

Lemma main_run_errors_witness :
  main_run fmt_mark fmt_mark fmt_mark true read_only [slice_a; slice_b] all_analyses
    (dump_only true) "read" old_world = Raise OSError ∧
  ∃ st, main_analysis [slice_a; slice_b] all_analyses = Ok st.
Proof.
  assert (Hrun : main_run (L:=RefHdrh) fmt_mark fmt_mark fmt_mark true read_only
                   [slice_a; slice_b] all_analyses (dump_only true) "read" old_world
                 = Raise OSError) by (by vm_compute).
  split; [done|].
  destruct (main_run_errors (L:=RefHdrh) _ _ _ _ _ _ _ _ _ _ _ Hrun)
    as [Hanalysis|[(Hzero & _)|(_ & st & _ & _ & _ & _ & Hanalysis & _)]].
  - by vm_compute in Hanalysis.
  - done.
  - by exists st.
Defined.

Lemma main_run_flat_baseplot_witness :
  ∃ st,
    main_analysis [slice_empty; slice_empty] all_analyses = Ok st ∧
    plotDataMap st !! "baseplot" = Some [([], [])] ∧
    main_run fmt_mark fmt_mark fmt_mark true all_writable [slice_empty; slice_empty] all_analyses
      (plot_only true) "read" old_world = Raise ZeroDivisionError.
Proof.
  destruct (main_analysis (L:=RefHdrh) [slice_empty; slice_empty] all_analyses)
    as [st|] eqn:Hanalysis; [|by vm_compute in Hanalysis].
  assert (Hbase : plotDataMap st !! "baseplot" = Some [([], [])]).
  { vm_compute in Hanalysis. injection Hanalysis as <-. reflexivity. }
  exists st. split_and!; [done..|].
  apply (main_run_flat_baseplot (L:=RefHdrh) fmt_mark fmt_mark fmt_mark true all_writable
           _ _ _ _ _ st ([], []) Hanalysis Hbase);
    [reflexivity|reflexivity|by eexists|reflexivity].
Defined.
